(** * Gatwick METAR service: a shallow embedding and its properties

    The service (src/metar_service.py, src/app.py) fetches the latest METAR
    of Gatwick (EGKK) from the CheckWX API, falls back to aviationweather.gov,
    and renders the decoded observation as a text block.

    The embedding follows the Python code statement by statement:
    - JSON-decoded values are the inductive type [json]; a Python [dict] is an
      association list in insertion order, with pairwise distinct keys;
    - a Python exception is the [Raise] case of [result]; [try]/[except] is
      [try_except], and [io_try] where requests are made;
    - the two HTTP requests and the outgoing WhatsApp message are events
      appended to a trace, the answers of the network being given by a
      [world] that may depend on everything that happened before;
    - Python floats are IEEE binary64 numbers ([spec_float] at precision 53),
      so [float(..)], [/ 1000], [* 1.60934] and the [.1f] format are computed
      bit for bit;
    - strings are UTF-8 byte strings;
    - [repr] of a string, [strptime]/[strftime] and the digits and white
      space that [float] accepts depend on the Unicode database, the locale
      and the C library: they are the fields of [PyRuntime], over which every
      property is stated; [cpython] is the instance the examples run on.

    Calls to [logger] only write to the log and are left out; the wording of
    [str(e)] in the error reply of [webhook] is kept symbolic. *)

From Stdlib Require Import String Ascii ZArith List Bool Lia.
From Stdlib Require Import Floats.SpecFloat Numbers.DecimalString Numbers.DecimalZ.
Import ListNotations.

Open Scope string_scope.
Open Scope Z_scope.

(** ** Exceptions and results *)

(** The exception classes the modelled code can meet. All of them derive from
    [Exception], so every [except Exception] and every bare [except] of the
    source catches each of them. *)
Inductive exn : Type :=
| AttributeError
| TypeError
| ValueError
| KeyError
| IndexError
| OverflowError
| JSONDecodeError
| RequestException.

Inductive result (A : Type) : Type :=
| Ok (a : A)
| Raise (e : exn).

Arguments Ok {A} a.
Arguments Raise {A} e.

Definition bind {A B : Type} (c : result A) (k : A -> result B) : result B :=
  match c with
  | Ok a => k a
  | Raise e => Raise e
  end.

Declare Scope py_scope.
Delimit Scope py_scope with py.
Notation "x <- c ;; k" := (bind c (fun x => k))
  (at level 61, c at next level, right associativity) : py_scope.

(** [try: body  except Exception: handler] *)
Definition try_except {A : Type} (body : result A) (handler : exn -> result A) : result A :=
  match body with
  | Ok a => Ok a
  | Raise e => handler e
  end.

Definition is_ok {A : Type} (c : result A) : bool :=
  match c with
  | Ok _ => true
  | Raise _ => false
  end.

(** ** Characters and strings *)

Definition code (c : ascii) : Z := Z.of_N (N_of_ascii c).

Definition is_digit (c : ascii) : bool := (48 <=? code c) && (code c <=? 57).

Definition digit_val (c : ascii) : Z := code c - 48.

(** The ASCII white space that [float] strips: space, tab, line feed, vertical
    tab, form feed and carriage return. *)
Definition is_space (c : ascii) : bool :=
  (code c =? 32) || ((9 <=? code c) && (code c <=? 13)).

Definition lower (c : ascii) : ascii :=
  if (65 <=? code c) && (code c <=? 90) then ascii_of_N (Z.to_N (code c + 32)) else c.

Fixpoint lower_str (s : string) : string :=
  match s with
  | EmptyString => EmptyString
  | String c s' => String (lower c) (lower_str s')
  end.

Fixpoint lstrip (s : string) : string :=
  match s with
  | String c s' => if is_space c then lstrip s' else s
  | EmptyString => EmptyString
  end.

Fixpoint rstrip (s : string) : string :=
  match s with
  | EmptyString => EmptyString
  | String c s' =>
      match rstrip s' with
      | EmptyString => if is_space c then EmptyString else String c EmptyString
      | t => String c t
      end
  end.

Definition strip (s : string) : string := rstrip (lstrip s).

Fixpoint starts_with (p s : string) : bool :=
  match p, s with
  | EmptyString, _ => true
  | String a p', String b s' => Ascii.eqb a b && starts_with p' s'
  | String _ _, EmptyString => false
  end.

(** [p in s] for two strings. *)
Fixpoint contains (p s : string) : bool :=
  starts_with p s ||
  match s with
  | EmptyString => false
  | String _ s' => contains p s'
  end.

(** [sep.join(l)] *)
Fixpoint join (sep : string) (l : list string) : string :=
  match l with
  | [] => ""
  | [x] => x
  | x :: rest => x ++ sep ++ join sep rest
  end.

(** A continuation byte of a UTF-8 sequence (10xxxxxx). *)
Definition is_continuation (c : ascii) : bool := (128 <=? code c) && (code c <? 192).

(** The characters (code points) of a string, each as a one-character
    string: what iterating over a [str] yields. *)
Fixpoint chars (s : string) : list string :=
  match s with
  | EmptyString => []
  | String c s' =>
      match chars s' with
      | t :: rest =>
          match t with
          | String c' _ => if is_continuation c' then String c t :: rest
                           else String c EmptyString :: t :: rest
          | EmptyString => String c EmptyString :: rest
          end
      | [] => [String c EmptyString]
      end
  end.

(** The code point that one UTF-8 sequence encodes. *)
Definition code_point (c : string) : Z :=
  match c with
  | EmptyString => 0
  | String lead rest =>
      fold_left (fun acc b => 64 * acc + (code b - 128)) (list_ascii_of_string rest)
        (if code lead <? 128 then code lead
         else if code lead <? 224 then code lead - 192
         else if code lead <? 240 then code lead - 224
         else code lead - 240)
  end.

(** The code points of a string. *)
Definition code_points (s : string) : list Z := map code_point (chars s).

Definition is_ascii (s : string) : bool :=
  forallb (fun c => code c <? 128) (list_ascii_of_string s).

Definition Z_to_string (z : Z) : string := NilZero.string_of_int (Z.to_int z).

Fixpoint zeros (n : nat) : string :=
  match n with
  | O => ""
  | S n' => String "0" (zeros n')
  end.

(** ** Floats: IEEE binary64 *)

Definition prec : Z := 53.
Definition emax : Z := 1024.
Definition float : Type := spec_float.

Definition fdiv (x y : float) : float := SFdiv prec emax x y.
Definition fmul (x y : float) : float := SFmul prec emax x y.

(** [float(z)] for an integer: the nearest double, ties to even. *)
Definition Z_to_float (z : Z) : float := binary_normalize prec emax z 0 false.

(** The double nearest to [p / q], for positive integers [p] and [q]. *)
Definition ratio_to_float (s : bool) (p q : Z) : float :=
  let '(m, e, l) := SFdiv_core_binary prec emax p 0 q 0 in
  binary_round_aux prec emax s m e l.

(** The double nearest to [(-1)^s * n * 10^x], for [0 <= n]: the value of a
    decimal literal. *)
Definition decimal_to_float (s : bool) (n x : Z) : float :=
  if n =? 0 then S754_zero s
  else if 0 <=? x then binary_round_aux prec emax s (n * 10 ^ x) 0 loc_Exact
  else ratio_to_float s n (10 ^ (- x)).

(** The literal [1.60934] of the source. *)
Definition miles_to_km : float := Eval vm_compute in decimal_to_float false 160934 (-5).

Definition float_1000 : float := Eval vm_compute in Z_to_float 1000.

Definition same_float (x y : float) : bool :=
  match SFcompare x y with
  | Some Eq => true
  | _ => false
  end.

(** *** [float(s)] for a string

    [float] reads a string in two steps. It first maps the digits and the
    white space outside ASCII to their ASCII counterparts (see
    [float_of_string] below); it then reads the ASCII text by the grammar of
    the Python reference:
    [[sign] (floatnumber | "inf" | "infinity" | "nan")] between optional white
    space, where
    [floatnumber ::= ([digitpart] "." digitpart | digitpart ["."]) [exponent]],
    [digitpart ::= digit (["_"] digit)*] and
    [exponent ::= ("e" | "E") [sign] digitpart]. The value is the double nearest
    to the decimal, ties to even. *)

(** [digit (["_"] digit)*] after a first digit: the value and the number of
    digits read so far, and what is left. *)
Fixpoint digitpart_tail (s : string) (acc cnt : Z) : Z * Z * string :=
  match s with
  | String c s' =>
      if is_digit c then digitpart_tail s' (10 * acc + digit_val c) (cnt + 1)
      else if code c =? 95 then
        match s' with
        | String c' s'' =>
            if is_digit c' then digitpart_tail s'' (10 * acc + digit_val c') (cnt + 1)
            else (acc, cnt, s)
        | EmptyString => (acc, cnt, s)
        end
      else (acc, cnt, s)
  | EmptyString => (acc, cnt, s)
  end.

Definition digitpart (s : string) : option (Z * Z * string) :=
  match s with
  | String c s' => if is_digit c then Some (digitpart_tail s' (digit_val c) 1) else None
  | EmptyString => None
  end.

Definition read_sign (s : string) : bool * string :=
  match s with
  | String "+" s' => (false, s')
  | String "-" s' => (true, s')
  | _ => (false, s)
  end.

Definition read_exponent (s : string) : option (Z * string) :=
  match s with
  | String c s' =>
      if code (lower c) =? 101 then
        let '(neg, s'') := read_sign s' in
        match digitpart s'' with
        | Some (v, _, rest) => Some (if neg then - v else v, rest)
        | None => None
        end
      else Some (0, s)
  | EmptyString => Some (0, s)
  end.

(** The mantissa as an integer, the number of digits after the point, and
    what is left. *)
Definition read_number (s : string) : option (Z * Z * string) :=
  match digitpart s with
  | Some (i, _, String "." r) =>
      match digitpart r with
      | Some (f, k, rest) => Some (i * 10 ^ k + f, k, rest)
      | None => Some (i, 0, r)
      end
  | Some (i, _, rest) => Some (i, 0, rest)
  | None =>
      match s with
      | String "." r =>
          match digitpart r with
          | Some (f, k, rest) => Some (f, k, rest)
          | None => None
          end
      | _ => None
      end
  end.

(** The second step, on ASCII text. [None] stands for [ValueError]. *)
Definition float_of_ascii (s : string) : option float :=
  let '(neg, body) := read_sign (strip s) in
  let low := lower_str body in
  if String.eqb low "inf" || String.eqb low "infinity" then Some (S754_infinity neg)
  else if String.eqb low "nan" then Some S754_nan
  else
    match read_number body with
    | Some (n, k, r) =>
        match read_exponent r with
        | Some (x, EmptyString) => Some (decimal_to_float neg n (x - k))
        | _ => None
        end
    | None => None
    end.

(** *** Floats to text *)

Definition sign_str (s : bool) : string := if s then "-" else "".

(** The integer nearest to [p / q], ties to even ([0 <= p], [0 < q]). *)
Definition round_half_even (p q : Z) : Z :=
  let d := p / q in
  match (2 * (p mod q)) ?= q with
  | Lt => d
  | Gt => d + 1
  | Eq => if Z.even d then d else d + 1
  end.

(** The number of tenths nearest to the exact value [m * 2^e]. *)
Definition tenths (m : positive) (e : Z) : Z :=
  if 0 <=? e then Zpos m * 2 ^ e * 10
  else round_half_even (Zpos m * 10) (2 ^ (- e)).

(** [f"{x:.1f}"]: the exact value of the double, rounded to one decimal. *)
Definition format_1f (x : float) : string :=
  match x with
  | S754_nan => "nan"
  | S754_infinity s => sign_str s ++ "inf"
  | S754_zero s => sign_str s ++ "0.0"
  | S754_finite s m e =>
      let t := tenths m e in
      sign_str s ++ Z_to_string (t / 10) ++ "." ++ Z_to_string (t mod 10)
  end.

(** [repr(x)], which is also [str(x)]: the shortest decimal that reads back as
    [x], the nearest to [x] among those. *)

(** The largest [n <= 310] with [10^n <= p / q]. *)
Fixpoint dec_exp_search (fuel : nat) (n p q : Z) : Z :=
  match fuel with
  | O => n
  | S fuel' =>
      if (if 0 <=? n then 10 ^ n * q <=? p else q <=? p * 10 ^ (- n)) then n
      else dec_exp_search fuel' (n - 1) p q
  end.

Definition decimal_exponent (p q : Z) : Z := dec_exp_search 700 310 p q.

Fixpoint strip_zeros (fuel : nat) (c w : Z) : Z * Z :=
  match fuel with
  | O => (c, w)
  | S fuel' =>
      if (c mod 10 =? 0) && negb (c =? 0) then strip_zeros fuel' (c / 10) (w + 1)
      else (c, w)
  end.

(** The digits [c] and their weight [w] ([c * 10^w] reads back as [x]), trying
    [k], [k+1], ... significant digits; [x = p / q] and [10^n <= x < 10^(n+1)]. *)
Fixpoint shortest_search (fuel : nat) (k : Z) (x : float) (p q n : Z) : Z * Z :=
  let w := n - k + 1 in
  let P := if 0 <=? w then p else p * 10 ^ (- w) in
  let Q := if 0 <=? w then q * 10 ^ w else q in
  let lo := P / Q in
  let hi := lo + 1 in
  let lo_ok := same_float (decimal_to_float false lo w) x in
  let hi_ok := same_float (decimal_to_float false hi w) x in
  let pick_lo :=
    match (2 * (P mod Q)) ?= Q with
    | Lt => true
    | Gt => false
    | Eq => Z.even lo
    end in
  match fuel with
  | O => (if pick_lo then lo else hi, w)
  | S fuel' =>
      if lo_ok && hi_ok then (if pick_lo then lo else hi, w)
      else if lo_ok then (lo, w)
      else if hi_ok then (hi, w)
      else shortest_search fuel' (k + 1) x p q n
  end.

Definition float_repr (x : float) : string :=
  match x with
  | S754_nan => "nan"
  | S754_infinity s => sign_str s ++ "inf"
  | S754_zero s => sign_str s ++ "0.0"
  | S754_finite s m e =>
      let p := if 0 <=? e then Zpos m * 2 ^ e else Zpos m in
      let q := if 0 <=? e then 1 else 2 ^ (- e) in
      let n := decimal_exponent p q in
      let '(c0, w0) := shortest_search 16 1 (S754_finite false m e) p q n in
      let '(c, w) := strip_zeros 20 c0 w0 in
      let ds := Z_to_string c in
      let nd := Z.of_nat (String.length ds) in
      let decpt := w + nd in
      sign_str s ++
      (if (16 <? decpt) || (decpt <=? -4) then
         let x10 := decpt - 1 in
         substring 0 1 ds
         ++ (if 1 <? nd then "." ++ substring 1 (String.length ds - 1) ds else "")
         ++ "e" ++ (if x10 <? 0 then "-" else "+")
         ++ (if Z.abs x10 <? 10 then "0" else "") ++ Z_to_string (Z.abs x10)
       else if decpt <=? 0 then "0." ++ zeros (Z.to_nat (- decpt)) ++ ds
       else if decpt <? nd then
         substring 0 (Z.to_nat decpt) ds ++ "."
         ++ substring (Z.to_nat decpt) (Z.to_nat (nd - decpt)) ds
       else ds ++ zeros (Z.to_nat (decpt - nd)) ++ ".0")
  end.

(** ** JSON-decoded Python values *)

Unset Elimination Schemes.
Inductive json : Type :=
| JNull
| JBool (b : bool)
| JInt (z : Z)
| JFloat (f : float)
| JStr (s : string)
| JList (l : list json)
| JDict (d : list (string * json)).
Set Elimination Schemes.

Definition dict : Type := list (string * json).

Fixpoint lookup (k : string) (d : dict) : option json :=
  match d with
  | [] => None
  | (k', v) :: rest => if String.eqb k k' then Some v else lookup k rest
  end.

Definition has_key (k : string) (d : dict) : bool :=
  match lookup k d with
  | Some _ => true
  | None => false
  end.

(** [v == s] for a string [s]: only a string equals a string. *)
Definition eq_str (v : json) (s : string) : bool :=
  match v with
  | JStr t => String.eqb t s
  | _ => false
  end.

(** [bool(v)] *)
Definition py_truthy (v : json) : bool :=
  match v with
  | JNull => false
  | JBool b => b
  | JInt z => negb (z =? 0)
  | JFloat (S754_zero _) => false
  | JFloat _ => true
  | JStr s => negb (String.eqb s "")
  | JList l => match l with [] => false | _ => true end
  | JDict d => match d with [] => false | _ => true end
  end.

(** [o.get(k, default)]: only a dict has the method. *)
Definition py_get (o : json) (k : string) (default : json) : result json :=
  match o with
  | JDict d => Ok (match lookup k d with Some v => v | None => default end)
  | _ => Raise AttributeError
  end.

(** [k in o] for a string [k] *)
Definition py_contains (k : string) (o : json) : result bool :=
  match o with
  | JDict d => Ok (has_key k d)
  | JList l => Ok (existsb (fun v => eq_str v k) l)
  | JStr s => Ok (contains k s)
  | _ => Raise TypeError
  end.

(** [o[k]] for a string [k] *)
Definition py_getitem (o : json) (k : string) : result json :=
  match o with
  | JDict d => match lookup k d with Some v => Ok v | None => Raise KeyError end
  | _ => Raise TypeError
  end.

(** [o[0]]; the keys of a decoded JSON object are strings, never [0]. *)
Definition py_getitem0 (o : json) : result json :=
  match o with
  | JList l => match l with v :: _ => Ok v | [] => Raise IndexError end
  | JStr s => match chars s with c :: _ => Ok (JStr c) | [] => Raise IndexError end
  | JDict _ => Raise KeyError
  | _ => Raise TypeError
  end.

(** [len(o)] *)
Definition py_len (o : json) : result Z :=
  match o with
  | JList l => Ok (Z.of_nat (List.length l))
  | JDict d => Ok (Z.of_nat (List.length d))
  | JStr s => Ok (Z.of_nat (List.length (chars s)))
  | _ => Raise TypeError
  end.

(** The items [for x in o] runs through: the elements of a list, the keys of
    a dict, the characters of a string. *)
Definition py_iter (o : json) : result (list json) :=
  match o with
  | JList l => Ok l
  | JDict d => Ok (map (fun kv => JStr (fst kv)) d)
  | JStr s => Ok (map JStr (chars s))
  | _ => Raise TypeError
  end.

(** [o > 0] *)
Definition py_gt0 (o : json) : result bool :=
  match o with
  | JInt z => Ok (0 <? z)
  | JBool b => Ok b
  | JFloat f => Ok (SFltb (S754_zero false) f)
  | _ => Raise TypeError
  end.

(** ** The part of the runtime that depends on the platform

    [repr] of a string escapes what the Unicode database calls non-printable,
    [strptime]/[strftime] follow the locale and the C library, and [float]
    takes the decimal digits and the white space outside ASCII from the
    Unicode database. The embedding takes them from the runtime. *)
Class PyRuntime : Type := {
  (** [repr(s)] of a string *)
  str_repr : string -> string;
  (** [datetime.strptime(s, "%Y-%m-%dT%H:%M:%SZ").strftime("%d-%b-%Y %H:%M UTC")],
      [None] when [strptime] raises *)
  strptime_strftime : string -> option string;
  (** [Py_UNICODE_ISSPACE(ch)] for a code point: the character is white
      space *)
  unicode_isspace : Z -> bool;
  (** [Py_UNICODE_TODECIMAL(ch)] for a code point: the value of a decimal
      digit, [None] for any other character *)
  unicode_todecimal : Z -> option Z
}.

Section Rendering.
Context {rt : PyRuntime}.

(** The first step of [float(s)], character by character
    ([_PyUnicode_TransformDecimalAndSpaceToASCII]): an ASCII character below
    127 is kept, white space becomes a space, a decimal digit becomes its
    ASCII digit, and at any other character the text ends with a question
    mark, which the grammar refuses. *)
Fixpoint decimal_and_space_to_ascii (chs : list Z) : string :=
  match chs with
  | [] => ""
  | ch :: rest =>
      if ch <? 127 then String (ascii_of_N (Z.to_N ch)) (decimal_and_space_to_ascii rest)
      else if unicode_isspace ch then String " " (decimal_and_space_to_ascii rest)
      else
        match unicode_todecimal ch with
        | Some decimal =>
            String (ascii_of_N (Z.to_N (48 + decimal))) (decimal_and_space_to_ascii rest)
        | None => "?"
        end
  end.

(** [float(s)] for a string; [None] stands for [ValueError]. A string that
    is all ASCII is read as it is. *)
Definition float_of_string (s : string) : option float :=
  float_of_ascii (if is_ascii s then s else decimal_and_space_to_ascii (code_points s)).

(** [float(v)] *)
Definition py_float (v : json) : result float :=
  match v with
  | JFloat f => Ok f
  | JInt z =>
      match Z_to_float z with
      | S754_infinity _ => Raise OverflowError
      | f => Ok f
      end
  | JBool b => Ok (Z_to_float (if b then 1 else 0))
  | JStr s =>
      match float_of_string s with
      | Some f => Ok f
      | None => Raise ValueError
      end
  | _ => Raise TypeError
  end.


(** [repr(v)] *)
Fixpoint py_repr (v : json) : string :=
  match v with
  | JNull => "None"
  | JBool true => "True"
  | JBool false => "False"
  | JInt z => Z_to_string z
  | JFloat f => float_repr f
  | JStr s => str_repr s
  | JList l => "[" ++ join ", " (map py_repr l) ++ "]"
  | JDict d =>
      "{" ++ join ", " (map (fun kv => let '(k, x) := kv in str_repr k ++ ": " ++ py_repr x) d)
      ++ "}"
  end.

(** [str(v)], which is what [f"{v}"] inserts. *)
Definition py_str (v : json) : string :=
  match v with
  | JStr s => s
  | _ => py_repr v
  end.

End Rendering.

(** ** The outside world: HTTP and the WhatsApp sink *)

(** What [requests.get] hands back: [response.status_code], [response.text]
    and the outcome of [response.json()]. *)
Record response : Type := {
  status_code : Z;
  text : string;
  response_json : result json
}.

(** The text of an outgoing message. The wording of [str(e)] for an exception
    is CPython's own and is kept symbolic. *)
Inductive message : Type :=
| Text (s : string)
| ErrorText (e : exn).

Inductive event : Type :=
| HttpGet (url : string) (headers : list (string * string))
| WhatsApp (to_number : string) (message_body : message).

(** The environment of one run: the process configuration, and how the network
    and the notification channel answer, given everything that happened
    before. [requests.get] either raises (no connection, timeout after 10
    seconds) or returns a response. *)
Record world : Type := {
  CHECKWX_API_KEY : option string;
  network : list event -> string -> list (string * string) -> result response;
  twilio : list event -> string -> message -> bool
}.

(** A computation that may raise and that extends the trace of events. The
    trace survives an exception. *)
Definition io (A : Type) : Type := list event -> result A * list event.

Definition ret {A : Type} (a : A) : io A := fun tr => (Ok a, tr).

Definition io_bind {A B : Type} (c : io A) (k : A -> io B) : io B :=
  fun tr =>
    match c tr with
    | (Ok a, tr') => k a tr'
    | (Raise e, tr') => (Raise e, tr')
    end.

Definition lift {A : Type} (c : result A) : io A := fun tr => (c, tr).

Definition io_try {A : Type} (body : io A) (handler : exn -> io A) : io A :=
  fun tr =>
    match body tr with
    | (Ok a, tr') => (Ok a, tr')
    | (Raise e, tr') => handler e tr'
    end.

Declare Scope io_scope.
Delimit Scope io_scope with io.
Notation "x <- c ;; k" := (io_bind c (fun x => k))
  (at level 61, c at next level, right associativity) : io_scope.

Definition is_http_get (url : string) (ev : event) : bool :=
  match ev with
  | HttpGet u _ => String.eqb u url
  | WhatsApp _ _ => false
  end.

(** How many requests to [url] a trace holds. *)
Definition requests_to (url : string) (tr : list event) : nat :=
  List.length (filter (is_http_get url) tr).

Definition nl : string := String "010" EmptyString.

(** ** src/metar_service.py *)

Definition CHECKWX_API_URL : string := "https://api.checkwx.com/metar/EGKK/decoded".

(** The [url] of [get_gatwick_metar_fallback]. *)
Definition FALLBACK_URL : string :=
  "https://aviationweather.gov/api/data/metar?ids=EGKK&format=json".

(** Lines 31-36: what a 200 response of CheckWX yields. [None] is [JNull]. *)
Definition checkwx_latest (response : response) : result json :=
  (data <- response_json response ;;
   results <- py_get data "results" (JInt 0) ;;
   positive <- py_gt0 results ;;
   if positive : bool then
     items <- py_getitem data "data" ;;
     py_getitem0 items
   else Ok JNull)%py.

(** Lines 59-64: what a 200 response of aviationweather.gov yields. *)
Definition aviationweather_latest (response : response) : result json :=
  (data <- response_json response ;;
   nonempty <- (if py_truthy data then n <- py_len data ;; Ok (0 <? n) else Ok false) ;;
   if nonempty : bool then py_getitem0 data
   else Ok JNull)%py.

Section Fetch.
Variable w : world.

(** [requests.get(url, headers=headers, timeout=10)] *)
Definition requests_get (url : string) (headers : list (string * string)) : io response :=
  fun tr => (network w tr url headers, (tr ++ [HttpGet url headers])%list).

(** Lines 47-71. *)
Definition get_gatwick_metar_fallback : io json :=
  io_try
    (response <- requests_get FALLBACK_URL [] ;;
     if status_code response =? 200 then lift (aviationweather_latest response)
     else ret JNull)%io
    (fun _ => ret JNull).

(** Lines 14-45. *)
Definition get_gatwick_metar : io json :=
  io_try
    (match CHECKWX_API_KEY w with
     | None | Some EmptyString => get_gatwick_metar_fallback
     | Some key =>
         response <- requests_get CHECKWX_API_URL [("X-API-Key", key)] ;;
         if status_code response =? 200 then lift (checkwx_latest response)
         else get_gatwick_metar_fallback
     end)%io
    (fun _ => get_gatwick_metar_fallback).

End Fetch.

(** [l.append(x)] *)
Definition append {A : Type} (l : list A) (x : A) : list A := (l ++ [x])%list.

Section Parse.
Context {rt : PyRuntime}.

(** The loop of lines 124-128 and of lines 192-196: the two differ in the names
    of the keys only. *)
Fixpoint cloud_loop (cover_key base_key : string) (items : list json)
  (cloud_layers : list string) : result (list string) :=
  match items with
  | [] => Ok cloud_layers
  | cloud :: rest =>
      (code <- py_get cloud cover_key (JStr "") ;;
       altitude <- py_get cloud base_key (JStr "") ;;
       if py_truthy code && py_truthy altitude
       then cloud_loop cover_key base_key rest
              (append cloud_layers (py_str code ++ " at " ++ py_str altitude ++ " ft"))
       else cloud_loop cover_key base_key rest cloud_layers)%py
  end.

(** [", ".join(cloud_layers) if cloud_layers else "No cloud data"] *)
Definition join_layers (cloud_layers : list string) : string :=
  match cloud_layers with
  | [] => "No cloud data"
  | _ => join ", " cloud_layers
  end.

(** Lines 134-136 and 205-207. *)
Definition wind_info (wind_direction wind_speed wind_gust : json) : string :=
  let wind_info := py_str wind_direction ++ "° at " ++ py_str wind_speed ++ " knots" in
  if py_truthy wind_gust
  then wind_info ++ ", gusting to " ++ py_str wind_gust ++ " knots"
  else wind_info.

Definition HEADER : string := "🛫 *GATWICK AIRPORT (EGKK) METAR* 🛬".

(** Lines 139-147 and 210-218: the list [response]. *)
Definition response_lines (time temp_c : json) (wind visibility clouds : string)
  (raw_metar : json) : list string :=
  [ HEADER;
    "⏰ Observed: " ++ py_str time;
    "🌡️ Temperature: " ++ py_str temp_c ++ "°C";
    "💨 Wind: " ++ wind;
    "👁️ Visibility: " ++ visibility;
    "☁️ Clouds: " ++ clouds;
    "📊 Raw METAR: " ++ py_str raw_metar ].

(** *** [parse_checkwx_metar] *)

(** Line 118. *)
Definition checkwx_visibility_km (visibility : json) : result string :=
  if negb (eq_str visibility "N/A")
  then (f <- py_float visibility ;; Ok (format_1f (fdiv f float_1000) ++ " km"))%py
  else Ok "N/A".

(** Lines 121-131. *)
Definition checkwx_clouds (metar_data : json) : result string :=
  (present <- py_contains "clouds" metar_data ;;
   if present : bool then
     clouds <- py_getitem metar_data "clouds" ;;
     if py_truthy clouds then
       items <- py_iter clouds ;;
       cloud_layers <- cloud_loop "code" "base_feet_agl" items [] ;;
       Ok (join_layers cloud_layers)
     else Ok "No cloud data"
   else Ok "No cloud data")%py.

(** Lines 106-147: the body of the [try], up to the list [response]. *)
Definition checkwx_response (metar_data : json) : result (list string) :=
  (raw_metar <- py_get metar_data "raw" (JStr "N/A") ;;
   time <- py_get metar_data "observed" (JStr "N/A") ;;
   temperature <- py_get metar_data "temperature" (JDict []) ;;
   temp_c <- py_get temperature "celsius" (JStr "N/A") ;;
   wind <- py_get metar_data "wind" (JDict []) ;;
   wind_speed <- py_get wind "speed_kts" (JStr "N/A") ;;
   wind <- py_get metar_data "wind" (JDict []) ;;
   wind_direction <- py_get wind "degrees" (JStr "N/A") ;;
   wind <- py_get metar_data "wind" (JDict []) ;;
   wind_gust <- py_get wind "gust_kts" (JStr "") ;;
   visibility <- py_get metar_data "visibility" (JDict []) ;;
   visibility <- py_get visibility "meters" (JStr "N/A") ;;
   visibility_km <- checkwx_visibility_km visibility ;;
   clouds <- checkwx_clouds metar_data ;;
   Ok (response_lines time temp_c (wind_info wind_direction wind_speed wind_gust)
         visibility_km clouds raw_metar))%py.

(** Lines 103-154. *)
Definition parse_checkwx_metar (metar_data : json) : result string :=
  try_except
    (response <- checkwx_response metar_data ;; Ok (join (nl ++ nl) response))%py
    (fun _ =>
       (raw <- py_get metar_data "raw" (JStr "Data unavailable") ;;
        Ok ("Gatwick METAR: " ++ py_str raw))%py).

(** *** [parse_aviationweather_metar] *)

(** Lines 163-169. The inner [except] is bare: it catches whatever
    [strptime] raises, a [TypeError] for a value that is no string included. *)
Definition aviationweather_obs_time (metar_data : json) : result json :=
  (present <- py_contains "observation_time" metar_data ;;
   if present : bool then
     try_except
       (t <- py_getitem metar_data "observation_time" ;;
        match t with
        | JStr s =>
            match strptime_strftime s with
            | Some shown => Ok (JStr shown)
            | None => Raise ValueError
            end
        | _ => Raise TypeError
        end)
       (fun _ => py_getitem metar_data "observation_time")
   else Ok (JStr "N/A"))%py.

(** Lines 178-185. *)
Definition aviationweather_visibility (visibility_statute_mi : json) : result string :=
  if negb (eq_str visibility_statute_mi "N/A") then
    try_except
      (f <- py_float visibility_statute_mi ;; Ok (format_1f (fmul f miles_to_km) ++ " km"))%py
      (fun _ => Ok (py_str visibility_statute_mi ++ " miles"))
  else Ok "N/A".

(** Lines 188-202. *)
Definition aviationweather_clouds (metar_data : json) : result string :=
  (present <- py_contains "sky_condition" metar_data ;;
   if present : bool then
     sky_condition <- py_getitem metar_data "sky_condition" ;;
     match sky_condition with
     | JList items =>
         cloud_layers <- cloud_loop "sky_cover" "cloud_base_ft_agl" items [] ;;
         Ok (join_layers cloud_layers)
     | JDict _ =>
         code <- py_get sky_condition "sky_cover" (JStr "") ;;
         altitude <- py_get sky_condition "cloud_base_ft_agl" (JStr "") ;;
         if py_truthy code && py_truthy altitude
         then Ok (py_str code ++ " at " ++ py_str altitude ++ " ft")
         else Ok "No cloud data"
     | _ => Ok "No cloud data"
     end
   else Ok "No cloud data")%py.

(** Lines 159-218: the body of the [try], up to the list [response]. *)
Definition aviationweather_response (metar_data : json) : result (list string) :=
  (raw_metar <- py_get metar_data "raw_text" (JStr "N/A") ;;
   obs_time <- aviationweather_obs_time metar_data ;;
   temp_c <- py_get metar_data "temp_c" (JStr "N/A") ;;
   wind_speed <- py_get metar_data "wind_speed_kt" (JStr "N/A") ;;
   wind_direction <- py_get metar_data "wind_dir_degrees" (JStr "N/A") ;;
   wind_gust <- py_get metar_data "wind_gust_kt" (JStr "") ;;
   visibility_statute_mi <- py_get metar_data "visibility_statute_mi" (JStr "N/A") ;;
   visibility <- aviationweather_visibility visibility_statute_mi ;;
   clouds <- aviationweather_clouds metar_data ;;
   Ok (response_lines obs_time temp_c (wind_info wind_direction wind_speed wind_gust)
         visibility clouds raw_metar))%py.

(** Lines 156-225. *)
Definition parse_aviationweather_metar (metar_data : json) : result string :=
  try_except
    (response <- aviationweather_response metar_data ;; Ok (join (nl ++ nl) response))%py
    (fun _ =>
       (raw <- py_get metar_data "raw_text" (JStr "Data unavailable") ;;
        Ok ("Gatwick METAR: " ++ py_str raw))%py).

(** *** [parse_metar_for_human] *)

Definition APOLOGY : string := "Sorry, I couldn't parse the METAR data properly.".

(** Lines 86-91: the body of the [try]. *)
Definition dispatch (metar_data : json) : result string :=
  (is_fallback <- py_contains "raw_text" metar_data ;;
   if is_fallback : bool then parse_aviationweather_metar metar_data
   else parse_checkwx_metar metar_data)%py.

(** Lines 96-101: the [except] clause. *)
Definition last_resort (metar_data : json) : result string :=
  (has_raw_text <- py_contains "raw_text" metar_data ;;
   if has_raw_text : bool then
     raw_text <- py_getitem metar_data "raw_text" ;;
     Ok ("Gatwick METAR: " ++ py_str raw_text)
   else
     has_raw <- py_contains "raw" metar_data ;;
     if has_raw : bool then
       raw <- py_getitem metar_data "raw" ;;
       Ok ("Gatwick METAR: " ++ py_str raw)
     else Ok APOLOGY)%py.

(** Lines 73-101. *)
Definition parse_metar_for_human (metar_data : json) : result string :=
  try_except (dispatch metar_data) (fun _ => last_resort metar_data).

End Parse.

(** ** src/app.py *)

Definition NO_DATA_REPLY : string :=
  "Sorry, I couldn't retrieve the Gatwick METAR data at the moment. Please try again later.".

Definition HELP_REPLY : string :=
  "To get the latest Gatwick Airport METAR information, " ++
  "please send a message containing 'metar', 'weather', or 'gatwick'.".

Definition TWIML : string := "<Response></Response>".

Section Webhook.
Context {rt : PyRuntime}.
Variable w : world.

(** [send_whatsapp_message(to_number, message_body)] of src/twilio_service.py,
    seen from its caller: the call is recorded and answers [True] or [False];
    it never raises. *)
Definition send_whatsapp_message (to_number : string) (message_body : message) : io bool :=
  fun tr => (Ok (twilio w tr to_number message_body),
             (tr ++ [WhatsApp to_number message_body])%list).

(** Lines 36-52: the reply to a message that holds a trigger word. *)
Definition reply_with_metar (sender : string) : io unit :=
  io_try
    (metar_data <- get_gatwick_metar w ;;
     if py_truthy metar_data then
       human_readable <- lift (parse_metar_for_human metar_data) ;;
       _ <- send_whatsapp_message sender (Text human_readable) ;;
       ret tt
     else
       _ <- send_whatsapp_message sender (Text NO_DATA_REPLY) ;;
       ret tt)%io
    (fun e => (_ <- send_whatsapp_message sender (ErrorText e) ;; ret tt)%io).

(** Lines 21-65. [incoming_msg] is the stripped, lower-cased body of the
    request (line 27) and [sender] its [From] field; the result is the
    response and its HTTP status. *)
Definition webhook (incoming_msg sender : string) : io (string * Z) :=
  io_try
    (if contains "metar" incoming_msg || contains "weather" incoming_msg
        || contains "gatwick" incoming_msg
     then
       _ <- reply_with_metar sender ;;
       ret (TWIML, 200)
     else
       _ <- send_whatsapp_message sender (Text HELP_REPLY) ;;
       ret (TWIML, 200))%io
    (fun _ => ret (TWIML, 500)).

End Webhook.

(** ** A reference runtime: CPython 3.11 on Linux, C locale

    The theorems below hold for every runtime. The examples run on this one:
    [strptime] and [strftime] are CPython's on Linux in the C locale; the
    white space, the decimal digits and the printable characters are those of
    Unicode 14.0, the database of CPython 3.11. *)

(** The code points of the digit zero of every script: the nine that follow
    each are the digits one to nine. *)
Definition decimal_zeros : list Z :=
  [ 0x30; 0x660; 0x6f0; 0x7c0; 0x966; 0x9e6; 0xa66; 0xae6; 0xb66; 0xbe6; 0xc66; 0xce6;
    0xd66; 0xde6; 0xe50; 0xed0; 0xf20; 0x1040; 0x1090; 0x17e0; 0x1810; 0x1946; 0x19d0;
    0x1a80; 0x1a90; 0x1b50; 0x1bb0; 0x1c40; 0x1c50; 0xa620; 0xa8d0; 0xa900; 0xa9d0;
    0xa9f0; 0xaa50; 0xabf0; 0xff10; 0x104a0; 0x10d30; 0x11066; 0x110f0; 0x11136;
    0x111d0; 0x112f0; 0x11450; 0x114d0; 0x11650; 0x116c0; 0x11730; 0x118e0; 0x11950;
    0x11c50; 0x11d50; 0x11da0; 0x16a60; 0x16ac0; 0x16b50; 0x1d7ce; 0x1d7d8; 0x1d7e2;
    0x1d7ec; 0x1d7f6; 0x1e140; 0x1e2f0; 0x1e950; 0x1fbf0 ].

Definition unicode14_todecimal (ch : Z) : option Z :=
  match find (fun zero => (zero <=? ch) && (ch <? zero + 10)) decimal_zeros with
  | Some zero => Some (ch - zero)
  | None => None
  end.

Definition unicode14_isspace (ch : Z) : bool :=
  existsb (Z.eqb ch)
    [ 0x9; 0xa; 0xb; 0xc; 0xd; 0x1c; 0x1d; 0x1e; 0x1f; 0x20; 0x85; 0xa0; 0x1680; 0x2028;
      0x2029; 0x202f; 0x205f; 0x3000 ]
  || ((0x2000 <=? ch) && (ch <=? 0x200a)).


Definition hex_digit (n : Z) : ascii :=
  if n <? 10 then ascii_of_N (Z.to_N (48 + n)) else ascii_of_N (Z.to_N (87 + n)).

(** [n] in hexadecimal, on the given number of digits. *)
Fixpoint hex (digits : nat) (n : Z) : string :=
  match digits with
  | O => ""
  | S digits' => hex digits' (n / 16) ++ String (hex_digit (n mod 16)) ""
  end.

Definition backslash : ascii := "092".
Definition quote1 : ascii := "039".
Definition quote2 : ascii := "034".

(** The ranges of the code points above 127 that [str.isprintable] refuses:
    the categories Cc, Cf, Cs, Co, Cn, Zl, Zp and Zs of Unicode 14.0. *)
Definition nonprintable_ranges : list (Z * Z) :=
  [ (0x80, 0xa0); (0xad, 0xad); (0x378, 0x379); (0x380, 0x383); (0x38b, 0x38b);
    (0x38d, 0x38d); (0x3a2, 0x3a2); (0x530, 0x530); (0x557, 0x558); (0x58b, 0x58c);
    (0x590, 0x590); (0x5c8, 0x5cf); (0x5eb, 0x5ee); (0x5f5, 0x605); (0x61c, 0x61c);
    (0x6dd, 0x6dd); (0x70e, 0x70f); (0x74b, 0x74c); (0x7b2, 0x7bf); (0x7fb, 0x7fc);
    (0x82e, 0x82f); (0x83f, 0x83f); (0x85c, 0x85d); (0x85f, 0x85f); (0x86b, 0x86f);
    (0x88f, 0x897); (0x8e2, 0x8e2); (0x984, 0x984); (0x98d, 0x98e); (0x991, 0x992);
    (0x9a9, 0x9a9); (0x9b1, 0x9b1); (0x9b3, 0x9b5); (0x9ba, 0x9bb); (0x9c5, 0x9c6);
    (0x9c9, 0x9ca); (0x9cf, 0x9d6); (0x9d8, 0x9db); (0x9de, 0x9de); (0x9e4, 0x9e5);
    (0x9ff, 0xa00); (0xa04, 0xa04); (0xa0b, 0xa0e); (0xa11, 0xa12); (0xa29, 0xa29);
    (0xa31, 0xa31); (0xa34, 0xa34); (0xa37, 0xa37); (0xa3a, 0xa3b); (0xa3d, 0xa3d);
    (0xa43, 0xa46); (0xa49, 0xa4a); (0xa4e, 0xa50); (0xa52, 0xa58); (0xa5d, 0xa5d);
    (0xa5f, 0xa65); (0xa77, 0xa80); (0xa84, 0xa84); (0xa8e, 0xa8e); (0xa92, 0xa92);
    (0xaa9, 0xaa9); (0xab1, 0xab1); (0xab4, 0xab4); (0xaba, 0xabb); (0xac6, 0xac6);
    (0xaca, 0xaca); (0xace, 0xacf); (0xad1, 0xadf); (0xae4, 0xae5); (0xaf2, 0xaf8);
    (0xb00, 0xb00); (0xb04, 0xb04); (0xb0d, 0xb0e); (0xb11, 0xb12); (0xb29, 0xb29);
    (0xb31, 0xb31); (0xb34, 0xb34); (0xb3a, 0xb3b); (0xb45, 0xb46); (0xb49, 0xb4a);
    (0xb4e, 0xb54); (0xb58, 0xb5b); (0xb5e, 0xb5e); (0xb64, 0xb65); (0xb78, 0xb81);
    (0xb84, 0xb84); (0xb8b, 0xb8d); (0xb91, 0xb91); (0xb96, 0xb98); (0xb9b, 0xb9b);
    (0xb9d, 0xb9d); (0xba0, 0xba2); (0xba5, 0xba7); (0xbab, 0xbad); (0xbba, 0xbbd);
    (0xbc3, 0xbc5); (0xbc9, 0xbc9); (0xbce, 0xbcf); (0xbd1, 0xbd6); (0xbd8, 0xbe5);
    (0xbfb, 0xbff); (0xc0d, 0xc0d); (0xc11, 0xc11); (0xc29, 0xc29); (0xc3a, 0xc3b);
    (0xc45, 0xc45); (0xc49, 0xc49); (0xc4e, 0xc54); (0xc57, 0xc57); (0xc5b, 0xc5c);
    (0xc5e, 0xc5f); (0xc64, 0xc65); (0xc70, 0xc76); (0xc8d, 0xc8d); (0xc91, 0xc91);
    (0xca9, 0xca9); (0xcb4, 0xcb4); (0xcba, 0xcbb); (0xcc5, 0xcc5); (0xcc9, 0xcc9);
    (0xcce, 0xcd4); (0xcd7, 0xcdc); (0xcdf, 0xcdf); (0xce4, 0xce5); (0xcf0, 0xcf0);
    (0xcf3, 0xcff); (0xd0d, 0xd0d); (0xd11, 0xd11); (0xd45, 0xd45); (0xd49, 0xd49);
    (0xd50, 0xd53); (0xd64, 0xd65); (0xd80, 0xd80); (0xd84, 0xd84); (0xd97, 0xd99);
    (0xdb2, 0xdb2); (0xdbc, 0xdbc); (0xdbe, 0xdbf); (0xdc7, 0xdc9); (0xdcb, 0xdce);
    (0xdd5, 0xdd5); (0xdd7, 0xdd7); (0xde0, 0xde5); (0xdf0, 0xdf1); (0xdf5, 0xe00);
    (0xe3b, 0xe3e); (0xe5c, 0xe80); (0xe83, 0xe83); (0xe85, 0xe85); (0xe8b, 0xe8b);
    (0xea4, 0xea4); (0xea6, 0xea6); (0xebe, 0xebf); (0xec5, 0xec5); (0xec7, 0xec7);
    (0xece, 0xecf); (0xeda, 0xedb); (0xee0, 0xeff); (0xf48, 0xf48); (0xf6d, 0xf70);
    (0xf98, 0xf98); (0xfbd, 0xfbd); (0xfcd, 0xfcd); (0xfdb, 0xfff); (0x10c6, 0x10c6);
    (0x10c8, 0x10cc); (0x10ce, 0x10cf); (0x1249, 0x1249); (0x124e, 0x124f);
    (0x1257, 0x1257); (0x1259, 0x1259); (0x125e, 0x125f); (0x1289, 0x1289);
    (0x128e, 0x128f); (0x12b1, 0x12b1); (0x12b6, 0x12b7); (0x12bf, 0x12bf);
    (0x12c1, 0x12c1); (0x12c6, 0x12c7); (0x12d7, 0x12d7); (0x1311, 0x1311);
    (0x1316, 0x1317); (0x135b, 0x135c); (0x137d, 0x137f); (0x139a, 0x139f);
    (0x13f6, 0x13f7); (0x13fe, 0x13ff); (0x1680, 0x1680); (0x169d, 0x169f);
    (0x16f9, 0x16ff); (0x1716, 0x171e); (0x1737, 0x173f); (0x1754, 0x175f);
    (0x176d, 0x176d); (0x1771, 0x1771); (0x1774, 0x177f); (0x17de, 0x17df);
    (0x17ea, 0x17ef); (0x17fa, 0x17ff); (0x180e, 0x180e); (0x181a, 0x181f);
    (0x1879, 0x187f); (0x18ab, 0x18af); (0x18f6, 0x18ff); (0x191f, 0x191f);
    (0x192c, 0x192f); (0x193c, 0x193f); (0x1941, 0x1943); (0x196e, 0x196f);
    (0x1975, 0x197f); (0x19ac, 0x19af); (0x19ca, 0x19cf); (0x19db, 0x19dd);
    (0x1a1c, 0x1a1d); (0x1a5f, 0x1a5f); (0x1a7d, 0x1a7e); (0x1a8a, 0x1a8f);
    (0x1a9a, 0x1a9f); (0x1aae, 0x1aaf); (0x1acf, 0x1aff); (0x1b4d, 0x1b4f);
    (0x1b7f, 0x1b7f); (0x1bf4, 0x1bfb); (0x1c38, 0x1c3a); (0x1c4a, 0x1c4c);
    (0x1c89, 0x1c8f); (0x1cbb, 0x1cbc); (0x1cc8, 0x1ccf); (0x1cfb, 0x1cff);
    (0x1f16, 0x1f17); (0x1f1e, 0x1f1f); (0x1f46, 0x1f47); (0x1f4e, 0x1f4f);
    (0x1f58, 0x1f58); (0x1f5a, 0x1f5a); (0x1f5c, 0x1f5c); (0x1f5e, 0x1f5e);
    (0x1f7e, 0x1f7f); (0x1fb5, 0x1fb5); (0x1fc5, 0x1fc5); (0x1fd4, 0x1fd5);
    (0x1fdc, 0x1fdc); (0x1ff0, 0x1ff1); (0x1ff5, 0x1ff5); (0x1fff, 0x200f);
    (0x2028, 0x202f); (0x205f, 0x206f); (0x2072, 0x2073); (0x208f, 0x208f);
    (0x209d, 0x209f); (0x20c1, 0x20cf); (0x20f1, 0x20ff); (0x218c, 0x218f);
    (0x2427, 0x243f); (0x244b, 0x245f); (0x2b74, 0x2b75); (0x2b96, 0x2b96);
    (0x2cf4, 0x2cf8); (0x2d26, 0x2d26); (0x2d28, 0x2d2c); (0x2d2e, 0x2d2f);
    (0x2d68, 0x2d6e); (0x2d71, 0x2d7e); (0x2d97, 0x2d9f); (0x2da7, 0x2da7);
    (0x2daf, 0x2daf); (0x2db7, 0x2db7); (0x2dbf, 0x2dbf); (0x2dc7, 0x2dc7);
    (0x2dcf, 0x2dcf); (0x2dd7, 0x2dd7); (0x2ddf, 0x2ddf); (0x2e5e, 0x2e7f);
    (0x2e9a, 0x2e9a); (0x2ef4, 0x2eff); (0x2fd6, 0x2fef); (0x2ffc, 0x3000);
    (0x3040, 0x3040); (0x3097, 0x3098); (0x3100, 0x3104); (0x3130, 0x3130);
    (0x318f, 0x318f); (0x31e4, 0x31ef); (0x321f, 0x321f); (0xa48d, 0xa48f);
    (0xa4c7, 0xa4cf); (0xa62c, 0xa63f); (0xa6f8, 0xa6ff); (0xa7cb, 0xa7cf);
    (0xa7d2, 0xa7d2); (0xa7d4, 0xa7d4); (0xa7da, 0xa7f1); (0xa82d, 0xa82f);
    (0xa83a, 0xa83f); (0xa878, 0xa87f); (0xa8c6, 0xa8cd); (0xa8da, 0xa8df);
    (0xa954, 0xa95e); (0xa97d, 0xa97f); (0xa9ce, 0xa9ce); (0xa9da, 0xa9dd);
    (0xa9ff, 0xa9ff); (0xaa37, 0xaa3f); (0xaa4e, 0xaa4f); (0xaa5a, 0xaa5b);
    (0xaac3, 0xaada); (0xaaf7, 0xab00); (0xab07, 0xab08); (0xab0f, 0xab10);
    (0xab17, 0xab1f); (0xab27, 0xab27); (0xab2f, 0xab2f); (0xab6c, 0xab6f);
    (0xabee, 0xabef); (0xabfa, 0xabff); (0xd7a4, 0xd7af); (0xd7c7, 0xd7ca);
    (0xd7fc, 0xf8ff); (0xfa6e, 0xfa6f); (0xfada, 0xfaff); (0xfb07, 0xfb12);
    (0xfb18, 0xfb1c); (0xfb37, 0xfb37); (0xfb3d, 0xfb3d); (0xfb3f, 0xfb3f);
    (0xfb42, 0xfb42); (0xfb45, 0xfb45); (0xfbc3, 0xfbd2); (0xfd90, 0xfd91);
    (0xfdc8, 0xfdce); (0xfdd0, 0xfdef); (0xfe1a, 0xfe1f); (0xfe53, 0xfe53);
    (0xfe67, 0xfe67); (0xfe6c, 0xfe6f); (0xfe75, 0xfe75); (0xfefd, 0xff00);
    (0xffbf, 0xffc1); (0xffc8, 0xffc9); (0xffd0, 0xffd1); (0xffd8, 0xffd9);
    (0xffdd, 0xffdf); (0xffe7, 0xffe7); (0xffef, 0xfffb); (0xfffe, 0xffff);
    (0x1000c, 0x1000c); (0x10027, 0x10027); (0x1003b, 0x1003b); (0x1003e, 0x1003e);
    (0x1004e, 0x1004f); (0x1005e, 0x1007f); (0x100fb, 0x100ff); (0x10103, 0x10106);
    (0x10134, 0x10136); (0x1018f, 0x1018f); (0x1019d, 0x1019f); (0x101a1, 0x101cf);
    (0x101fe, 0x1027f); (0x1029d, 0x1029f); (0x102d1, 0x102df); (0x102fc, 0x102ff);
    (0x10324, 0x1032c); (0x1034b, 0x1034f); (0x1037b, 0x1037f); (0x1039e, 0x1039e);
    (0x103c4, 0x103c7); (0x103d6, 0x103ff); (0x1049e, 0x1049f); (0x104aa, 0x104af);
    (0x104d4, 0x104d7); (0x104fc, 0x104ff); (0x10528, 0x1052f); (0x10564, 0x1056e);
    (0x1057b, 0x1057b); (0x1058b, 0x1058b); (0x10593, 0x10593); (0x10596, 0x10596);
    (0x105a2, 0x105a2); (0x105b2, 0x105b2); (0x105ba, 0x105ba); (0x105bd, 0x105ff);
    (0x10737, 0x1073f); (0x10756, 0x1075f); (0x10768, 0x1077f); (0x10786, 0x10786);
    (0x107b1, 0x107b1); (0x107bb, 0x107ff); (0x10806, 0x10807); (0x10809, 0x10809);
    (0x10836, 0x10836); (0x10839, 0x1083b); (0x1083d, 0x1083e); (0x10856, 0x10856);
    (0x1089f, 0x108a6); (0x108b0, 0x108df); (0x108f3, 0x108f3); (0x108f6, 0x108fa);
    (0x1091c, 0x1091e); (0x1093a, 0x1093e); (0x10940, 0x1097f); (0x109b8, 0x109bb);
    (0x109d0, 0x109d1); (0x10a04, 0x10a04); (0x10a07, 0x10a0b); (0x10a14, 0x10a14);
    (0x10a18, 0x10a18); (0x10a36, 0x10a37); (0x10a3b, 0x10a3e); (0x10a49, 0x10a4f);
    (0x10a59, 0x10a5f); (0x10aa0, 0x10abf); (0x10ae7, 0x10aea); (0x10af7, 0x10aff);
    (0x10b36, 0x10b38); (0x10b56, 0x10b57); (0x10b73, 0x10b77); (0x10b92, 0x10b98);
    (0x10b9d, 0x10ba8); (0x10bb0, 0x10bff); (0x10c49, 0x10c7f); (0x10cb3, 0x10cbf);
    (0x10cf3, 0x10cf9); (0x10d28, 0x10d2f); (0x10d3a, 0x10e5f); (0x10e7f, 0x10e7f);
    (0x10eaa, 0x10eaa); (0x10eae, 0x10eaf); (0x10eb2, 0x10eff); (0x10f28, 0x10f2f);
    (0x10f5a, 0x10f6f); (0x10f8a, 0x10faf); (0x10fcc, 0x10fdf); (0x10ff7, 0x10fff);
    (0x1104e, 0x11051); (0x11076, 0x1107e); (0x110bd, 0x110bd); (0x110c3, 0x110cf);
    (0x110e9, 0x110ef); (0x110fa, 0x110ff); (0x11135, 0x11135); (0x11148, 0x1114f);
    (0x11177, 0x1117f); (0x111e0, 0x111e0); (0x111f5, 0x111ff); (0x11212, 0x11212);
    (0x1123f, 0x1127f); (0x11287, 0x11287); (0x11289, 0x11289); (0x1128e, 0x1128e);
    (0x1129e, 0x1129e); (0x112aa, 0x112af); (0x112eb, 0x112ef); (0x112fa, 0x112ff);
    (0x11304, 0x11304); (0x1130d, 0x1130e); (0x11311, 0x11312); (0x11329, 0x11329);
    (0x11331, 0x11331); (0x11334, 0x11334); (0x1133a, 0x1133a); (0x11345, 0x11346);
    (0x11349, 0x1134a); (0x1134e, 0x1134f); (0x11351, 0x11356); (0x11358, 0x1135c);
    (0x11364, 0x11365); (0x1136d, 0x1136f); (0x11375, 0x113ff); (0x1145c, 0x1145c);
    (0x11462, 0x1147f); (0x114c8, 0x114cf); (0x114da, 0x1157f); (0x115b6, 0x115b7);
    (0x115de, 0x115ff); (0x11645, 0x1164f); (0x1165a, 0x1165f); (0x1166d, 0x1167f);
    (0x116ba, 0x116bf); (0x116ca, 0x116ff); (0x1171b, 0x1171c); (0x1172c, 0x1172f);
    (0x11747, 0x117ff); (0x1183c, 0x1189f); (0x118f3, 0x118fe); (0x11907, 0x11908);
    (0x1190a, 0x1190b); (0x11914, 0x11914); (0x11917, 0x11917); (0x11936, 0x11936);
    (0x11939, 0x1193a); (0x11947, 0x1194f); (0x1195a, 0x1199f); (0x119a8, 0x119a9);
    (0x119d8, 0x119d9); (0x119e5, 0x119ff); (0x11a48, 0x11a4f); (0x11aa3, 0x11aaf);
    (0x11af9, 0x11bff); (0x11c09, 0x11c09); (0x11c37, 0x11c37); (0x11c46, 0x11c4f);
    (0x11c6d, 0x11c6f); (0x11c90, 0x11c91); (0x11ca8, 0x11ca8); (0x11cb7, 0x11cff);
    (0x11d07, 0x11d07); (0x11d0a, 0x11d0a); (0x11d37, 0x11d39); (0x11d3b, 0x11d3b);
    (0x11d3e, 0x11d3e); (0x11d48, 0x11d4f); (0x11d5a, 0x11d5f); (0x11d66, 0x11d66);
    (0x11d69, 0x11d69); (0x11d8f, 0x11d8f); (0x11d92, 0x11d92); (0x11d99, 0x11d9f);
    (0x11daa, 0x11edf); (0x11ef9, 0x11faf); (0x11fb1, 0x11fbf); (0x11ff2, 0x11ffe);
    (0x1239a, 0x123ff); (0x1246f, 0x1246f); (0x12475, 0x1247f); (0x12544, 0x12f8f);
    (0x12ff3, 0x12fff); (0x1342f, 0x143ff); (0x14647, 0x167ff); (0x16a39, 0x16a3f);
    (0x16a5f, 0x16a5f); (0x16a6a, 0x16a6d); (0x16abf, 0x16abf); (0x16aca, 0x16acf);
    (0x16aee, 0x16aef); (0x16af6, 0x16aff); (0x16b46, 0x16b4f); (0x16b5a, 0x16b5a);
    (0x16b62, 0x16b62); (0x16b78, 0x16b7c); (0x16b90, 0x16e3f); (0x16e9b, 0x16eff);
    (0x16f4b, 0x16f4e); (0x16f88, 0x16f8e); (0x16fa0, 0x16fdf); (0x16fe5, 0x16fef);
    (0x16ff2, 0x16fff); (0x187f8, 0x187ff); (0x18cd6, 0x18cff); (0x18d09, 0x1afef);
    (0x1aff4, 0x1aff4); (0x1affc, 0x1affc); (0x1afff, 0x1afff); (0x1b123, 0x1b14f);
    (0x1b153, 0x1b163); (0x1b168, 0x1b16f); (0x1b2fc, 0x1bbff); (0x1bc6b, 0x1bc6f);
    (0x1bc7d, 0x1bc7f); (0x1bc89, 0x1bc8f); (0x1bc9a, 0x1bc9b); (0x1bca0, 0x1ceff);
    (0x1cf2e, 0x1cf2f); (0x1cf47, 0x1cf4f); (0x1cfc4, 0x1cfff); (0x1d0f6, 0x1d0ff);
    (0x1d127, 0x1d128); (0x1d173, 0x1d17a); (0x1d1eb, 0x1d1ff); (0x1d246, 0x1d2df);
    (0x1d2f4, 0x1d2ff); (0x1d357, 0x1d35f); (0x1d379, 0x1d3ff); (0x1d455, 0x1d455);
    (0x1d49d, 0x1d49d); (0x1d4a0, 0x1d4a1); (0x1d4a3, 0x1d4a4); (0x1d4a7, 0x1d4a8);
    (0x1d4ad, 0x1d4ad); (0x1d4ba, 0x1d4ba); (0x1d4bc, 0x1d4bc); (0x1d4c4, 0x1d4c4);
    (0x1d506, 0x1d506); (0x1d50b, 0x1d50c); (0x1d515, 0x1d515); (0x1d51d, 0x1d51d);
    (0x1d53a, 0x1d53a); (0x1d53f, 0x1d53f); (0x1d545, 0x1d545); (0x1d547, 0x1d549);
    (0x1d551, 0x1d551); (0x1d6a6, 0x1d6a7); (0x1d7cc, 0x1d7cd); (0x1da8c, 0x1da9a);
    (0x1daa0, 0x1daa0); (0x1dab0, 0x1deff); (0x1df1f, 0x1dfff); (0x1e007, 0x1e007);
    (0x1e019, 0x1e01a); (0x1e022, 0x1e022); (0x1e025, 0x1e025); (0x1e02b, 0x1e0ff);
    (0x1e12d, 0x1e12f); (0x1e13e, 0x1e13f); (0x1e14a, 0x1e14d); (0x1e150, 0x1e28f);
    (0x1e2af, 0x1e2bf); (0x1e2fa, 0x1e2fe); (0x1e300, 0x1e7df); (0x1e7e7, 0x1e7e7);
    (0x1e7ec, 0x1e7ec); (0x1e7ef, 0x1e7ef); (0x1e7ff, 0x1e7ff); (0x1e8c5, 0x1e8c6);
    (0x1e8d7, 0x1e8ff); (0x1e94c, 0x1e94f); (0x1e95a, 0x1e95d); (0x1e960, 0x1ec70);
    (0x1ecb5, 0x1ed00); (0x1ed3e, 0x1edff); (0x1ee04, 0x1ee04); (0x1ee20, 0x1ee20);
    (0x1ee23, 0x1ee23); (0x1ee25, 0x1ee26); (0x1ee28, 0x1ee28); (0x1ee33, 0x1ee33);
    (0x1ee38, 0x1ee38); (0x1ee3a, 0x1ee3a); (0x1ee3c, 0x1ee41); (0x1ee43, 0x1ee46);
    (0x1ee48, 0x1ee48); (0x1ee4a, 0x1ee4a); (0x1ee4c, 0x1ee4c); (0x1ee50, 0x1ee50);
    (0x1ee53, 0x1ee53); (0x1ee55, 0x1ee56); (0x1ee58, 0x1ee58); (0x1ee5a, 0x1ee5a);
    (0x1ee5c, 0x1ee5c); (0x1ee5e, 0x1ee5e); (0x1ee60, 0x1ee60); (0x1ee63, 0x1ee63);
    (0x1ee65, 0x1ee66); (0x1ee6b, 0x1ee6b); (0x1ee73, 0x1ee73); (0x1ee78, 0x1ee78);
    (0x1ee7d, 0x1ee7d); (0x1ee7f, 0x1ee7f); (0x1ee8a, 0x1ee8a); (0x1ee9c, 0x1eea0);
    (0x1eea4, 0x1eea4); (0x1eeaa, 0x1eeaa); (0x1eebc, 0x1eeef); (0x1eef2, 0x1efff);
    (0x1f02c, 0x1f02f); (0x1f094, 0x1f09f); (0x1f0af, 0x1f0b0); (0x1f0c0, 0x1f0c0);
    (0x1f0d0, 0x1f0d0); (0x1f0f6, 0x1f0ff); (0x1f1ae, 0x1f1e5); (0x1f203, 0x1f20f);
    (0x1f23c, 0x1f23f); (0x1f249, 0x1f24f); (0x1f252, 0x1f25f); (0x1f266, 0x1f2ff);
    (0x1f6d8, 0x1f6dc); (0x1f6ed, 0x1f6ef); (0x1f6fd, 0x1f6ff); (0x1f774, 0x1f77f);
    (0x1f7d9, 0x1f7df); (0x1f7ec, 0x1f7ef); (0x1f7f1, 0x1f7ff); (0x1f80c, 0x1f80f);
    (0x1f848, 0x1f84f); (0x1f85a, 0x1f85f); (0x1f888, 0x1f88f); (0x1f8ae, 0x1f8af);
    (0x1f8b2, 0x1f8ff); (0x1fa54, 0x1fa5f); (0x1fa6e, 0x1fa6f); (0x1fa75, 0x1fa77);
    (0x1fa7d, 0x1fa7f); (0x1fa87, 0x1fa8f); (0x1faad, 0x1faaf); (0x1fabb, 0x1fabf);
    (0x1fac6, 0x1facf); (0x1fada, 0x1fadf); (0x1fae8, 0x1faef); (0x1faf7, 0x1faff);
    (0x1fb93, 0x1fb93); (0x1fbcb, 0x1fbef); (0x1fbfa, 0x1ffff); (0x2a6e0, 0x2a6ff);
    (0x2b739, 0x2b73f); (0x2b81e, 0x2b81f); (0x2cea2, 0x2ceaf); (0x2ebe1, 0x2f7ff);
    (0x2fa1e, 0x2ffff); (0x3134b, 0xe00ff); (0xe01f0, 0x10ffff) ].

Definition unicode14_isprintable (ch : Z) : bool :=
  negb (existsb (fun r => (fst r <=? ch) && (ch <=? snd r)) nonprintable_ranges).

(** One character of [repr(s)], given as its UTF-8 sequence. *)
Definition escape (q : ascii) (c : string) : string :=
  let ch := code_point c in
  if (ch =? code backslash) || (ch =? code q) then String backslash c
  else if ch =? 9 then String backslash "t"
  else if ch =? 10 then String backslash "n"
  else if ch =? 13 then String backslash "r"
  else if (ch <? 32) || (ch =? 127) then String backslash ("x" ++ hex 2 ch)
  else if ch <? 127 then c
  else if unicode14_isprintable ch then c
  else if ch <=? 0xff then String backslash ("x" ++ hex 2 ch)
  else if ch <=? 0xffff then String backslash ("u" ++ hex 4 ch)
  else String backslash ("U" ++ hex 8 ch).

Definition cpython_repr (s : string) : string :=
  let q := if contains (String quote1 "") s && negb (contains (String quote2 "") s)
           then quote2 else quote1 in
  String q (String.concat "" (map (escape q) (chars s)) ++ String q "").

(** [strptime] matches the regular expression
    [(\d\d\d\d)-(1[0-2]|0[1-9]|[1-9])-(3[0-1]|[1-2]\d|0[1-9]|[1-9]| [1-9])T(2[0-3]|[0-1]\d|\d):([0-5]\d|\d):(6[0-1]|[0-5]\d|\d)Z],
    ignoring case, against the code points of the string; [\d] is any decimal
    digit of the Unicode database, and [int] reads such digits. *)

Definition between (lo hi : Z) (ch : Z) : bool := (lo <=? ch) && (ch <=? hi).

Definition is_decimal (ch : Z) : bool :=
  match unicode14_todecimal ch with
  | Some _ => true
  | None => false
  end.

Definition decimal_val (ch : Z) : Z :=
  match unicode14_todecimal ch with
  | Some decimal => decimal
  | None => 0
  end.

(** One field of the timestamp: two characters accepted by [two], or else one
    accepted by [one]. *)
Definition read_field (two : Z -> Z -> bool) (one : Z -> bool) (s : list Z)
  : option (Z * list Z) :=
  match s with
  | a :: b :: r =>
      if two a b then Some (10 * decimal_val a + decimal_val b, r)
      else if one a then Some (decimal_val a, b :: r) else None
  | a :: r => if one a then Some (decimal_val a, r) else None
  | [] => None
  end.

Definition two_m (a b : Z) : bool :=
  (between 49 49 a && between 48 50 b) || (between 48 48 a && between 49 57 b).
Definition two_d (a b : Z) : bool :=
  (between 51 51 a && between 48 49 b) || (between 49 50 a && is_decimal b)
  || (between 48 48 a && between 49 57 b) || (between 32 32 a && between 49 57 b).
Definition two_H (a b : Z) : bool :=
  (between 50 50 a && between 48 51 b) || (between 48 49 a && is_decimal b).
Definition two_M (a b : Z) : bool := between 48 53 a && is_decimal b.
Definition two_S (a b : Z) : bool :=
  (between 54 54 a && between 48 49 b) || (between 48 53 a && is_decimal b).

(** A literal of the format; the match ignores case. *)
Definition read_literal (c : ascii) (s : list Z) : option (list Z) :=
  match s with
  | a :: r => if (a =? code c) || (a =? code (lower c)) then Some r else None
  | [] => None
  end.

Definition read_year (s : list Z) : option (Z * list Z) :=
  match s with
  | a :: b :: c :: d :: r =>
      if is_decimal a && is_decimal b && is_decimal c && is_decimal d
      then Some (1000 * decimal_val a + 100 * decimal_val b + 10 * decimal_val c
                 + decimal_val d, r)
      else None
  | _ => None
  end.

Definition is_leap (y : Z) : bool :=
  ((y mod 4 =? 0) && negb (y mod 100 =? 0)) || (y mod 400 =? 0).

Definition days_in_month (y m : Z) : Z :=
  if m =? 2 then (if is_leap y then 29 else 28)
  else if (m =? 4) || (m =? 6) || (m =? 9) || (m =? 11) then 30 else 31.

Definition month_abbr (m : Z) : string :=
  nth (Z.to_nat (m - 1))
    ["Jan"; "Feb"; "Mar"; "Apr"; "May"; "Jun"; "Jul"; "Aug"; "Sep"; "Oct"; "Nov"; "Dec"] "".

Definition two_digits (n : Z) : string :=
  (if n <? 10 then "0" else "") ++ Z_to_string n.

Definition bind_opt {A B : Type} (c : option A) (k : A -> option B) : option B :=
  match c with
  | Some a => k a
  | None => None
  end.

Definition c_strptime_strftime (s : string) : option string :=
  bind_opt (read_year (code_points s)) (fun '(year, s) =>
  bind_opt (read_literal "-" s) (fun s =>
  bind_opt (read_field two_m (between 49 57) s) (fun '(month, s) =>
  bind_opt (read_literal "-" s) (fun s =>
  bind_opt (read_field two_d (between 49 57) s) (fun '(day, s) =>
  bind_opt (read_literal "T" s) (fun s =>
  bind_opt (read_field two_H is_decimal s) (fun '(hour, s) =>
  bind_opt (read_literal ":" s) (fun s =>
  bind_opt (read_field two_M is_decimal s) (fun '(minute, s) =>
  bind_opt (read_literal ":" s) (fun s =>
  bind_opt (read_field two_S is_decimal s) (fun '(second, s) =>
  bind_opt (read_literal "Z" s) (fun s =>
    match s with
    | [] =>
        if (1 <=? year) && (day <=? days_in_month year month) && (second <=? 59)
        then Some (two_digits day ++ "-" ++ month_abbr month ++ "-" ++ Z_to_string year
                   ++ " " ++ two_digits hour ++ ":" ++ two_digits minute ++ " UTC")
        else None
    | _ => None
    end)))))))))))).

Definition cpython : PyRuntime := {|
  str_repr := cpython_repr;
  strptime_strftime := c_strptime_strftime;
  unicode_isspace := unicode14_isspace;
  unicode_todecimal := unicode14_todecimal
|}.

(** * Vocabulary of the properties *)

(** ** The orchestrator *)

Definition primary_request (key : string) : event :=
  HttpGet CHECKWX_API_URL [("X-API-Key", key)].

Definition fallback_request : event := HttpGet FALLBACK_URL [].

(** [not CHECKWX_API_KEY] *)
Definition unconfigured (w : world) : bool :=
  match CHECKWX_API_KEY w with
  | None | Some EmptyString => true
  | Some _ => false
  end.

Definition configured (w : world) (key : string) : Prop :=
  CHECKWX_API_KEY w = Some key /\ key <> "".

(** The answer of the primary provider to the one request made after [tr]. *)
Definition primary_answer (w : world) (key : string) (tr : list event) : result response :=
  network w tr CHECKWX_API_URL [("X-API-Key", key)].

(** The kinds of failure of the primary source. [Undecodable] is a 200
    response whose body is not the expected JSON. *)
Inductive primary_fails (w : world) (tr : list event) : Prop :=
| Unconfigured :
    unconfigured w = true -> primary_fails w tr
| NoData key r data results :
    configured w key -> primary_answer w key tr = Ok r -> status_code r = 200 ->
    response_json r = Ok data -> py_get data "results" (JInt 0) = Ok results ->
    py_gt0 results = Ok false -> primary_fails w tr
| SourceUnavailable_status key r :
    configured w key -> primary_answer w key tr = Ok r -> status_code r <> 200 ->
    primary_fails w tr
| SourceUnavailable_network key e :
    configured w key -> primary_answer w key tr = Raise e -> primary_fails w tr
| Undecodable key r e :
    configured w key -> primary_answer w key tr = Ok r -> status_code r = 200 ->
    checkwx_latest r = Raise e -> primary_fails w tr.

(** The fallback source fails when it is asked after [tr]: the one request
    made then raises, is answered with a status other than 200, is answered
    with a body that cannot be read (no JSON, or of a shape that makes lines
    59-61 raise), or is answered with no observation (an empty body, a first
    element that is [null]). *)
Inductive fallback_fails (w : world) (tr : list event) : Prop :=
| Fallback_network e :
    network w tr FALLBACK_URL [] = Raise e -> fallback_fails w tr
| Fallback_status r :
    network w tr FALLBACK_URL [] = Ok r -> status_code r <> 200 -> fallback_fails w tr
| Fallback_undecodable r e :
    network w tr FALLBACK_URL [] = Ok r -> status_code r = 200 ->
    aviationweather_latest r = Raise e -> fallback_fails w tr
| Fallback_no_data r :
    network w tr FALLBACK_URL [] = Ok r -> status_code r = 200 ->
    aviationweather_latest r = Ok JNull -> fallback_fails w tr.

(** The requests a run has made when it turns to the fallback: none without
    a key, the one to CheckWX with a key. *)
Definition before_fallback (w : world) : list event :=
  match CHECKWX_API_KEY w with
  | None | Some EmptyString => []
  | Some key => [primary_request key]
  end.

(** Line 34 of src/app.py. *)
Definition triggers (incoming_msg : string) : bool :=
  contains "metar" incoming_msg || contains "weather" incoming_msg
  || contains "gatwick" incoming_msg.

(** *** Concrete worlds *)

Definition sample_raw : string := "EGKK 010520Z 27015KT 9999 FEW025 12/08 Q1013".

Definition ok_response (body : json) : response :=
  {| status_code := 200; text := ""; response_json := Ok body |}.

Definition error_response (status : Z) : response :=
  {| status_code := status; text := "error"; response_json := Raise JSONDecodeError |}.

(** A world whose two providers answer the same way whatever happened
    before. *)
Definition steady_world (key : option string) (primary fallback : result response) : world :=
  {| CHECKWX_API_KEY := key;
     network := fun _ url _ => if String.eqb url CHECKWX_API_URL then primary else fallback;
     twilio := fun _ _ _ => true |}.

Definition fallback_observation : json :=
  JDict [("raw_text", JStr sample_raw); ("temp_c", JInt 12)].

Definition no_results : json := JDict [("results", JInt 0); ("data", JList [])].

(** CheckWX answers 200 with an empty result set; aviationweather.gov has the
    observation. *)
Definition nodata_world : world :=
  steady_world (Some "secret") (Ok (ok_response no_results))
    (Ok (ok_response (JList [fallback_observation]))).

(** No key, and aviationweather.gov is down. *)
Definition dark_world : world :=
  steady_world None (Ok (error_response 401)) (Raise RequestException).

(** CheckWX refuses the key (401), aviationweather.gov has the observation. *)
Definition refused_world : world :=
  steady_world (Some "secret") (Ok (error_response 401))
    (Ok (ok_response (JList [fallback_observation]))).

(** CheckWX cannot be reached. *)
Definition timeout_world : world :=
  steady_world (Some "secret") (Raise RequestException)
    (Ok (ok_response (JList [fallback_observation]))).

(** CheckWX answers 200 with a body that is no JSON. *)
Definition garbled_world : world :=
  steady_world (Some "secret")
    (Ok {| status_code := 200; text := "<html>"; response_json := Raise JSONDecodeError |})
    (Ok (ok_response (JList [fallback_observation]))).

(** CheckWX answers 500. aviationweather.gov cannot be reached right after
    the request to CheckWX, and has the observation at any other moment. *)
Definition flaky_world : world :=
  {| CHECKWX_API_KEY := Some "secret";
     network := fun tr url _ =>
       if String.eqb url CHECKWX_API_URL then Ok (error_response 500)
       else match tr with
            | [_] => Raise RequestException
            | _ => Ok (ok_response (JList [fallback_observation]))
            end;
     twilio := fun _ _ _ => true |}.

(** ** The reports *)

(** The separator of the display lines: a blank line. *)
Definition nl2 : string := nl ++ nl.

(** [d.get(k, default)] on a dict. *)
Definition field (d : dict) (k : string) (default : json) : json :=
  match lookup k d with
  | Some v => v
  | None => default
  end.

(** The test [if value:] of the source on [value = d.get(k, "")]: the key is
    present and its value counts as true. *)
Definition truthy_at (k : string) (d : dict) : bool :=
  match lookup k d with
  | Some v => py_truthy v
  | None => false
  end.

(** An empty value: [None], the empty string, the empty list, the empty
    dict. *)
Definition is_empty (v : json) : bool :=
  match v with
  | JNull | JStr EmptyString | JList [] | JDict [] => true
  | _ => false
  end.

(** A zero: the numbers [0], [0.0] and [-0.0], and [False]. *)
Definition is_zero (v : json) : bool :=
  match v with
  | JInt 0 | JFloat (S754_zero _) | JBool false => true
  | _ => false
  end.

(** "Present and non-empty", in the words of claims C7 and C8: the key is
    there and its value is not empty. A number is not empty, whatever its
    value. *)
Definition present_nonempty (k : string) (d : dict) : bool :=
  match lookup k d with
  | Some v => negb (is_empty v)
  | None => false
  end.

Definition wind_line (report : list string) : string := nth 3 report "".
Definition clouds_line (report : list string) : string := nth 5 report "".

(** A text made of the seven display lines, in their order, a blank line
    between two of them; each line starts with its label, so none is empty. *)
Definition seven_lines (report : string) : Prop :=
  exists time temp wind visibility clouds raw : string,
    report = join nl2
               [ "🛫 *GATWICK AIRPORT (EGKK) METAR* 🛬";
                 "⏰ Observed: " ++ time;
                 "🌡️ Temperature: " ++ temp ++ "°C";
                 "💨 Wind: " ++ wind;
                 "👁️ Visibility: " ++ visibility;
                 "☁️ Clouds: " ++ clouds;
                 "📊 Raw METAR: " ++ raw ].

Section ReportVocabulary.
Context {rt : PyRuntime}.

(** Schema-specific extraction: the body of the [try] of the parser that
    [parse_metar_for_human] picks for a dict. *)
Definition extraction (d : dict) : result (list string) :=
  if has_key "raw_text" d then aviationweather_response (JDict d)
  else checkwx_response (JDict d).

(** The one-line report of the two parsers' own [except] clauses (lines 154
    and 225). *)
Definition raw_only (d : dict) : string :=
  "Gatwick METAR: " ++
  py_str (match lookup "raw_text" d with
          | Some raw_text => raw_text
          | None => field d "raw" (JStr "Data unavailable")
          end).

(** The minimal report in the words of claim C3: the raw text from
    ["raw_text"] if present, else from ["raw"] if present, else the apology
    string of line 101. *)
Definition minimal_report_as_claimed (d : dict) : string :=
  match lookup "raw_text" d with
  | Some raw_text => "Gatwick METAR: " ++ py_str raw_text
  | None =>
      match lookup "raw" d with
      | Some raw => "Gatwick METAR: " ++ py_str raw
      | None => APOLOGY
      end
  end.

(** The wind text for given direction and speed, and a gust if there is one
    to show. *)
Definition wind_text (direction speed : json) (gust : option json) : string :=
  (py_str direction ++ "° at " ++ py_str speed ++ " knots")
  ++ match gust with
     | Some g => ", gusting to " ++ py_str g ++ " knots"
     | None => ""
     end.

(** The gust to show: the value of [k], when it counts as true. *)
Definition gust_of (k : string) (d : dict) : option json :=
  if truthy_at k d then lookup k d else None.

(** The gust to show in the words of claim C7: the value of [k], when
    present and not empty. *)
Definition gust_as_claimed (k : string) (d : dict) : option json :=
  if present_nonempty k d then lookup k d else None.

(** The text of one cloud layer. *)
Definition layer_text (cover_key base_key : string) (layer : dict) : string :=
  py_str (field layer cover_key (JStr "")) ++ " at "
  ++ py_str (field layer base_key (JStr "")) ++ " ft".

(** The entry of one cloud layer: ["{cover} at {altitude} ft"] when both
    fields count as true. *)
Definition cloud_entry (cover_key base_key : string) (layer : dict) : option string :=
  if truthy_at cover_key layer && truthy_at base_key layer
  then Some (layer_text cover_key base_key layer)
  else None.

(** The entry of one cloud layer in the words of claim C8: when both fields
    are present and not empty. *)
Definition cloud_entry_as_claimed (cover_key base_key : string) (layer : dict)
  : option string :=
  if present_nonempty cover_key layer && present_nonempty base_key layer
  then Some (layer_text cover_key base_key layer)
  else None.

Fixpoint cloud_entries (cover_key base_key : string) (layers : list dict) : list string :=
  match layers with
  | [] => []
  | layer :: rest =>
      match cloud_entry cover_key base_key layer with
      | Some entry => entry :: cloud_entries cover_key base_key rest
      | None => cloud_entries cover_key base_key rest
      end
  end.

(** A list of layers or a single layer: the two shapes the fallback schema
    reads. *)
Definition is_layers (sky : json) : bool :=
  match sky with
  | JList _ | JDict _ => true
  | _ => false
  end.

(** The entries joined in their order, or the placeholder when there is
    none. *)
Definition clouds_text (entries : list string) : string :=
  match entries with
  | [] => "No cloud data"
  | _ => join ", " entries
  end.

(** The observation time the fallback schema shows. *)
Definition obs_time_of (d : dict) : json :=
  match lookup "observation_time" d with
  | None => JStr "N/A"
  | Some (JStr s) =>
      match strptime_strftime s with
      | Some shown => JStr shown
      | None => JStr s
      end
  | Some v => v
  end.

End ReportVocabulary.

(** *** Concrete observations *)

(** An observation in the schema of CheckWX. *)
Definition checkwx_observation (meters : json) (gust : json) : dict :=
  [ ("raw", JStr sample_raw);
    ("observed", JStr "2024-05-01T05:20:00Z");
    ("temperature", JDict [("celsius", JInt 12)]);
    ("wind", JDict [("degrees", JInt 270); ("speed_kts", JInt 15); ("gust_kts", gust)]);
    ("visibility", JDict [("meters", meters)]);
    ("clouds", JList [JDict [("code", JStr "BKN"); ("base_feet_agl", JStr "2500")];
                      JDict [("code", JStr "OVC")];
                      JDict [("code", JStr "FEW"); ("base_feet_agl", JInt 4000)]]) ].

(** An observation in the schema of aviationweather.gov. *)
Definition aviationweather_observation (miles : json) (gust : json) (sky : json) : dict :=
  [ ("raw_text", JStr sample_raw);
    ("observation_time", JStr "2024-05-01T05:20:00Z");
    ("temp_c", JFloat (Z_to_float 12));
    ("wind_dir_degrees", JInt 270);
    ("wind_speed_kt", JInt 15);
    ("wind_gust_kt", gust);
    ("visibility_statute_mi", miles);
    ("sky_condition", sky) ].

Definition few_2500 : json :=
  JDict [("sky_cover", JStr "FEW"); ("cloud_base_ft_agl", JInt 2500)].

(** The report of an observation without any field. *)
Definition placeholder_report : list string :=
  [ "🛫 *GATWICK AIRPORT (EGKK) METAR* 🛬";
    "⏰ Observed: N/A";
    "🌡️ Temperature: N/A°C";
    "💨 Wind: N/A° at N/A knots";
    "👁️ Visibility: N/A";
    "☁️ Clouds: No cloud data";
    "📊 Raw METAR: N/A" ].

(** A visibility as CheckWX writes it for ten kilometres, and nothing else:
    no ["raw"], no ["raw_text"]. *)
Definition bare_comma_visibility : dict :=
  [ ("visibility", JDict [("meters", JStr "10,000")]) ].

(** CheckWX has one result. *)
Definition happy_world : world :=
  steady_world (Some "secret")
    (Ok (ok_response
           (JDict [("results", JInt 1);
                   ("data", JList [JDict (checkwx_observation (JStr "9000") (JStr ""))])])))
    (Raise RequestException).

(** The report of [fallback_observation]. *)
Definition fallback_report : string :=
  join nl2
    [ "🛫 *GATWICK AIRPORT (EGKK) METAR* 🛬";
      "⏰ Observed: N/A";
      "🌡️ Temperature: 12°C";
      "💨 Wind: N/A° at N/A knots";
      "👁️ Visibility: N/A";
      "☁️ Clouds: No cloud data";
      "📊 Raw METAR: EGKK 010520Z 27015KT 9999 FEW025 12/08 Q1013" ].

(** The seven display lines with the given contents. *)
Definition lines_of (time temp wind visibility clouds raw : string) : list string :=
  [ "🛫 *GATWICK AIRPORT (EGKK) METAR* 🛬";
    "⏰ Observed: " ++ time;
    "🌡️ Temperature: " ++ temp ++ "°C";
    "💨 Wind: " ++ wind;
    "👁️ Visibility: " ++ visibility;
    "☁️ Clouds: " ++ clouds;
    "📊 Raw METAR: " ++ raw ].

(** An observation of CheckWX without temperature and without clouds. *)
Definition sparse_observation : dict :=
  [ ("raw", JStr sample_raw);
    ("observed", JStr "2024-05-01T05:20:00Z");
    ("wind", JDict [("degrees", JInt 270); ("speed_kts", JInt 15)]);
    ("visibility", JDict [("meters", JInt 9000)]) ].

(** A wind with a gust of zero knots. *)
Definition calm_gust : dict :=
  [ ("degrees", JInt 270); ("speed_kts", JInt 15); ("gust_kts", JInt 0) ].

(** A cloud layer whose base is at the ground. *)
Definition ground_layer : dict := [ ("code", JStr "BKN"); ("base_feet_agl", JInt 0) ].

Definition ground_layer_observation : dict :=
  [ ("raw", JStr sample_raw); ("clouds", JList [JDict ground_layer]) ].

(** The layers of [checkwx_observation]. *)
Definition three_layers : list dict :=
  [ [("code", JStr "BKN"); ("base_feet_agl", JStr "2500")];
    [("code", JStr "OVC")];
    [("code", JStr "FEW"); ("base_feet_agl", JInt 4000)] ].

(** Three layers in the schema of aviationweather.gov, one without its
    base. *)
Definition three_sky_layers : list dict :=
  [ [("sky_cover", JStr "FEW"); ("cloud_base_ft_agl", JInt 2500)];
    [("sky_cover", JStr "CLR")];
    [("sky_cover", JStr "OVC"); ("cloud_base_ft_agl", JInt 9000)] ].

(** * The rest of the code *)

(** ** src/twilio_service.py *)

Module twilio_service.

(** The three settings read from the environment (lines 9-11). *)
Record settings : Type := {
  TWILIO_ACCOUNT_SID : option string;
  TWILIO_AUTH_TOKEN : option string;
  TWILIO_WHATSAPP_NUMBER : option string
}.

(** One call [client.messages.create(body=.., from_=.., to=..)] on the client
    [Client(account_sid, auth_token)]. *)
Record create_call : Type := {
  account_sid : string;
  auth_token : string;
  body : message;
  from_ : string;
  to : string
}.

(** The Twilio API as the function sees it: [create] raises or returns a
    message, of which only [message.sid] is read. *)
Record service : Type := {
  env : settings;
  messages_create : list create_call -> create_call -> result string
}.

(** A computation that may raise and that records the calls to the API. *)
Definition tw (A : Type) : Type := list create_call -> result A * list create_call.

Definition tw_ret {A : Type} (a : A) : tw A := fun calls => (Ok a, calls).

Definition tw_bind {A B : Type} (c : tw A) (k : A -> tw B) : tw B :=
  fun calls =>
    match c calls with
    | (Ok a, calls') => k a calls'
    | (Raise e, calls') => (Raise e, calls')
    end.

Definition tw_try {A : Type} (body : tw A) (handler : exn -> tw A) : tw A :=
  fun calls =>
    match body calls with
    | (Ok a, calls') => (Ok a, calls')
    | (Raise e, calls') => handler e calls'
    end.

(** The truth value of a setting: unset and empty are false. *)
Definition is_set (v : option string) : bool :=
  match v with
  | None | Some EmptyString => false
  | Some _ => true
  end.

Definition value (v : option string) : string :=
  match v with
  | Some s => s
  | None => ""
  end.

(** Lines 35-36 and 40-41: the prefix is added to a number that does not
    start with it. *)
Definition with_prefix (number : string) : string :=
  if negb (starts_with "whatsapp:" number) then "whatsapp:" ++ number else number.

Section Send.
Variable s : service.

Definition create (c : create_call) : tw string :=
  fun calls => (messages_create s calls c, (calls ++ [c])%list).

(** Lines 13-55. *)
Definition send_whatsapp_message (to_number : string) (message_body : message) : tw bool :=
  tw_try
    (if negb (forallb is_set [ TWILIO_ACCOUNT_SID (env s); TWILIO_AUTH_TOKEN (env s);
                               TWILIO_WHATSAPP_NUMBER (env s) ])
     then tw_ret false
     else
       let to_number := with_prefix to_number in
       let from_number := with_prefix (value (TWILIO_WHATSAPP_NUMBER (env s))) in
       tw_bind
         (create {| account_sid := value (TWILIO_ACCOUNT_SID (env s));
                    auth_token := value (TWILIO_AUTH_TOKEN (env s));
                    body := message_body;
                    from_ := from_number;
                    to := to_number |})
         (fun sid => tw_ret true))
    (fun _ => tw_ret false).

End Send.

End twilio_service.

(** ** Vocabulary of the further properties *)

Definition is_dict (v : json) : bool :=
  match v with
  | JDict _ => true
  | _ => false
  end.

(** The value as the object it must be for [.get]: anything else has no
    such method. *)
Definition as_dict (v : json) : result dict :=
  match v with
  | JDict d => Ok d
  | _ => Raise AttributeError
  end.

(** A number in the sense of [> 0]: an int, a bool or a float. *)
Definition is_number (v : json) : bool :=
  match v with
  | JInt _ | JBool _ | JFloat _ => true
  | _ => false
  end.

(** The key is absent, or its value is an object. *)
Definition dict_or_absent (k : string) (d : dict) : bool :=
  match lookup k d with
  | None => true
  | Some v => is_dict v
  end.

(** The meters value of an observation of CheckWX whose ["visibility"] is an
    object or absent. *)
Definition meters_of (d : dict) : json :=
  match lookup "visibility" d with
  | Some (JDict visibility) => field visibility "meters" (JStr "N/A")
  | _ => JStr "N/A"
  end.

Section WellFormed.
Context {rt : PyRuntime}.

(** What the extraction of the CheckWX parser needs of an observation: the
    three nested fields are objects or absent, the meters are ["N/A"] or
    something [float] converts, and the clouds are absent, empty, or a list
    of objects. *)
Definition checkwx_well_formed (d : dict) : bool :=
  dict_or_absent "temperature" d && dict_or_absent "wind" d
  && dict_or_absent "visibility" d
  && (eq_str (meters_of d) "N/A" || is_ok (py_float (meters_of d)))
  && match lookup "clouds" d with
     | None => true
     | Some clouds =>
         negb (py_truthy clouds)
         || match clouds with
            | JList items => forallb is_dict items
            | _ => false
            end
     end.

End WellFormed.

(** What the extraction of the aviationweather.gov parser needs: a
    ["sky_condition"] that is a list holds objects only. *)
Definition aviationweather_well_formed (d : dict) : bool :=
  match lookup "sky_condition" d with
  | Some (JList items) => forallb is_dict items
  | _ => true
  end.

(** Two observations that agree on every key but [k]. *)
Definition agree_but (k : string) (d d' : dict) : Prop :=
  forall k', k' <> k -> lookup k' d' = lookup k' d.

(** [k in m] for an observation that is a string or a list; [false] for the
    values that have no [in]. *)
Definition mentions (k : string) (m : json) : bool :=
  match py_contains k m with
  | Ok b => b
  | Raise _ => false
  end.

(** A string or a list: the values, besides a dict, that [in] accepts. *)
Definition is_sequence (m : json) : bool :=
  match m with
  | JStr _ | JList _ => true
  | _ => false
  end.

(** The events of a trace that are HTTP requests, and those that are
    messages. *)
Definition is_request (ev : event) : bool :=
  match ev with
  | HttpGet _ _ => true
  | WhatsApp _ _ => false
  end.

(** A world in which CheckWX answers 200 with [body], whatever the rest. *)
Definition checkwx_says (body : json) : world :=
  steady_world (Some "secret") (Ok (ok_response body))
    (Ok (ok_response (JList [fallback_observation]))).

(** A world in which there is no key and aviationweather.gov answers 200
    with [body]. *)
Definition aviationweather_says (body : json) : world :=
  steady_world None (Raise RequestException) (Ok (ok_response body)).

(** The three settings of Twilio are there (line 26). *)
Definition twilio_configured (s : twilio_service.service) : bool :=
  twilio_service.is_set (twilio_service.TWILIO_ACCOUNT_SID (twilio_service.env s))
  && twilio_service.is_set (twilio_service.TWILIO_AUTH_TOKEN (twilio_service.env s))
  && twilio_service.is_set (twilio_service.TWILIO_WHATSAPP_NUMBER (twilio_service.env s)).

(** *** Concrete data for the further properties *)

(** An observation of CheckWX whose objects lack their fields. *)
Definition hollow_observation : dict :=
  [ ("raw", JStr sample_raw);
    ("temperature", JDict [("dewpoint", JInt 8)]);
    ("wind", JDict []);
    ("visibility", JDict [("miles", JStr "6")]);
    ("clouds", JList [JDict [("code", JStr "BKN"); ("base_feet_agl", JStr "2500")]]) ].

(** An observation of aviationweather.gov with a time that [strptime]
    refuses. *)
Definition undated_observation : dict :=
  [ ("raw_text", JStr sample_raw); ("observation_time", JStr "1 May, 05:20") ].

(** The observation of half an hour later, which differs in its raw text
    only. *)
Definition later_raw : string := "EGKK 010550Z 27015KT 9999 FEW025 12/08 Q1013".

Definition later_observation : dict :=
  [ ("raw", JStr later_raw);
    ("observed", JStr "2024-05-01T05:20:00Z");
    ("temperature", JDict [("celsius", JInt 12)]);
    ("wind", JDict [("degrees", JInt 270); ("speed_kts", JInt 15); ("gust_kts", JStr "")]);
    ("visibility", JDict [("meters", JStr "9000")]);
    ("clouds", JList [JDict [("code", JStr "BKN"); ("base_feet_agl", JStr "2500")];
                      JDict [("code", JStr "OVC")];
                      JDict [("code", JStr "FEW"); ("base_feet_agl", JInt 4000)]]) ].

(** An observation in a schema the code does not know. *)
Definition third_schema : dict :=
  [ ("station", JStr "EGKK"); ("metar", JStr sample_raw); ("temp", JInt 12) ].

(** An observation of CheckWX whose temperature is [null]. *)
Definition null_temperature : dict :=
  [ ("raw", JStr sample_raw); ("temperature", JNull) ].

(** An observation of aviationweather.gov with a cloud layer that is a
    string. *)
Definition string_layer : dict :=
  [ ("raw_text", JStr sample_raw); ("sky_condition", JList [few_2500; JStr "CLR"]) ].

(** aviationweather.gov answers with an error object. *)
Definition error_body : json := JDict [("error", JStr "Invalid station")].

(** A result count of one, and no data. *)
Definition count_without_data : json := JDict [("results", JInt 1); ("data", JList [])].

Definition twilio_settings (sid token number : option string) : twilio_service.service :=
  {| twilio_service.env :=
       {| twilio_service.TWILIO_ACCOUNT_SID := sid;
          twilio_service.TWILIO_AUTH_TOKEN := token;
          twilio_service.TWILIO_WHATSAPP_NUMBER := number |};
     twilio_service.messages_create := fun _ _ => Ok "SM0123456789" |}.

(** * Properties *)

(** ** The orchestrator: [get_gatwick_metar] *)

Section Orchestrator.
Variable w : world.

Lemma unconfigured_key :
  unconfigured w = true -> CHECKWX_API_KEY w = None \/ CHECKWX_API_KEY w = Some "".
Proof.
  unfold unconfigured. destruct (CHECKWX_API_KEY w) as [[|c k]|]; intros H; auto; discriminate.
Qed.

(** The fallback client never raises, and makes exactly one request. *)
Lemma fallback_runs (tr : list event) :
  exists v, get_gatwick_metar_fallback w tr = (Ok v, (tr ++ [fallback_request])%list).
Proof.
  unfold get_gatwick_metar_fallback, io_try, io_bind, requests_get, lift, ret, fallback_request.
  destruct (network w tr FALLBACK_URL []) as [r|e]; [|eauto].
  destruct (status_code r =? 200); [|eauto].
  destruct (aviationweather_latest r); eauto.
Qed.

Lemma fallback_unavailable (tr : list event) :
  (forall e, network w tr FALLBACK_URL [] = Raise e ->
     get_gatwick_metar_fallback w tr = (Ok JNull, (tr ++ [fallback_request])%list)) /\
  (forall r, network w tr FALLBACK_URL [] = Ok r -> status_code r <> 200 ->
     get_gatwick_metar_fallback w tr = (Ok JNull, (tr ++ [fallback_request])%list)).
Proof.
  unfold get_gatwick_metar_fallback, io_try, io_bind, requests_get, lift, ret, fallback_request.
  split.
  - intros e ->. reflexivity.
  - intros r -> Hs. apply Z.eqb_neq in Hs. rewrite Hs. reflexivity.
Qed.

(** With no key, the whole run is the run of the fallback. *)
Lemma unconfigured_run (tr : list event) :
  unconfigured w = true -> get_gatwick_metar w tr = get_gatwick_metar_fallback w tr.
Proof.
  intros H. destruct (fallback_runs tr) as [v Hv].
  unfold get_gatwick_metar, io_try.
  destruct (unconfigured_key H) as [-> | ->]; rewrite Hv; reflexivity.
Qed.

(** With a key, the run is decided by the answer to the one primary request. *)
Lemma configured_run (key : string) (tr : list event) :
  configured w key ->
  get_gatwick_metar w tr =
  match primary_answer w key tr with
  | Raise _ => get_gatwick_metar_fallback w (tr ++ [primary_request key])%list
  | Ok r =>
      if status_code r =? 200 then
        match checkwx_latest r with
        | Ok v => (Ok v, (tr ++ [primary_request key])%list)
        | Raise _ => get_gatwick_metar_fallback w (tr ++ [primary_request key])%list
        end
      else get_gatwick_metar_fallback w (tr ++ [primary_request key])%list
  end.
Proof.
  intros [Hk Hne].
  unfold get_gatwick_metar, io_try, io_bind, requests_get, lift, primary_answer, primary_request.
  rewrite Hk. destruct key as [|c k]; [congruence|].
  destruct (network w tr CHECKWX_API_URL [("X-API-Key", String c k)]) as [r|e]; [|reflexivity].
  destruct (status_code r =? 200).
  - destruct (checkwx_latest r); reflexivity.
  - destruct (fallback_runs (tr ++ [HttpGet CHECKWX_API_URL [("X-API-Key", String c k)]])%list)
      as [v Hv].
    rewrite Hv. reflexivity.
Qed.

Lemma no_data_decoded (r : response) (data results : json) :
  response_json r = Ok data -> py_get data "results" (JInt 0) = Ok results ->
  py_gt0 results = Ok false -> checkwx_latest r = Ok JNull.
Proof.
  intros H1 H2 H3. unfold checkwx_latest. rewrite H1. simpl. rewrite H2. simpl.
  rewrite H3. reflexivity.
Qed.

(** C1 (as amended). A missing or empty API key, a network error or timeout, a
    response whose status is not 200, and a 200 response that cannot be
    decoded all hand over to the fallback: the run of [get_gatwick_metar] is
    then the run of [get_gatwick_metar_fallback], started right after the
    primary request if one was made; that run makes the one request to
    aviationweather.gov and returns. A 200 response whose result count is not
    positive is answered with [None], and the fallback is not requested. *)
Theorem primary_failure_handling (tr : list event) :
  (forall tr', exists v,
     get_gatwick_metar_fallback w tr' = (Ok v, (tr' ++ [fallback_request])%list)) /\
  (unconfigured w = true ->
     get_gatwick_metar w tr = get_gatwick_metar_fallback w tr) /\
  (forall key, configured w key ->
     (forall e, primary_answer w key tr = Raise e ->
        get_gatwick_metar w tr
        = get_gatwick_metar_fallback w (tr ++ [primary_request key])%list) /\
     (forall r, primary_answer w key tr = Ok r -> status_code r <> 200 ->
        get_gatwick_metar w tr
        = get_gatwick_metar_fallback w (tr ++ [primary_request key])%list) /\
     (forall r e, primary_answer w key tr = Ok r -> status_code r = 200 ->
        checkwx_latest r = Raise e ->
        get_gatwick_metar w tr
        = get_gatwick_metar_fallback w (tr ++ [primary_request key])%list) /\
     (forall r data results, primary_answer w key tr = Ok r -> status_code r = 200 ->
        response_json r = Ok data -> py_get data "results" (JInt 0) = Ok results ->
        py_gt0 results = Ok false ->
        get_gatwick_metar w tr = (Ok JNull, (tr ++ [primary_request key])%list))).
Proof.
  split; [apply fallback_runs|]. split; [apply unconfigured_run|].
  intros key Hk. pose proof (configured_run key tr Hk) as Hrun.
  repeat split.
  - intros e He. rewrite Hrun, He. reflexivity.
  - intros r Hr Hs. rewrite Hrun, Hr. apply Z.eqb_neq in Hs. rewrite Hs. reflexivity.
  - intros r e Hr Hs He. rewrite Hrun, Hr, Hs. simpl. rewrite He. reflexivity.
  - intros r data results Hr Hs H1 H2 H3.
    rewrite Hrun, Hr, Hs. simpl. rewrite (no_data_decoded r data results H1 H2 H3). reflexivity.
Qed.

End Orchestrator.

Lemma configured_unique (w : world) (key key' : string) :
  configured w key -> configured w key' -> key' = key.
Proof. intros [H _] [H' _]. congruence. Qed.

Lemma configured_not_unconfigured (w : world) (key : string) :
  configured w key -> unconfigured w = false.
Proof.
  intros [H Hne]. unfold unconfigured. rewrite H. destruct key; [congruence|reflexivity].
Qed.

Lemma unconfigured_or_configured (w : world) :
  unconfigured w = true \/ exists key, configured w key.
Proof.
  unfold unconfigured, configured.
  destruct (CHECKWX_API_KEY w) as [[|c k]|]; auto.
  right. exists (String c k). split; [reflexivity|discriminate].
Qed.

(** C6. One run of [get_gatwick_metar] returns after at most one request to
    CheckWX and at most one to aviationweather.gov, and these requests are all
    it does: there is no retry and no third source. Without an API key the
    only request is the fallback's; when CheckWX answers 200 with a decodable
    body, its answer is returned and the fallback is not requested. *)
Theorem two_tier_policy (w : world) (tr : list event) :
  exists v new,
    get_gatwick_metar w tr = (Ok v, (tr ++ new)%list) /\
    (requests_to CHECKWX_API_URL new <= 1)%nat /\
    (requests_to FALLBACK_URL new <= 1)%nat /\
    (List.length new = requests_to CHECKWX_API_URL new + requests_to FALLBACK_URL new)%nat /\
    (unconfigured w = true -> new = [fallback_request]) /\
    (forall key r obs,
       configured w key -> primary_answer w key tr = Ok r -> status_code r = 200 ->
       checkwx_latest r = Ok obs -> v = obs /\ new = [primary_request key]).
Proof.
  assert (Hcount : forall new,
            new = [fallback_request] \/
            (exists key, new = [primary_request key]
                         \/ new = [primary_request key; fallback_request]) ->
            (requests_to CHECKWX_API_URL new <= 1)%nat /\
            (requests_to FALLBACK_URL new <= 1)%nat /\
            (List.length new
             = requests_to CHECKWX_API_URL new + requests_to FALLBACK_URL new)%nat).
  { intros new [-> | [key [-> | ->]]]; vm_compute; repeat split; lia. }
  destruct (unconfigured_or_configured w) as [Hu | [key Hk]].
  - destruct (fallback_runs w tr) as [v Hv]. exists v, [fallback_request].
    rewrite (unconfigured_run w tr Hu).
    destruct (Hcount [fallback_request]) as (H1 & H2 & H3); [auto|].
    refine (conj Hv (conj H1 (conj H2 (conj H3 (conj (fun _ => eq_refl) _))))).
    intros key r obs Hk. apply configured_not_unconfigured in Hk. congruence.
  - pose proof (configured_not_unconfigured w key Hk) as Hu.
    destruct (fallback_runs w (tr ++ [primary_request key])%list) as [v Hv].
    rewrite <- app_assoc in Hv. simpl in Hv.
    rewrite (configured_run w key tr Hk).
    destruct (Hcount [primary_request key]) as (P1 & P2 & P3); [eauto|].
    destruct (Hcount [primary_request key; fallback_request]) as (F1 & F2 & F3); [eauto|].
    destruct (primary_answer w key tr) as [r|e] eqn:Hr.
    + destruct (status_code r =? 200) eqn:Hs.
      * destruct (checkwx_latest r) as [v'|e'] eqn:Hl.
        -- exists v', [primary_request key].
           refine (conj eq_refl (conj P1 (conj P2 (conj P3 (conj _ _))))); [congruence|].
           intros key' r' obs Hk'. rewrite (configured_unique w key key' Hk Hk').
           intros Hr' _ Hl'. split; congruence.
        -- exists v, [primary_request key; fallback_request].
           refine (conj Hv (conj F1 (conj F2 (conj F3 (conj _ _))))); [congruence|].
           intros key' r' obs Hk'. rewrite (configured_unique w key key' Hk Hk').
           intros Hr' _ Hl'. congruence.
      * exists v, [primary_request key; fallback_request].
        apply Z.eqb_neq in Hs.
        refine (conj Hv (conj F1 (conj F2 (conj F3 (conj _ _))))); [congruence|].
        intros key' r' obs Hk'. rewrite (configured_unique w key key' Hk Hk').
        intros Hr' Hs' _. congruence.
    + exists v, [primary_request key; fallback_request].
      refine (conj Hv (conj F1 (conj F2 (conj F3 (conj _ _))))); [congruence|].
      intros key' r' obs Hk'. rewrite (configured_unique w key key' Hk Hk').
      intros Hr' _ _. congruence.
Qed.

(** C1, the witness of [primary_failure_handling]: one world for each kind of
    failure. *)
Lemma primary_failure_handling_witness :
  get_gatwick_metar dark_world [] = get_gatwick_metar_fallback dark_world [] /\
  get_gatwick_metar timeout_world []
  = get_gatwick_metar_fallback timeout_world [primary_request "secret"] /\
  get_gatwick_metar refused_world []
  = get_gatwick_metar_fallback refused_world [primary_request "secret"] /\
  get_gatwick_metar garbled_world []
  = get_gatwick_metar_fallback garbled_world [primary_request "secret"] /\
  get_gatwick_metar nodata_world [] = (Ok JNull, [primary_request "secret"]).
Proof.
  assert (Hk : forall p f, configured (steady_world (Some "secret") p f) "secret").
  { intros p f. split; [reflexivity|discriminate]. }
  split; [|split; [|split; [|split]]].
  - apply (proj1 (proj2 (primary_failure_handling dark_world []))). reflexivity.
  - apply (proj1 (proj2 (proj2 (primary_failure_handling timeout_world [])) "secret" (Hk _ _))
             RequestException).
    reflexivity.
  - apply (proj1 (proj2 (proj2 (proj2 (primary_failure_handling refused_world [])) "secret"
                                 (Hk _ _)))
             (error_response 401)).
    + reflexivity.
    + discriminate.
  - apply (proj1 (proj2 (proj2 (proj2 (proj2 (primary_failure_handling garbled_world []))
                                        "secret" (Hk _ _))))
             {| status_code := 200; text := "<html>"; response_json := Raise JSONDecodeError |}
             JSONDecodeError); reflexivity.
  - apply (proj2 (proj2 (proj2 (proj2 (proj2 (primary_failure_handling nodata_world []))
                                        "secret" (Hk _ _))))
             (ok_response no_results) no_results (JInt 0)); reflexivity.
Defined.

(** C1, the counterexample to the claim as stated: CheckWX answers 200 with
    an empty result set, which is one of the failures the claim lists, and
    aviationweather.gov has an observation. [get_gatwick_metar] returns [None]
    after its one request to CheckWX; the fallback, whenever it is asked,
    returns the observation. *)
Lemma no_data_is_not_handed_over :
  primary_answer nodata_world "secret" [] = Ok (ok_response no_results) /\
  get_gatwick_metar nodata_world [] = (Ok JNull, [primary_request "secret"]) /\
  requests_to FALLBACK_URL (snd (get_gatwick_metar nodata_world [])) = 0%nat /\
  (forall tr, fst (get_gatwick_metar_fallback nodata_world tr) = Ok fallback_observation) /\
  ~ (exists tr, fst (get_gatwick_metar nodata_world [])
                = fst (get_gatwick_metar_fallback nodata_world tr)).
Proof.
  split; [reflexivity|]. split; [reflexivity|]. split; [reflexivity|].
  split; [intros tr; reflexivity|].
  intros [tr H]. cbv in H. discriminate H.
Qed.

(** ** When both sources fail *)

Section BothFail.
Context {rt : PyRuntime}.
Variable w : world.

Lemma fallback_fails_run (tr : list event) :
  fallback_fails w tr ->
  get_gatwick_metar_fallback w tr = (Ok JNull, (tr ++ [fallback_request])%list).
Proof.
  intros [e He | r Hr Hs | r e Hr Hs He | r Hr Hs Hn].
  - exact (proj1 (fallback_unavailable w tr) e He).
  - exact (proj2 (fallback_unavailable w tr) r Hr Hs).
  - unfold get_gatwick_metar_fallback, io_try, io_bind, requests_get, lift, ret,
      fallback_request.
    rewrite Hr, Hs. simpl. rewrite He. reflexivity.
  - unfold get_gatwick_metar_fallback, io_try, io_bind, requests_get, lift, ret,
      fallback_request.
    rewrite Hr, Hs. simpl. rewrite Hn. reflexivity.
Qed.

Lemma before_fallback_unconfigured : unconfigured w = true -> before_fallback w = [].
Proof.
  unfold unconfigured, before_fallback.
  destruct (CHECKWX_API_KEY w) as [[|c k]|]; intros H; try reflexivity; discriminate.
Qed.

Lemma before_fallback_configured (key : string) :
  configured w key -> before_fallback w = [primary_request key].
Proof.
  intros [Hk Hne]. unfold before_fallback. rewrite Hk.
  destruct key; [congruence|reflexivity].
Qed.

Lemma both_fail_run (tr : list event) :
  primary_fails w tr -> fallback_fails w (tr ++ before_fallback w)%list ->
  exists requests, get_gatwick_metar w tr = (Ok JNull, (tr ++ requests)%list).
Proof.
  intros Hp Hf. destruct Hp as [Hu | key r data results Hk Hr Hs H1 H2 H3
                               | key r Hk Hr Hs | key e Hk Hr | key r e Hk Hr Hs He].
  - exists [fallback_request]. rewrite (unconfigured_run w tr Hu).
    rewrite (before_fallback_unconfigured Hu), app_nil_r in Hf.
    exact (fallback_fails_run tr Hf).
  - exists [primary_request key].
    rewrite (configured_run w key tr Hk), Hr, Hs. simpl.
    rewrite (no_data_decoded r data results H1 H2 H3). reflexivity.
  - exists [primary_request key; fallback_request].
    rewrite (before_fallback_configured key Hk) in Hf.
    rewrite (configured_run w key tr Hk), Hr. apply Z.eqb_neq in Hs. rewrite Hs.
    rewrite (fallback_fails_run _ Hf), <- app_assoc. reflexivity.
  - exists [primary_request key; fallback_request].
    rewrite (before_fallback_configured key Hk) in Hf.
    rewrite (configured_run w key tr Hk), Hr.
    rewrite (fallback_fails_run _ Hf), <- app_assoc. reflexivity.
  - exists [primary_request key; fallback_request].
    rewrite (before_fallback_configured key Hk) in Hf.
    rewrite (configured_run w key tr Hk), Hr, Hs. simpl. rewrite He.
    rewrite (fallback_fails_run _ Hf), <- app_assoc. reflexivity.
Qed.

Lemma no_data_reply_is_no_report : ~ seven_lines NO_DATA_REPLY.
Proof.
  intros (time & temp & wind & visibility & clouds & raw & H). cbn in H. discriminate H.
Qed.

(** C9. When the primary source fails and the fallback source fails at the
    moment it is asked (right away without a key, after the request to CheckWX
    with a key), [get_gatwick_metar] returns [None]; [webhook], for a message
    with a trigger word, then sends one message, the fixed text of line 46 of
    src/app.py, which is no report: it does not hold the header line, nor its
    aeroplane sign. *)
Theorem both_sources_fail (tr : list event) (incoming_msg sender : string) :
  primary_fails w tr -> fallback_fails w (tr ++ before_fallback w)%list ->
  exists requests,
    get_gatwick_metar w tr = (Ok JNull, (tr ++ requests)%list) /\
    (triggers incoming_msg = true ->
     webhook w incoming_msg sender tr
     = (Ok (TWIML, 200),
        (tr ++ requests ++ [WhatsApp sender (Text NO_DATA_REPLY)])%list)) /\
    ~ seven_lines NO_DATA_REPLY /\
    contains HEADER NO_DATA_REPLY = false /\
    contains "🛫" NO_DATA_REPLY = false.
Proof.
  intros Hp Hf. destruct (both_fail_run tr Hp Hf) as [requests Hrun].
  exists requests. split; [exact Hrun|].
  split; [|split; [apply no_data_reply_is_no_report|split; reflexivity]].
  intros Ht. unfold webhook, triggers in *. unfold io_try at 1. unfold io_bind at 1.
  rewrite Ht. unfold reply_with_metar, io_try, io_bind. rewrite Hrun. simpl.
  unfold send_whatsapp_message, ret. rewrite <- app_assoc. reflexivity.
Qed.

End BothFail.

(** C9, the witness of [both_sources_fail]: CheckWX answers 500 and
    aviationweather.gov cannot be reached at the moment it is asked, though
    it would answer at any other moment. *)
Lemma both_sources_fail_witness :
  fst (get_gatwick_metar_fallback flaky_world []) = Ok fallback_observation /\
  get_gatwick_metar flaky_world []
  = (Ok JNull, [primary_request "secret"; fallback_request]) /\
  webhook (rt := cpython) flaky_world "metar please" "whatsapp:+441234567890" []
  = (Ok (TWIML, 200),
     [ primary_request "secret"; fallback_request;
       WhatsApp "whatsapp:+441234567890" (Text NO_DATA_REPLY) ]) /\
  ~ seven_lines NO_DATA_REPLY /\
  contains "🛫" NO_DATA_REPLY = false.
Proof.
  split; [reflexivity|].
  destruct (both_sources_fail (rt := cpython) flaky_world [] "metar please"
              "whatsapp:+441234567890") as (requests & Hrun & Hweb & Hshape & _ & Hsign).
  - apply (SourceUnavailable_status flaky_world [] "secret" (error_response 500)).
    + split; [reflexivity|discriminate].
    + reflexivity.
    + discriminate.
  - apply (Fallback_network flaky_world _ RequestException). reflexivity.
  - assert (Hreq : requests = [primary_request "secret"; fallback_request]).
    { vm_compute in Hrun. injection Hrun as <-. reflexivity. }
    subst requests. split; [exact Hrun|]. split; [exact (Hweb eq_refl)|].
    split; [exact Hshape|exact Hsign].
Defined.

(** ** The normalizer: [parse_metar_for_human] and the two parsers *)

Lemma append_empty_r (s : string) : s ++ "" = s.
Proof. induction s as [|c s IH]; simpl; [reflexivity|rewrite IH; reflexivity]. Qed.

Section Normalizer.
Context {rt : PyRuntime}.

Lemma py_get_dict (d : dict) (k : string) (default : json) :
  py_get (JDict d) k default = Ok (field d k default).
Proof. reflexivity. Qed.

Lemma has_key_lookup (k : string) (d : dict) :
  has_key k d = true -> exists v, lookup k d = Some v.
Proof. unfold has_key. destruct (lookup k d) as [v|]; [eauto|discriminate]. Qed.

Lemma has_key_none (k : string) (d : dict) : has_key k d = false -> lookup k d = None.
Proof. unfold has_key. destruct (lookup k d); [discriminate|reflexivity]. Qed.

(** On a dict, neither parser raises: what its [try] raises, its [except]
    turns into the one-line report. *)
Lemma parse_checkwx_metar_dict (d : dict) :
  parse_checkwx_metar (JDict d)
  = Ok match checkwx_response (JDict d) with
       | Ok report => join nl2 report
       | Raise _ => "Gatwick METAR: " ++ py_str (field d "raw" (JStr "Data unavailable"))
       end.
Proof.
  unfold parse_checkwx_metar. destruct (checkwx_response (JDict d)); reflexivity.
Qed.

Lemma parse_aviationweather_metar_dict (d : dict) :
  parse_aviationweather_metar (JDict d)
  = Ok match aviationweather_response (JDict d) with
       | Ok report => join nl2 report
       | Raise _ => "Gatwick METAR: " ++ py_str (field d "raw_text" (JStr "Data unavailable"))
       end.
Proof.
  unfold parse_aviationweather_metar. destruct (aviationweather_response (JDict d)); reflexivity.
Qed.

Lemma parse_metar_for_human_dispatch (d : dict) :
  parse_metar_for_human (JDict d)
  = if has_key "raw_text" d then parse_aviationweather_metar (JDict d)
    else parse_checkwx_metar (JDict d).
Proof.
  unfold parse_metar_for_human, dispatch. simpl py_contains. cbn [bind].
  destruct (has_key "raw_text" d).
  - rewrite parse_aviationweather_metar_dict. reflexivity.
  - rewrite parse_checkwx_metar_dict. reflexivity.
Qed.

Lemma parse_metar_for_human_dict (d : dict) :
  parse_metar_for_human (JDict d)
  = Ok match extraction d with
       | Ok report => join nl2 report
       | Raise _ => raw_only d
       end.
Proof.
  rewrite parse_metar_for_human_dispatch. unfold extraction, raw_only.
  destruct (has_key "raw_text" d) eqn:H.
  - rewrite parse_aviationweather_metar_dict.
    destruct (has_key_lookup _ _ H) as [v Hv]. unfold field. rewrite Hv. reflexivity.
  - rewrite parse_checkwx_metar_dict. rewrite (has_key_none _ _ H). reflexivity.
Qed.

(** C4. For a dict, the test of line 86 does not raise and is the presence of
    the key ["raw_text"]; [parse_metar_for_human] returns what
    [parse_aviationweather_metar] returns when the key is present, and what
    [parse_checkwx_metar] returns when it is not. *)
Theorem schema_detection (d : dict) :
  py_contains "raw_text" (JDict d) = Ok (has_key "raw_text" d) /\
  dispatch (JDict d)
  = (if has_key "raw_text" d then parse_aviationweather_metar (JDict d)
     else parse_checkwx_metar (JDict d)) /\
  parse_metar_for_human (JDict d)
  = (if has_key "raw_text" d then parse_aviationweather_metar (JDict d)
     else parse_checkwx_metar (JDict d)).
Proof.
  split; [reflexivity|]. split; [reflexivity|]. apply parse_metar_for_human_dispatch.
Qed.

(** What a report of the CheckWX parser is made of. *)
Lemma checkwx_response_inv (d : dict) (report : list string) :
  checkwx_response (JDict d) = Ok report ->
  exists temperature wind visibility vis_km clouds,
    field d "temperature" (JDict []) = JDict temperature /\
    field d "wind" (JDict []) = JDict wind /\
    field d "visibility" (JDict []) = JDict visibility /\
    checkwx_visibility_km (field visibility "meters" (JStr "N/A")) = Ok vis_km /\
    checkwx_clouds (JDict d) = Ok clouds /\
    report = response_lines (field d "observed" (JStr "N/A"))
               (field temperature "celsius" (JStr "N/A"))
               (wind_info (field wind "degrees" (JStr "N/A"))
                  (field wind "speed_kts" (JStr "N/A")) (field wind "gust_kts" (JStr "")))
               vis_km clouds (field d "raw" (JStr "N/A")).
Proof.
  unfold checkwx_response. rewrite !py_get_dict. cbn [bind].
  destruct (field d "temperature" (JDict [])) as [| | | | |?|temperature]; try discriminate.
  rewrite py_get_dict. cbn [bind].
  destruct (field d "wind" (JDict [])) as [| | | | |?|wind]; try discriminate.
  rewrite !py_get_dict. cbn [bind].
  destruct (field d "visibility" (JDict [])) as [| | | | |?|visibility]; try discriminate.
  rewrite py_get_dict. cbn [bind].
  destruct (checkwx_visibility_km (field visibility "meters" (JStr "N/A")))
    as [vis_km|] eqn:Hvis; [|discriminate].
  cbn [bind].
  destruct (checkwx_clouds (JDict d)) as [clouds|] eqn:Hclouds; [|discriminate].
  cbn [bind]. intros H. injection H as <-.
  exists temperature, wind, visibility, vis_km, clouds. repeat split; try reflexivity; assumption.
Qed.

(** On a dict, the observation time and the visibility of the fallback
    schema never raise. *)
Lemma aviationweather_obs_time_dict (d : dict) :
  aviationweather_obs_time (JDict d) = Ok (obs_time_of d).
Proof.
  unfold aviationweather_obs_time, obs_time_of. simpl py_contains. cbn [bind].
  unfold has_key. simpl py_getitem.
  destruct (lookup "observation_time" d) as [[| | | |s| |]|]; try reflexivity.
  cbn [bind try_except]. destruct (strptime_strftime s); reflexivity.
Qed.

Lemma aviationweather_visibility_shown (v : json) :
  aviationweather_visibility v
  = Ok (if eq_str v "N/A" then "N/A"
        else match py_float v with
             | Ok f => format_1f (fmul f miles_to_km) ++ " km"
             | Raise _ => py_str v ++ " miles"
             end).
Proof.
  unfold aviationweather_visibility.
  destruct (eq_str v "N/A"); [reflexivity|]. cbn [negb].
  destruct (py_float v); reflexivity.
Qed.

(** What a report of the aviationweather.gov parser is made of: only the
    clouds can make the extraction raise. *)
Lemma aviationweather_response_dict (d : dict) :
  aviationweather_response (JDict d)
  = (clouds <- aviationweather_clouds (JDict d) ;;
     Ok (response_lines (obs_time_of d) (field d "temp_c" (JStr "N/A"))
           (wind_info (field d "wind_dir_degrees" (JStr "N/A"))
              (field d "wind_speed_kt" (JStr "N/A")) (field d "wind_gust_kt" (JStr "")))
           (if eq_str (field d "visibility_statute_mi" (JStr "N/A")) "N/A" then "N/A"
            else match py_float (field d "visibility_statute_mi" (JStr "N/A")) with
                 | Ok f => format_1f (fmul f miles_to_km) ++ " km"
                 | Raise _ => py_str (field d "visibility_statute_mi" (JStr "N/A")) ++ " miles"
                 end)
           clouds (field d "raw_text" (JStr "N/A"))))%py.
Proof.
  unfold aviationweather_response.
  rewrite py_get_dict. cbn [bind]. rewrite aviationweather_obs_time_dict. cbn [bind].
  repeat (rewrite py_get_dict; cbn [bind]).
  rewrite aviationweather_visibility_shown. reflexivity.
Qed.

(** Opening a report: what it was built from becomes hypotheses. *)
Ltac open_checkwx H :=
  let temperature := fresh "temperature" in
  let wind := fresh "wind" in
  let visibility := fresh "visibility" in
  let vis_km := fresh "vis_km" in
  let clouds := fresh "clouds" in
  apply checkwx_response_inv in H;
  destruct H as (temperature & wind & visibility & vis_km & clouds
                 & Htemperature & Hwind & Hvisibility & Hkm & Hclouds & H).

Ltac open_aviationweather H :=
  let clouds := fresh "clouds" in
  rewrite aviationweather_response_dict in H;
  match type of H with
  | context [aviationweather_clouds ?m] =>
      destruct (aviationweather_clouds m) as [clouds|]; [|discriminate H]
  end;
  cbn [bind] in H; injection H as H.

Lemma response_lines_seven (time temp_c : json) (wind visibility clouds : string)
  (raw_metar : json) :
  seven_lines (join nl2 (response_lines time temp_c wind visibility clouds raw_metar)).
Proof.
  exists (py_str time), (py_str temp_c), wind, visibility, clouds, (py_str raw_metar).
  reflexivity.
Qed.

Lemma extraction_lines (d : dict) (report : list string) :
  extraction d = Ok report ->
  exists time temp_c wind visibility clouds raw_metar,
    report = response_lines time temp_c wind visibility clouds raw_metar.
Proof.
  unfold extraction. destruct (has_key "raw_text" d).
  - intros H. open_aviationweather H. subst report. eauto 10.
  - intros H. open_checkwx H. subst report. eauto 10.
Qed.

Lemma checkwx_report (d : dict) (report : list string) :
  checkwx_response (JDict d) = Ok report ->
  parse_checkwx_metar (JDict d) = Ok (join nl2 report).
Proof. intros H. rewrite parse_checkwx_metar_dict, H. reflexivity. Qed.

Lemma aviationweather_report (d : dict) (report : list string) :
  aviationweather_response (JDict d) = Ok report ->
  parse_aviationweather_metar (JDict d) = Ok (join nl2 report).
Proof. intros H. rewrite parse_aviationweather_metar_dict, H. reflexivity. Qed.

Lemma field_absent (d : dict) (k : string) (default : json) :
  lookup k d = None -> field d k default = default.
Proof. unfold field. intros ->. reflexivity. Qed.

Lemma field_lookup (d : dict) (k : string) (default v : json) :
  lookup k d = Some v -> field d k default = v.
Proof. unfold field. intros ->. reflexivity. Qed.

Lemma checkwx_clouds_absent (d : dict) :
  lookup "clouds" d = None \/
  (exists clouds, lookup "clouds" d = Some clouds /\ py_truthy clouds = false) ->
  checkwx_clouds (JDict d) = Ok "No cloud data".
Proof.
  unfold checkwx_clouds. simpl py_contains. unfold has_key. simpl py_getitem.
  intros [H | (clouds & H & Hf)]; rewrite H; [reflexivity|].
  cbn [bind]. rewrite Hf. reflexivity.
Qed.

Lemma aviationweather_clouds_absent (d : dict) :
  lookup "sky_condition" d = None \/
  (exists sky, lookup "sky_condition" d = Some sky /\ is_layers sky = false) ->
  aviationweather_clouds (JDict d) = Ok "No cloud data".
Proof.
  unfold aviationweather_clouds. simpl py_contains. unfold has_key. simpl py_getitem.
  intros [-> | (sky & -> & Hs)]; [reflexivity|].
  destruct sky; try discriminate Hs; reflexivity.
Qed.

Lemma raw_line_not_seven (raw : string) : ~ seven_lines ("Gatwick METAR: " ++ raw).
Proof.
  intros (time & temp & wind & visibility & clouds & raw' & H). cbn in H. discriminate H.
Qed.

Lemma truthy_field (k : string) (d : dict) :
  py_truthy (field d k (JStr "")) = truthy_at k d.
Proof. unfold field, truthy_at. destruct (lookup k d); reflexivity. Qed.

Lemma wind_info_text (direction speed : json) (k : string) (d : dict) :
  wind_info direction speed (field d k (JStr "")) = wind_text direction speed (gust_of k d).
Proof.
  unfold wind_info, wind_text, gust_of. rewrite truthy_field.
  unfold truthy_at, field. destruct (lookup k d) as [g|].
  - destruct (py_truthy g); [reflexivity|]. rewrite append_empty_r. reflexivity.
  - rewrite append_empty_r. reflexivity.
Qed.

(** The placeholders of a report of the CheckWX parser. The objects
    ["temperature"], ["wind"] and ["visibility"] are read with the default
    [{}], so that a missing object and an object without the field show the
    same. *)
Lemma checkwx_placeholders (d : dict) (report : list string) :
  checkwx_response (JDict d) = Ok report ->
  (lookup "observed" d = None -> nth 1 report "" = "⏰ Observed: N/A") /\
  (forall temperature,
     field d "temperature" (JDict []) = JDict temperature ->
     lookup "celsius" temperature = None ->
     nth 2 report "" = "🌡️ Temperature: N/A°C") /\
  (forall wind,
     field d "wind" (JDict []) = JDict wind ->
     exists direction speed gust,
       nth 3 report "" = "💨 Wind: " ++ (direction ++ "° at " ++ speed ++ " knots") ++ gust /\
       (lookup "degrees" wind = None -> direction = "N/A") /\
       (lookup "speed_kts" wind = None -> speed = "N/A") /\
       (lookup "gust_kts" wind = None -> gust = "")) /\
  (forall visibility,
     field d "visibility" (JDict []) = JDict visibility ->
     lookup "meters" visibility = None ->
     nth 4 report "" = "👁️ Visibility: N/A") /\
  (lookup "clouds" d = None -> nth 5 report "" = "☁️ Clouds: No cloud data") /\
  (lookup "raw" d = None -> nth 6 report "" = "📊 Raw METAR: N/A").
Proof.
  intros H. open_checkwx H. subst report. cbn [nth response_lines].
  split; [|split; [|split; [|split; [|split]]]].
  - intros Hn. rewrite (field_absent d "observed" _ Hn). reflexivity.
  - intros t Ht Hn. rewrite Ht in Htemperature. injection Htemperature as <-.
    rewrite (field_absent t "celsius" _ Hn). reflexivity.
  - intros x Hx. rewrite Hx in Hwind. injection Hwind as <-.
    rewrite wind_info_text. unfold wind_text.
    eexists _, _, _. split; [reflexivity|]. split; [|split]; intros Hn.
    + rewrite (field_absent x "degrees" _ Hn). reflexivity.
    + rewrite (field_absent x "speed_kts" _ Hn). reflexivity.
    + unfold gust_of, truthy_at. rewrite Hn. reflexivity.
  - intros x Hx Hn. rewrite Hx in Hvisibility. injection Hvisibility as <-.
    rewrite (field_absent x "meters" _ Hn) in Hkm. simpl in Hkm. injection Hkm as <-.
    reflexivity.
  - intros Hn. rewrite (checkwx_clouds_absent d (or_introl Hn)) in Hclouds.
    injection Hclouds as <-. reflexivity.
  - intros Hn. rewrite (field_absent d "raw" _ Hn). reflexivity.
Qed.

(** The placeholders of a report of the aviationweather.gov parser. *)
Lemma aviationweather_placeholders (d : dict) (report : list string) :
  aviationweather_response (JDict d) = Ok report ->
  (lookup "observation_time" d = None -> nth 1 report "" = "⏰ Observed: N/A") /\
  (lookup "temp_c" d = None -> nth 2 report "" = "🌡️ Temperature: N/A°C") /\
  (exists direction speed gust,
     nth 3 report "" = "💨 Wind: " ++ (direction ++ "° at " ++ speed ++ " knots") ++ gust /\
     (lookup "wind_dir_degrees" d = None -> direction = "N/A") /\
     (lookup "wind_speed_kt" d = None -> speed = "N/A") /\
     (lookup "wind_gust_kt" d = None -> gust = "")) /\
  (lookup "visibility_statute_mi" d = None -> nth 4 report "" = "👁️ Visibility: N/A") /\
  (lookup "sky_condition" d = None -> nth 5 report "" = "☁️ Clouds: No cloud data").
Proof.
  intros H. rewrite aviationweather_response_dict in H.
  destruct (aviationweather_clouds (JDict d)) as [clouds|] eqn:Hc; [|discriminate].
  cbn [bind] in H. injection H as <-. cbn [nth response_lines].
  split; [|split; [|split; [|split]]].
  - intros Hn. unfold obs_time_of. rewrite Hn. reflexivity.
  - intros Hn. rewrite (field_absent d "temp_c" _ Hn). reflexivity.
  - rewrite wind_info_text. unfold wind_text.
    eexists _, _, _. split; [reflexivity|]. split; [|split]; intros Hn.
    + rewrite (field_absent d "wind_dir_degrees" _ Hn). reflexivity.
    + rewrite (field_absent d "wind_speed_kt" _ Hn). reflexivity.
    + unfold gust_of, truthy_at. rewrite Hn. reflexivity.
  - intros Hn. rewrite (field_absent d "visibility_statute_mi" _ Hn). reflexivity.
  - intros Hn. rewrite (aviationweather_clouds_absent d (or_introl Hn)) in Hc.
    injection Hc as <-. reflexivity.
Qed.

(** C2 (as amended). For every observation on which the schema-specific
    extraction does not raise, the report is the seven display lines (header,
    observed time, temperature, wind, visibility, clouds, raw METAR), in
    this order, none of them empty, and a field that is missing shows its
    marker, ["N/A"] or ["No cloud data"], in its line; for CheckWX a field is
    missing when its object is, and when its object does not hold it. When
    the extraction raises, the report is the single raw line instead, which
    is not made of the seven lines. *)
Theorem report_has_seven_lines (d : dict) :
  (forall report, extraction d = Ok report ->
     parse_metar_for_human (JDict d) = Ok (join nl2 report) /\
     seven_lines (join nl2 report) /\
     List.length report = 7%nat /\
     Forall (fun line => line <> "") report /\
     (has_key "raw_text" d = false ->
        (lookup "observed" d = None -> nth 1 report "" = "⏰ Observed: N/A") /\
        (forall temperature,
           field d "temperature" (JDict []) = JDict temperature ->
           lookup "celsius" temperature = None ->
           nth 2 report "" = "🌡️ Temperature: N/A°C") /\
        (forall wind,
           field d "wind" (JDict []) = JDict wind ->
           exists direction speed gust,
             nth 3 report ""
             = "💨 Wind: " ++ (direction ++ "° at " ++ speed ++ " knots") ++ gust /\
             (lookup "degrees" wind = None -> direction = "N/A") /\
             (lookup "speed_kts" wind = None -> speed = "N/A") /\
             (lookup "gust_kts" wind = None -> gust = "")) /\
        (forall visibility,
           field d "visibility" (JDict []) = JDict visibility ->
           lookup "meters" visibility = None ->
           nth 4 report "" = "👁️ Visibility: N/A") /\
        (lookup "clouds" d = None -> nth 5 report "" = "☁️ Clouds: No cloud data") /\
        (lookup "raw" d = None -> nth 6 report "" = "📊 Raw METAR: N/A")) /\
     (has_key "raw_text" d = true ->
        (lookup "observation_time" d = None -> nth 1 report "" = "⏰ Observed: N/A") /\
        (lookup "temp_c" d = None -> nth 2 report "" = "🌡️ Temperature: N/A°C") /\
        (exists direction speed gust,
           nth 3 report ""
           = "💨 Wind: " ++ (direction ++ "° at " ++ speed ++ " knots") ++ gust /\
           (lookup "wind_dir_degrees" d = None -> direction = "N/A") /\
           (lookup "wind_speed_kt" d = None -> speed = "N/A") /\
           (lookup "wind_gust_kt" d = None -> gust = "")) /\
        (lookup "visibility_statute_mi" d = None ->
         nth 4 report "" = "👁️ Visibility: N/A") /\
        (lookup "sky_condition" d = None ->
         nth 5 report "" = "☁️ Clouds: No cloud data"))) /\
  (forall e, extraction d = Raise e ->
     parse_metar_for_human (JDict d) = Ok (raw_only d) /\
     ~ seven_lines (raw_only d)).
Proof.
  split.
  - intros report H.
    split; [rewrite parse_metar_for_human_dict, H; reflexivity|].
    destruct (extraction_lines d report H)
      as (time & temp_c & wind & visibility & clouds & raw_metar & Hlines).
    split; [rewrite Hlines; apply response_lines_seven|].
    split; [rewrite Hlines; reflexivity|].
    split; [rewrite Hlines; unfold response_lines; repeat constructor; discriminate|].
    unfold extraction in H. destruct (has_key "raw_text" d).
    + split; [discriminate|]. intros _. exact (aviationweather_placeholders d report H).
    + split; [|discriminate]. intros _. exact (checkwx_placeholders d report H).
  - intros e H. split; [rewrite parse_metar_for_human_dict, H; reflexivity|].
    apply raw_line_not_seven.
Qed.

(** C3 (as amended). On a dict, [parse_metar_for_human] never raises. When
    the schema-specific extraction raises, the result is the one-line report
    ["Gatwick METAR: "] followed by the value of ["raw_text"] if that key is
    present, else by the value of ["raw"] if that key is present, else by
    ["Data unavailable"]. The two parsers never raise on a dict, so the
    [except] clause of [parse_metar_for_human] itself, which holds the
    apology string, is not entered. *)
Theorem extraction_failure_is_absorbed (d : dict) (e : exn) :
  extraction d = Raise e ->
  parse_metar_for_human (JDict d) = Ok (raw_only d) /\
  (forall d', is_ok (parse_metar_for_human (JDict d')) = true) /\
  (forall d', is_ok (dispatch (JDict d')) = true).
Proof.
  intros H. split; [|split].
  - rewrite parse_metar_for_human_dict, H. reflexivity.
  - intros d'. rewrite parse_metar_for_human_dict. reflexivity.
  - intros d'. unfold dispatch. simpl py_contains. cbn [bind].
    destruct (has_key "raw_text" d').
    + rewrite parse_aviationweather_metar_dict. reflexivity.
    + rewrite parse_checkwx_metar_dict. reflexivity.
Qed.





(** The truth test of the source against the words "present and non-empty":
    the two differ on the zeros. *)
Lemma truthy_at_words (k : string) (d : dict) :
  truthy_at k d = present_nonempty k d && negb (is_zero (field d k (JStr ""))).
Proof.
  unfold truthy_at, present_nonempty, field. destruct (lookup k d) as [v|]; [|reflexivity].
  destruct v as [|b|z|f|s|l|x];
    [reflexivity|destruct b|destruct z|destruct f|destruct s|destruct l|destruct x];
    reflexivity.
Qed.

(** C7 (as amended). In the report that either parser returns the wind line
    reads ["{direction}° at {speed} knots"], and [", gusting to {gust} knots"]
    follows exactly when the gust passes the test [if wind_gust:] of the
    source: the key is present and its value is not empty and not a zero
    ([0], [0.0], [False]). *)
Theorem wind_line_format (d : dict) (report : list string) :
  (checkwx_response (JDict d) = Ok report ->
   parse_checkwx_metar (JDict d) = Ok (join nl2 report) /\
   exists wind, field d "wind" (JDict []) = JDict wind /\
     wind_line report
     = "💨 Wind: " ++ wind_text (field wind "degrees" (JStr "N/A"))
                        (field wind "speed_kts" (JStr "N/A")) (gust_of "gust_kts" wind)) /\
  (aviationweather_response (JDict d) = Ok report ->
   parse_aviationweather_metar (JDict d) = Ok (join nl2 report) /\
   wind_line report
   = "💨 Wind: " ++ wind_text (field d "wind_dir_degrees" (JStr "N/A"))
                      (field d "wind_speed_kt" (JStr "N/A")) (gust_of "wind_gust_kt" d)) /\
  (forall k layer,
     (gust_of k layer = None <-> truthy_at k layer = false) /\
     truthy_at k layer
     = present_nonempty k layer && negb (is_zero (field layer k (JStr "")))).
Proof.
  split; [|split].
  - intros H. split; [exact (checkwx_report d report H)|].
    open_checkwx H. subst report.
    exists wind. split; [exact Hwind|]. rewrite <- wind_info_text. reflexivity.
  - intros H. split; [exact (aviationweather_report d report H)|].
    open_aviationweather H. subst report.
    rewrite <- wind_info_text. reflexivity.
  - intros k layer. split; [|apply truthy_at_words].
    unfold gust_of, truthy_at.
    destruct (lookup k layer) as [g|]; [destruct (py_truthy g)|]; split; congruence.
Qed.

Lemma cloud_loop_layers (cover_key base_key : string) (layers : list dict)
  (cloud_layers : list string) :
  cloud_loop cover_key base_key (map JDict layers) cloud_layers
  = Ok (cloud_layers ++ cloud_entries cover_key base_key layers)%list.
Proof.
  revert cloud_layers. induction layers as [|layer rest IH]; intros cloud_layers.
  - simpl. rewrite app_nil_r. reflexivity.
  - cbn [map cloud_loop cloud_entries]. rewrite !py_get_dict. cbn [bind].
    unfold cloud_entry, layer_text. rewrite !truthy_field.
    destruct (truthy_at cover_key layer && truthy_at base_key layer).
    + rewrite IH. unfold append. rewrite <- app_assoc. reflexivity.
    + apply IH.
Qed.

Lemma checkwx_clouds_layers (d : dict) (layers : list dict) :
  lookup "clouds" d = Some (JList (map JDict layers)) ->
  checkwx_clouds (JDict d) = Ok (clouds_text (cloud_entries "code" "base_feet_agl" layers)).
Proof.
  intros H. unfold checkwx_clouds. simpl py_contains. unfold has_key.
  simpl py_getitem. rewrite H. cbn [bind].
  destruct layers as [|layer rest]; [reflexivity|].
  cbn [map py_truthy py_iter bind]. rewrite <- map_cons, cloud_loop_layers. reflexivity.
Qed.

Lemma aviationweather_clouds_cases (d : dict) :
  (forall layers, lookup "sky_condition" d = Some (JList (map JDict layers)) ->
     aviationweather_clouds (JDict d)
     = Ok (clouds_text (cloud_entries "sky_cover" "cloud_base_ft_agl" layers))) /\
  (forall layer, lookup "sky_condition" d = Some (JDict layer) ->
     aviationweather_clouds (JDict d)
     = Ok (clouds_text (cloud_entries "sky_cover" "cloud_base_ft_agl" [layer]))) /\
  (lookup "sky_condition" d = None \/
   (exists sky, lookup "sky_condition" d = Some sky /\ is_layers sky = false) ->
   aviationweather_clouds (JDict d) = Ok "No cloud data").
Proof.
  unfold aviationweather_clouds. simpl py_contains. unfold has_key. simpl py_getitem.
  split; [|split].
  - intros layers ->. cbn [bind]. rewrite cloud_loop_layers. reflexivity.
  - intros layer ->. cbn [bind]. rewrite !py_get_dict. cbn [bind cloud_entries].
    unfold cloud_entry, layer_text. rewrite !truthy_field.
    destruct (truthy_at "sky_cover" layer
              && truthy_at "cloud_base_ft_agl" layer); reflexivity.
  - intros [-> | (sky & -> & Hs)]; [reflexivity|].
    destruct sky; try discriminate Hs; reflexivity.
Qed.

(** C8 (as amended). The clouds line of the report that each parser
    returns. The CheckWX parser reads a list of layers under ["clouds"]; the
    aviationweather.gov parser reads a list of layers or a single layer under
    ["sky_condition"]. A layer gives the entry ["{cover} at {altitude} ft"]
    exactly when its cover and its altitude both pass the test [if code and
    altitude:] of the source: present, not empty and not a zero. The entries
    are joined by [", "] in the order of the layers; with no entry, with no
    cloud field, and with a cloud field that is empty or of another shape, the
    line shows ["No cloud data"]. *)
Theorem cloud_layers_rendering (d : dict) :
  (forall layers report,
     lookup "clouds" d = Some (JList (map JDict layers)) ->
     checkwx_response (JDict d) = Ok report ->
     parse_checkwx_metar (JDict d) = Ok (join nl2 report) /\
     clouds_line report
     = "☁️ Clouds: " ++ clouds_text (cloud_entries "code" "base_feet_agl" layers)) /\
  (forall report,
     lookup "clouds" d = None \/
     (exists clouds, lookup "clouds" d = Some clouds /\ py_truthy clouds = false) ->
     checkwx_response (JDict d) = Ok report ->
     parse_checkwx_metar (JDict d) = Ok (join nl2 report) /\
     clouds_line report = "☁️ Clouds: No cloud data") /\
  (forall layers,
     lookup "sky_condition" d = Some (JList (map JDict layers)) ->
     exists report, parse_aviationweather_metar (JDict d) = Ok (join nl2 report) /\
       List.length report = 7%nat /\
       clouds_line report
       = "☁️ Clouds: "
         ++ clouds_text (cloud_entries "sky_cover" "cloud_base_ft_agl" layers)) /\
  (forall layer,
     lookup "sky_condition" d = Some (JDict layer) ->
     exists report, parse_aviationweather_metar (JDict d) = Ok (join nl2 report) /\
       List.length report = 7%nat /\
       clouds_line report
       = "☁️ Clouds: "
         ++ clouds_text (cloud_entries "sky_cover" "cloud_base_ft_agl" [layer])) /\
  (lookup "sky_condition" d = None \/
   (exists sky, lookup "sky_condition" d = Some sky /\ is_layers sky = false) ->
     exists report, parse_aviationweather_metar (JDict d) = Ok (join nl2 report) /\
       List.length report = 7%nat /\
       clouds_line report = "☁️ Clouds: No cloud data") /\
  (forall cover_key base_key layer,
     (cloud_entry cover_key base_key layer
      = if truthy_at cover_key layer && truthy_at base_key layer
        then Some (py_str (field layer cover_key (JStr "")) ++ " at "
                   ++ py_str (field layer base_key (JStr "")) ++ " ft")
        else None) /\
     truthy_at cover_key layer && truthy_at base_key layer
     = present_nonempty cover_key layer && present_nonempty base_key layer
       && negb (is_zero (field layer cover_key (JStr "")))
       && negb (is_zero (field layer base_key (JStr "")))).
Proof.
  destruct (aviationweather_clouds_cases d) as (Hlist & Hone & Hnone).
  split; [|split; [|split; [|split; [|split]]]].
  - intros layers report Hc H. split; [exact (checkwx_report d report H)|].
    open_checkwx H. subst report.
    rewrite (checkwx_clouds_layers d layers Hc) in Hclouds. injection Hclouds as <-.
    reflexivity.
  - intros report Hc H. split; [exact (checkwx_report d report H)|].
    open_checkwx H. subst report.
    rewrite (checkwx_clouds_absent d Hc) in Hclouds. injection Hclouds as <-.
    reflexivity.
  - intros layers H. eexists. split.
    + apply aviationweather_report. rewrite aviationweather_response_dict, (Hlist layers H).
      reflexivity.
    + split; reflexivity.
  - intros layer H. eexists. split.
    + apply aviationweather_report. rewrite aviationweather_response_dict, (Hone layer H).
      reflexivity.
    + split; reflexivity.
  - intros H. eexists. split.
    + apply aviationweather_report. rewrite aviationweather_response_dict, (Hnone H).
      reflexivity.
    + split; reflexivity.
  - intros cover_key base_key layer. split; [reflexivity|].
    rewrite (truthy_at_words cover_key), (truthy_at_words base_key).
    destruct (present_nonempty cover_key layer), (present_nonempty base_key layer),
      (is_zero (field layer cover_key (JStr ""))), (is_zero (field layer base_key (JStr "")));
      reflexivity.
Qed.


End Normalizer.

(** ** Witnesses, counterexamples and runs on concrete observations *)

(** C6, a witness of [two_tier_policy]: with no key the one request is the
    fallback's; when CheckWX has a result it is returned after the one
    request to CheckWX. *)
Lemma two_tier_policy_witness :
  (exists v, get_gatwick_metar dark_world [] = (Ok v, [fallback_request])) /\
  get_gatwick_metar happy_world []
  = (Ok (JDict (checkwx_observation (JStr "9000") (JStr ""))), [primary_request "secret"]).
Proof.
  split.
  - destruct (two_tier_policy dark_world []) as (v & new & Hrun & _ & _ & _ & Hu & _).
    exists v. rewrite Hrun, (Hu eq_refl). reflexivity.
  - destruct (two_tier_policy happy_world []) as (v & new & Hrun & _ & _ & _ & _ & Hp).
    assert (Hk : configured happy_world "secret") by (split; [reflexivity|discriminate]).
    destruct (Hp "secret"
                (ok_response
                   (JDict [("results", JInt 1);
                           ("data",
                            JList [JDict (checkwx_observation (JStr "9000") (JStr ""))])]))
                (JDict (checkwx_observation (JStr "9000") (JStr "")))
                Hk eq_refl eq_refl eq_refl)
      as [Hv Hnew].
    rewrite Hrun, Hv, Hnew. reflexivity.
Defined.

(** C2, the counterexample to the claim as stated: an observation of CheckWX
    whose visibility is written ["10,000"]. [float] refuses the comma, and, on
    every runtime, the report is the single raw line: it is not made of the
    seven lines, and the visibility is not in it. *)
Lemma comma_visibility_loses_six_lines :
  (forall rt : PyRuntime,
     @extraction rt (checkwx_observation (JStr "10,000") (JStr "")) = Raise ValueError) /\
  (forall rt : PyRuntime,
     @parse_metar_for_human rt (JDict (checkwx_observation (JStr "10,000") (JStr "")))
     = Ok ("Gatwick METAR: " ++ sample_raw)) /\
  ~ seven_lines ("Gatwick METAR: " ++ sample_raw) /\
  contains "Visibility" ("Gatwick METAR: " ++ sample_raw) = false.
Proof.
  split; [intros rt; reflexivity|]. split; [intros rt; reflexivity|].
  split; [apply raw_line_not_seven|reflexivity].
Qed.

(** C2, the witness of [report_has_seven_lines]: an observation of CheckWX
    without temperature and without clouds, whose two lines show their
    markers; and the observation with the visibility ["10,000"], whose report
    is the raw line. *)
Lemma report_has_seven_lines_witness :
  parse_metar_for_human (rt := cpython) (JDict sparse_observation)
  = Ok (join nl2 (lines_of "2024-05-01T05:20:00Z" "N/A" "270° at 15 knots" "9.0 km"
                    "No cloud data" sample_raw)) /\
  seven_lines (join nl2 (lines_of "2024-05-01T05:20:00Z" "N/A" "270° at 15 knots" "9.0 km"
                           "No cloud data" sample_raw)) /\
  parse_metar_for_human (rt := cpython)
    (JDict (checkwx_observation (JStr "10,000") (JStr "")))
  = Ok ("Gatwick METAR: " ++ sample_raw) /\
  ~ seven_lines ("Gatwick METAR: " ++ sample_raw).
Proof.
  destruct (proj1 (report_has_seven_lines (rt := cpython) sparse_observation)
              (lines_of "2024-05-01T05:20:00Z" "N/A" "270° at 15 knots" "9.0 km"
                 "No cloud data" sample_raw))
    as (Hparse & Hseven & _); [vm_compute; reflexivity|].
  destruct (proj2 (report_has_seven_lines (rt := cpython)
                     (checkwx_observation (JStr "10,000") (JStr ""))) ValueError)
    as (Hraw & Hnot); [reflexivity|].
  exact (conj Hparse (conj Hseven (conj Hraw Hnot))).
Defined.

(** C3, the counterexample to the claim as stated: the extraction raises on
    an observation with neither ["raw_text"] nor ["raw"], and the result is
    not the apology string the claim names for that case. *)
Lemma no_raw_key_is_no_apology :
  (forall rt : PyRuntime, @extraction rt bare_comma_visibility = Raise ValueError) /\
  (forall rt : PyRuntime,
     @parse_metar_for_human rt (JDict bare_comma_visibility)
     = Ok "Gatwick METAR: Data unavailable") /\
  (forall rt : PyRuntime, @minimal_report_as_claimed rt bare_comma_visibility = APOLOGY) /\
  ~ (exists rt : PyRuntime,
       @parse_metar_for_human rt (JDict bare_comma_visibility)
       = Ok (@minimal_report_as_claimed rt bare_comma_visibility)).
Proof.
  split; [intros rt; reflexivity|]. split; [intros rt; reflexivity|].
  split; [intros rt; reflexivity|].
  intros [rt H]. cbv in H. discriminate H.
Qed.

(** C3, the witness of [extraction_failure_is_absorbed]. *)
Lemma extraction_failure_is_absorbed_witness :
  parse_metar_for_human (rt := cpython)
    (JDict (checkwx_observation (JStr "10,000") (JStr "")))
  = Ok ("Gatwick METAR: " ++ sample_raw) /\
  (forall d, is_ok (parse_metar_for_human (rt := cpython) (JDict d)) = true) /\
  (forall d, is_ok (dispatch (rt := cpython) (JDict d)) = true).
Proof.
  apply (extraction_failure_is_absorbed (rt := cpython)
           (checkwx_observation (JStr "10,000") (JStr "")) ValueError).
  reflexivity.
Defined.


(** C7, the witness of [wind_line_format]: direction 270, speed 15, with an
    empty gust and with a gust of 25, in an observation of each schema. *)
Lemma wind_line_format_witness :
  parse_checkwx_metar (rt := cpython) (JDict (checkwx_observation (JStr "9000") (JStr "")))
  = Ok (join nl2 (lines_of "2024-05-01T05:20:00Z" "12" "270° at 15 knots" "9.0 km"
                    "BKN at 2500 ft, FEW at 4000 ft" sample_raw)) /\
  parse_checkwx_metar (rt := cpython) (JDict (checkwx_observation (JStr "9000") (JInt 25)))
  = Ok (join nl2 (lines_of "2024-05-01T05:20:00Z" "12"
                    "270° at 15 knots, gusting to 25 knots" "9.0 km"
                    "BKN at 2500 ft, FEW at 4000 ft" sample_raw)) /\
  parse_aviationweather_metar (rt := cpython)
    (JDict (aviationweather_observation (JStr "6") (JInt 25) few_2500))
  = Ok (join nl2 (lines_of "01-May-2024 05:20 UTC" "12.0"
                    "270° at 15 knots, gusting to 25 knots" "9.7 km"
                    "FEW at 2500 ft" sample_raw)).
Proof.
  split; [|split].
  - refine (proj1 (proj1 (wind_line_format (rt := cpython) _ _) _)). vm_compute. reflexivity.
  - refine (proj1 (proj1 (wind_line_format (rt := cpython) _ _) _)). vm_compute. reflexivity.
  - refine (proj1 (proj1 (proj2 (wind_line_format (rt := cpython) _ _)) _)).
    vm_compute. reflexivity.
Defined.

(** C7, the counterexample to the claim as stated: a gust of [0] is present
    and is not empty, so that the claim promises the suffix; the report, on
    every runtime, shows none. *)
Lemma zero_gust_gets_no_suffix :
  lookup "gust_kts" calm_gust = Some (JInt 0) /\
  present_nonempty "gust_kts" calm_gust = true /\
  (forall rt : PyRuntime,
     @wind_text rt (JInt 270) (JInt 15) (gust_as_claimed "gust_kts" calm_gust)
     = "270° at 15 knots, gusting to 0 knots") /\
  (forall rt : PyRuntime,
     @parse_metar_for_human rt (JDict (checkwx_observation (JStr "9000") (JInt 0)))
     = Ok (join nl2 (lines_of "2024-05-01T05:20:00Z" "12" "270° at 15 knots" "9.0 km"
                       "BKN at 2500 ft, FEW at 4000 ft" sample_raw))) /\
  ~ (exists rt : PyRuntime,
       @parse_metar_for_human rt (JDict (checkwx_observation (JStr "9000") (JInt 0)))
       = Ok (join nl2 (lines_of "2024-05-01T05:20:00Z" "12"
                         "270° at 15 knots, gusting to 0 knots" "9.0 km"
                         "BKN at 2500 ft, FEW at 4000 ft" sample_raw))).
Proof.
  split; [reflexivity|]. split; [reflexivity|]. split; [intros rt; reflexivity|].
  split; [intros rt; vm_compute; reflexivity|].
  intros [rt H]. vm_compute in H. discriminate H.
Qed.

(** C8, the witness of [cloud_layers_rendering]: three layers of which one
    has no altitude, in an observation of each schema; a single layer object;
    no cloud field. *)
Lemma cloud_layers_rendering_witness :
  parse_checkwx_metar (rt := cpython) (JDict (checkwx_observation (JStr "9000") (JStr "")))
  = Ok (join nl2 (lines_of "2024-05-01T05:20:00Z" "12" "270° at 15 knots" "9.0 km"
                    "BKN at 2500 ft, FEW at 4000 ft" sample_raw)) /\
  parse_checkwx_metar (rt := cpython) (JDict sparse_observation)
  = Ok (join nl2 (lines_of "2024-05-01T05:20:00Z" "N/A" "270° at 15 knots" "9.0 km"
                    "No cloud data" sample_raw)) /\
  (exists report,
     parse_aviationweather_metar (rt := cpython)
       (JDict (aviationweather_observation (JStr "6") (JStr "")
                 (JList (map JDict three_sky_layers))))
     = Ok (join nl2 report) /\
     clouds_line report = "☁️ Clouds: FEW at 2500 ft, OVC at 9000 ft") /\
  (exists report,
     parse_aviationweather_metar (rt := cpython)
       (JDict (aviationweather_observation (JStr "6") (JStr "") few_2500))
     = Ok (join nl2 report) /\
     clouds_line report = "☁️ Clouds: FEW at 2500 ft") /\
  (exists report,
     parse_aviationweather_metar (rt := cpython) (JDict [("raw_text", JStr sample_raw)])
     = Ok (join nl2 report) /\
     clouds_line report = "☁️ Clouds: No cloud data").
Proof.
  split; [|split; [|split; [|split]]].
  - refine (proj1 (proj1 (cloud_layers_rendering (rt := cpython) _) three_layers _ _ _));
      vm_compute; reflexivity.
  - refine (proj1 (proj1 (proj2 (cloud_layers_rendering (rt := cpython) _)) _
                     (or_introl _) _));
      vm_compute; reflexivity.
  - destruct (proj1 (proj2 (proj2 (cloud_layers_rendering (rt := cpython)
                 (aviationweather_observation (JStr "6") (JStr "")
                    (JList (map JDict three_sky_layers))))))
                three_sky_layers eq_refl)
      as (report & Hr & _ & Hl).
    exists report. split; [exact Hr|]. rewrite Hl. vm_compute. reflexivity.
  - destruct (proj1 (proj2 (proj2 (proj2 (cloud_layers_rendering (rt := cpython)
                 (aviationweather_observation (JStr "6") (JStr "") few_2500)))))
                [("sky_cover", JStr "FEW"); ("cloud_base_ft_agl", JInt 2500)] eq_refl)
      as (report & Hr & _ & Hl).
    exists report. split; [exact Hr|]. rewrite Hl. vm_compute. reflexivity.
  - destruct (proj1 (proj2 (proj2 (proj2 (proj2 (cloud_layers_rendering (rt := cpython)
                 [("raw_text", JStr sample_raw)]))))) (or_introl eq_refl))
      as (report & Hr & _ & Hl).
    exists report. split; [exact Hr|exact Hl].
Defined.

(** C8, the counterexample to the claim as stated: a layer whose cover is
    ["BKN"] and whose base is [0] has both fields present and not empty, so
    that the claim promises the entry ["BKN at 0 ft"]; the report, on every
    runtime, shows ["No cloud data"]. *)
Lemma ground_level_layer_is_dropped :
  present_nonempty "code" ground_layer && present_nonempty "base_feet_agl" ground_layer
  = true /\
  (forall rt : PyRuntime,
     @cloud_entry_as_claimed rt "code" "base_feet_agl" ground_layer = Some "BKN at 0 ft") /\
  (forall rt : PyRuntime,
     @parse_metar_for_human rt (JDict ground_layer_observation)
     = Ok (join nl2 (lines_of "N/A" "N/A" "N/A° at N/A knots" "N/A" "No cloud data"
                       sample_raw))) /\
  ~ (exists rt : PyRuntime,
       @parse_metar_for_human rt (JDict ground_layer_observation)
       = Ok (join nl2 (lines_of "N/A" "N/A" "N/A° at N/A knots" "N/A" "BKN at 0 ft"
                         sample_raw))).
Proof.
  split; [reflexivity|]. split; [intros rt; reflexivity|].
  split; [intros rt; vm_compute; reflexivity|].
  intros [rt H]. vm_compute in H. discriminate H.
Qed.


(** End to end: CheckWX answers 401, the fallback has one observation, and
    the sender receives its report. The temperature is the field [temp_c];
    nothing is read out of the raw text, which is the last line. *)
Example end_to_end_after_401 :
  webhook (rt := cpython) refused_world "gatwick metar" "whatsapp:+441234567890" []
  = (Ok (TWIML, 200),
     [ primary_request "secret"; fallback_request;
       WhatsApp "whatsapp:+441234567890" (Text fallback_report) ]).
Proof. vm_compute. reflexivity. Qed.

(** A message without a trigger word is answered with the help text, and
    nothing is fetched. *)
Example help_reply :
  webhook (rt := cpython) refused_world "hello" "whatsapp:+441234567890" []
  = (Ok (TWIML, 200), [WhatsApp "whatsapp:+441234567890" (Text HELP_REPLY)]).
Proof. vm_compute. reflexivity. Qed.

(** The properties above are about dicts. An observation that is a string
    reaches the [except] clause of [parse_metar_for_human] and its apology; a
    number makes that clause raise as well. *)
Example apology_for_a_string :
  parse_metar_for_human (rt := cpython) (JStr "EGKK") = Ok APOLOGY.
Proof. reflexivity. Qed.

Example a_number_raises :
  parse_metar_for_human (rt := cpython) (JInt 5) = Raise TypeError.
Proof. reflexivity. Qed.

(** A full observation of each schema. *)
Example checkwx_full_report :
  parse_metar_for_human (rt := cpython) (JDict (checkwx_observation (JStr "9000") (JInt 25)))
  = Ok (join nl2
          [ "🛫 *GATWICK AIRPORT (EGKK) METAR* 🛬";
            "⏰ Observed: 2024-05-01T05:20:00Z";
            "🌡️ Temperature: 12°C";
            "💨 Wind: 270° at 15 knots, gusting to 25 knots";
            "👁️ Visibility: 9.0 km";
            "☁️ Clouds: BKN at 2500 ft, FEW at 4000 ft";
            "📊 Raw METAR: EGKK 010520Z 27015KT 9999 FEW025 12/08 Q1013" ]).
Proof. vm_compute. reflexivity. Qed.

Example aviationweather_full_report :
  parse_metar_for_human (rt := cpython)
    (JDict (aviationweather_observation (JStr "6") (JStr "") few_2500))
  = Ok (join nl2
          [ "🛫 *GATWICK AIRPORT (EGKK) METAR* 🛬";
            "⏰ Observed: 01-May-2024 05:20 UTC";
            "🌡️ Temperature: 12.0°C";
            "💨 Wind: 270° at 15 knots";
            "👁️ Visibility: 9.7 km";
            "☁️ Clouds: FEW at 2500 ft";
            "📊 Raw METAR: EGKK 010520Z 27015KT 9999 FEW025 12/08 Q1013" ]).
Proof. vm_compute. reflexivity. Qed.

(** * Further properties *)

(** ** The two source clients *)

Section Clients.
Variable w : world.

Lemma fallback_run_value (tr : list event) (v : json) :
  fst (get_gatwick_metar_fallback w tr) = Ok v ->
  get_gatwick_metar_fallback w tr = (Ok v, (tr ++ [fallback_request])%list).
Proof.
  destruct (fallback_runs w tr) as [v' Hv']. rewrite Hv'. simpl. congruence.
Qed.

Lemma fallback_decoded (tr : list event) (r : response) :
  network w tr FALLBACK_URL [] = Ok r -> status_code r = 200 ->
  fst (get_gatwick_metar_fallback w tr)
  = Ok match aviationweather_latest r with
       | Ok v => v
       | Raise _ => JNull
       end.
Proof.
  intros Hr Hs.
  unfold get_gatwick_metar_fallback, io_try, io_bind, requests_get, lift, ret.
  rewrite Hr, Hs. simpl. destruct (aviationweather_latest r); reflexivity.
Qed.

(** X1. The fallback client never raises and makes its one request, without
    any header. It returns the first element of a body that is a non-empty
    list. It returns [None] when the request raises, when the status is not
    200, when the body cannot be decoded, and when the body is empty
    ([null], [[]], [{}], [""], zero), an object, or a number. *)
Theorem fallback_client_outcomes (tr : list event) :
  exists v,
    get_gatwick_metar_fallback w tr = (Ok v, (tr ++ [HttpGet FALLBACK_URL []])%list) /\
    (forall e, network w tr FALLBACK_URL [] = Raise e -> v = JNull) /\
    (forall r, network w tr FALLBACK_URL [] = Ok r ->
       (status_code r <> 200 -> v = JNull) /\
       (status_code r = 200 ->
        (forall e, response_json r = Raise e -> v = JNull) /\
        (forall x rest, response_json r = Ok (JList (x :: rest)) -> v = x) /\
        (forall body, response_json r = Ok body ->
           py_truthy body = false \/ is_dict body = true \/ is_number body = true ->
           v = JNull))).
Proof.
  destruct (fallback_runs w tr) as [v Hv]. exists v. split; [exact Hv|].
  split.
  - intros e He. pose proof (proj1 (fallback_unavailable w tr) e He) as H.
    rewrite Hv in H. congruence.
  - intros r Hr. split.
    + intros Hs. pose proof (proj2 (fallback_unavailable w tr) r Hr Hs) as H.
      rewrite Hv in H. congruence.
    + intros Hs. pose proof (fallback_decoded tr r Hr Hs) as H.
      rewrite Hv in H. simpl in H. unfold aviationweather_latest in H.
      split; [|split].
      * intros e He. rewrite He in H. simpl in H. congruence.
      * intros x rest Hb. rewrite Hb in H. simpl in H. congruence.
      * intros body Hb Hshape. rewrite Hb in H. cbn [bind] in H.
        destruct (py_truthy body) eqn:Ht.
        -- destruct Hshape as [Hf | [Hd | Hn]]; [discriminate| |].
           ++ destruct body as [| | | | | |d]; try discriminate.
              destruct d as [|kv d]; [discriminate|]. simpl in H. congruence.
           ++ destruct body; try discriminate; simpl in H; congruence.
        -- simpl in H. congruence.
Qed.

(** X2. With a key, when CheckWX answers 200 with an object whose result
    count is positive and whose ["data"] is a non-empty list, the first
    element of that list is returned, after the one request to CheckWX. *)
Theorem primary_returns_first_result (tr : list event) (key : string) (r : response)
  (body : dict) (x : json) (rest : list json) :
  configured w key -> primary_answer w key tr = Ok r -> status_code r = 200 ->
  response_json r = Ok (JDict body) ->
  py_gt0 (field body "results" (JInt 0)) = Ok true ->
  lookup "data" body = Some (JList (x :: rest)) ->
  get_gatwick_metar w tr = (Ok x, (tr ++ [primary_request key])%list).
Proof.
  intros Hk Hr Hs Hb Hpos Hdata.
  rewrite (configured_run w key tr Hk), Hr, Hs. simpl.
  unfold checkwx_latest. rewrite Hb. cbn [bind]. rewrite py_get_dict. cbn [bind].
  rewrite Hpos. cbn [bind]. simpl py_getitem. rewrite Hdata. reflexivity.
Qed.

(** X3. A 200 answer of CheckWX that does not hold what the code reads is
    handed over to the fallback: a body that is no object; a result count
    that is no number; and, with a positive result count, a ["data"] that is
    missing, an empty list, an object or a number. *)
Theorem primary_malformed_body_falls_back (tr : list event) (key : string) (r : response)
  (body : json) :
  configured w key -> primary_answer w key tr = Ok r -> status_code r = 200 ->
  response_json r = Ok body ->
  is_dict body = false \/
  (exists d, body = JDict d /\ is_number (field d "results" (JInt 0)) = false) \/
  (exists d, body = JDict d /\ py_gt0 (field d "results" (JInt 0)) = Ok true /\
     (lookup "data" d = None \/
      exists data, lookup "data" d = Some data /\
        (data = JList [] \/ is_dict data = true \/ is_number data = true
         \/ data = JNull))) ->
  get_gatwick_metar w tr = get_gatwick_metar_fallback w (tr ++ [primary_request key])%list.
Proof.
  intros Hk Hr Hs Hb Hshape.
  rewrite (configured_run w key tr Hk), Hr, Hs. simpl.
  assert (Hraise : exists e, checkwx_latest r = Raise e).
  { unfold checkwx_latest. rewrite Hb. cbn [bind].
    destruct Hshape as [Hnd | [(d & -> & Hn) | (d & -> & Hpos & Hdata)]].
    - destruct body; try discriminate; simpl; eauto.
    - rewrite py_get_dict. cbn [bind].
      destruct (field d "results" (JInt 0)); try discriminate; simpl; eauto.
    - rewrite py_get_dict. cbn [bind]. rewrite Hpos. cbn [bind]. simpl py_getitem.
      destruct Hdata as [-> | (data & -> & Hd)]; [simpl; eauto|].
      cbn [bind].
      destruct Hd as [-> | [Hd | [Hd | ->]]]; try (simpl; eauto; fail);
        destruct data; try discriminate; simpl; eauto. }
  destruct Hraise as [e ->]. reflexivity.
Qed.

(** The requests of one run, in their order. *)
Lemma get_gatwick_metar_trace (tr : list event) :
  exists v new,
    get_gatwick_metar w tr = (Ok v, (tr ++ new)%list) /\
    (unconfigured w = true /\ new = [HttpGet FALLBACK_URL []] \/
     exists key, configured w key /\
       (new = [HttpGet CHECKWX_API_URL [("X-API-Key", key)]] \/
        new = [HttpGet CHECKWX_API_URL [("X-API-Key", key)]; HttpGet FALLBACK_URL []])).
Proof.
  destruct (unconfigured_or_configured w) as [Hu | [key Hk]].
  - destruct (fallback_runs w tr) as [v Hv]. exists v, [fallback_request].
    rewrite (unconfigured_run w tr Hu). auto.
  - destruct (fallback_runs w (tr ++ [primary_request key])%list) as [v Hv].
    rewrite <- app_assoc in Hv. simpl in Hv.
    rewrite (configured_run w key tr Hk).
    destruct (primary_answer w key tr) as [r|e].
    + destruct (status_code r =? 200).
      * destruct (checkwx_latest r) as [v'|e'].
        -- exists v', [primary_request key]. split; [reflexivity|]. right. eauto.
        -- exists v, [primary_request key; fallback_request]. split; [exact Hv|].
           right. eauto.
      * exists v, [primary_request key; fallback_request]. split; [exact Hv|].
        right. eauto.
    + exists v, [primary_request key; fallback_request]. split; [exact Hv|].
      right. eauto.
Qed.

(** X4. What [get_gatwick_metar] sends, and in which order: the trace grows
    at its end only, by the request to aviationweather.gov alone (no key), by
    the request to CheckWX alone, or by the request to CheckWX followed by the
    request to aviationweather.gov. The request to CheckWX carries the one
    header [X-API-Key] with the configured key; the request to
    aviationweather.gov carries no header, so the key is sent to CheckWX
    only. *)
Theorem requests_in_order (tr : list event) :
  exists v new,
    get_gatwick_metar w tr = (Ok v, (tr ++ new)%list) /\
    (unconfigured w = true /\ new = [HttpGet FALLBACK_URL []] \/
     exists key, configured w key /\
       (new = [HttpGet CHECKWX_API_URL [("X-API-Key", key)]] \/
        new = [HttpGet CHECKWX_API_URL [("X-API-Key", key)]; HttpGet FALLBACK_URL []])) /\
    (forall url headers, In (HttpGet url headers) new ->
       headers <> [] -> url = CHECKWX_API_URL).
Proof.
  destruct (get_gatwick_metar_trace tr) as (v & new & Hrun & Hnew). exists v, new.
  split; [exact Hrun|]. split; [exact Hnew|].
  destruct Hnew as [[_ ->] | (key & _ & [-> | ->])];
    intros url headers Hin Hh; simpl in Hin;
    repeat (destruct Hin as [Hin | Hin]; [injection Hin as <- <-; try congruence|]);
    try contradiction; reflexivity.
Qed.

End Clients.

(** ** When the extraction raises *)

Lemma is_ok_bind {A B : Type} (c : result A) (k : A -> result B) :
  is_ok (bind c k) = match c with
                     | Ok a => is_ok (k a)
                     | Raise _ => false
                     end.
Proof. destruct c; reflexivity. Qed.

Lemma chars_nonempty (c : ascii) (s : string) : chars (String c s) <> [].
Proof.
  simpl. destruct (chars s) as [|t rest]; [discriminate|].
  destruct t as [|c' t']; [discriminate|]. destruct (is_continuation c'); discriminate.
Qed.

Section Extraction.
Context {rt : PyRuntime}.

Lemma cloud_loop_ok (cover_key base_key : string) (items : list json)
  (cloud_layers : list string) :
  is_ok (cloud_loop cover_key base_key items cloud_layers) = forallb is_dict items.
Proof.
  revert cloud_layers. induction items as [|cloud rest IH]; intros cloud_layers.
  - reflexivity.
  - cbn [cloud_loop forallb].
    destruct cloud as [| | | | | |layer]; try reflexivity.
    rewrite !py_get_dict. cbn [bind is_dict andb].
    destruct (py_truthy (field layer cover_key (JStr ""))
              && py_truthy (field layer base_key (JStr ""))); apply IH.
Qed.

Lemma aviationweather_clouds_ok (d : dict) :
  is_ok (aviationweather_clouds (JDict d)) = aviationweather_well_formed d.
Proof.
  unfold aviationweather_clouds, aviationweather_well_formed.
  simpl py_contains. unfold has_key. simpl py_getitem.
  destruct (lookup "sky_condition" d) as [sky|]; [|reflexivity].
  cbn [bind]. destruct sky as [| | | | |items|layer]; try reflexivity.
  - rewrite is_ok_bind.
    pose proof (cloud_loop_ok "sky_cover" "cloud_base_ft_agl" items []) as H.
    destruct (cloud_loop "sky_cover" "cloud_base_ft_agl" items []); simpl in *; congruence.
  - rewrite !py_get_dict. cbn [bind].
    destruct (py_truthy (field layer "sky_cover" (JStr ""))
              && py_truthy (field layer "cloud_base_ft_agl" (JStr ""))); reflexivity.
Qed.

(** X5. The only thing that makes the extraction of the aviationweather.gov
    parser raise is a ["sky_condition"] list that holds something else than
    objects. On every other observation the parser returns the seven lines;
    on these it returns its one raw line. *)
Theorem aviationweather_extraction_outcome (d : dict) :
  is_ok (aviationweather_response (JDict d)) = aviationweather_well_formed d /\
  (aviationweather_well_formed d = true ->
   exists report, parse_aviationweather_metar (JDict d) = Ok report /\ seven_lines report) /\
  (aviationweather_well_formed d = false ->
   parse_aviationweather_metar (JDict d)
   = Ok ("Gatwick METAR: " ++ py_str (field d "raw_text" (JStr "Data unavailable")))).
Proof.
  assert (Hok : is_ok (aviationweather_response (JDict d)) = aviationweather_well_formed d).
  { rewrite aviationweather_response_dict, is_ok_bind, <- aviationweather_clouds_ok.
    destruct (aviationweather_clouds (JDict d)); reflexivity. }
  split; [exact Hok|]. rewrite <- Hok, parse_aviationweather_metar_dict.
  split; intros H.
  - destruct (aviationweather_response (JDict d)) as [report|] eqn:Hr; [|discriminate].
    exists (join nl2 report). split; [reflexivity|].
    rewrite aviationweather_response_dict in Hr.
    destruct (aviationweather_clouds (JDict d)); [|discriminate].
    cbn [bind] in Hr. injection Hr as <-. apply response_lines_seven.
  - destruct (aviationweather_response (JDict d)); [discriminate|reflexivity].
Qed.

Lemma checkwx_visibility_ok (v : json) :
  is_ok (checkwx_visibility_km v) = eq_str v "N/A" || is_ok (py_float v).
Proof.
  unfold checkwx_visibility_km. destruct (eq_str v "N/A"); [reflexivity|].
  cbn [negb orb]. destruct (py_float v); reflexivity.
Qed.

Lemma checkwx_clouds_ok (d : dict) :
  is_ok (checkwx_clouds (JDict d))
  = match lookup "clouds" d with
    | None => true
    | Some clouds =>
        negb (py_truthy clouds)
        || match clouds with
           | JList items => forallb is_dict items
           | _ => false
           end
    end.
Proof.
  unfold checkwx_clouds. simpl py_contains. unfold has_key. simpl py_getitem.
  destruct (lookup "clouds" d) as [clouds|]; [|reflexivity].
  cbn [bind]. destruct (py_truthy clouds) eqn:Ht; [|reflexivity].
  cbn [negb orb].
  destruct clouds as [| | | |s|items|keys]; try reflexivity.
  - destruct s as [|c s]; [discriminate|].
    cbn [py_iter bind]. pose proof (chars_nonempty c s) as Hne.
    destruct (chars (String c s)) as [|t rest]; [congruence|]. reflexivity.
  - cbn [py_iter bind]. rewrite is_ok_bind.
    pose proof (cloud_loop_ok "code" "base_feet_agl" items []) as H.
    destruct (cloud_loop "code" "base_feet_agl" items []); simpl in *; congruence.
  - destruct keys as [|kv keys]; [discriminate|]. reflexivity.
Qed.

(** The extraction of the CheckWX parser, step by step. *)
Lemma checkwx_response_dict (d : dict) :
  checkwx_response (JDict d)
  = (temperature <- as_dict (field d "temperature" (JDict [])) ;;
     wind <- as_dict (field d "wind" (JDict [])) ;;
     visibility <- as_dict (field d "visibility" (JDict [])) ;;
     vis_km <- checkwx_visibility_km (field visibility "meters" (JStr "N/A")) ;;
     clouds <- checkwx_clouds (JDict d) ;;
     Ok (response_lines (field d "observed" (JStr "N/A"))
           (field temperature "celsius" (JStr "N/A"))
           (wind_info (field wind "degrees" (JStr "N/A"))
              (field wind "speed_kts" (JStr "N/A")) (field wind "gust_kts" (JStr "")))
           vis_km clouds (field d "raw" (JStr "N/A"))))%py.
Proof.
  unfold checkwx_response. repeat (rewrite py_get_dict; cbn [bind]).
  destruct (field d "temperature" (JDict [])); try reflexivity.
  cbn [as_dict bind]. repeat (rewrite py_get_dict; cbn [bind]).
  destruct (field d "wind" (JDict [])); try reflexivity.
  cbn [as_dict bind]. repeat (rewrite py_get_dict; cbn [bind]).
  destruct (field d "visibility" (JDict [])); try reflexivity.
Qed.

Lemma as_dict_field_ok (k : string) (d : dict) :
  is_ok (as_dict (field d k (JDict []))) = dict_or_absent k d.
Proof.
  unfold field, dict_or_absent. destruct (lookup k d) as [v|]; [|reflexivity].
  destruct v; reflexivity.
Qed.

Lemma meters_of_visibility (d visibility : dict) :
  as_dict (field d "visibility" (JDict [])) = Ok visibility ->
  meters_of d = field visibility "meters" (JStr "N/A").
Proof.
  unfold field at 1, meters_of. destruct (lookup "visibility" d) as [v|].
  - destruct v; try discriminate. intros H. injection H as <-. reflexivity.
  - intros H. injection H as <-. reflexivity.
Qed.

Lemma checkwx_response_ok (d : dict) :
  is_ok (checkwx_response (JDict d)) = checkwx_well_formed d.
Proof.
  rewrite checkwx_response_dict. unfold checkwx_well_formed.
  rewrite <- checkwx_clouds_ok, <- !as_dict_field_ok, is_ok_bind.
  destruct (as_dict (field d "temperature" (JDict []))) as [temperature|]; [|reflexivity].
  rewrite is_ok_bind.
  destruct (as_dict (field d "wind" (JDict []))) as [wind|]; [|reflexivity].
  rewrite is_ok_bind.
  destruct (as_dict (field d "visibility" (JDict []))) as [visibility|] eqn:Hv;
    [|reflexivity].
  rewrite (meters_of_visibility d visibility Hv), <- checkwx_visibility_ok, is_ok_bind.
  destruct (checkwx_visibility_km (field visibility "meters" (JStr "N/A")));
    [|reflexivity].
  rewrite is_ok_bind. destruct (checkwx_clouds (JDict d)); reflexivity.
Qed.

(** X6. The extraction of the CheckWX parser succeeds exactly on the
    observations that are well formed: ["temperature"], ["wind"] and
    ["visibility"] are objects or absent, the meters are ["N/A"] or something
    [float] converts, and ["clouds"] is absent, empty, or a list of objects. On
    these the parser returns the seven lines; on every other one (a [null]
    temperature, a cloud layer that is a string, ...) it returns its one raw
    line. *)
Theorem checkwx_extraction_outcome (d : dict) :
  is_ok (checkwx_response (JDict d)) = checkwx_well_formed d /\
  (checkwx_well_formed d = true ->
   exists report, parse_checkwx_metar (JDict d) = Ok report /\ seven_lines report) /\
  (checkwx_well_formed d = false ->
   parse_checkwx_metar (JDict d)
   = Ok ("Gatwick METAR: " ++ py_str (field d "raw" (JStr "Data unavailable")))).
Proof.
  split; [apply checkwx_response_ok|].
  rewrite <- checkwx_response_ok, parse_checkwx_metar_dict.
  split; intros H.
  - destruct (checkwx_response (JDict d)) as [report|] eqn:Hr; [|discriminate].
    exists (join nl2 report). split; [reflexivity|].
    apply checkwx_response_inv in Hr.
    destruct Hr as (temperature & wind & visibility & vis_km & clouds & _ & _ & _ & _ & _ & ->).
    apply response_lines_seven.
  - destruct (checkwx_response (JDict d)); [discriminate|reflexivity].
Qed.

End Extraction.

(** ** What the lines show *)

Section Lines.
Context {rt : PyRuntime}.

Lemma checkwx_clouds_lookup (d d' : dict) :
  lookup "clouds" d' = lookup "clouds" d ->
  checkwx_clouds (JDict d') = checkwx_clouds (JDict d).
Proof.
  intros H. unfold checkwx_clouds. simpl py_contains. unfold has_key. simpl py_getitem.
  rewrite H. reflexivity.
Qed.

Lemma aviationweather_clouds_lookup (d d' : dict) :
  lookup "sky_condition" d' = lookup "sky_condition" d ->
  aviationweather_clouds (JDict d') = aviationweather_clouds (JDict d).
Proof.
  intros H. unfold aviationweather_clouds. simpl py_contains. unfold has_key.
  simpl py_getitem. rewrite H. reflexivity.
Qed.

(** X7. An observation of a schema the code does not know, one that has none
    of the keys ["raw_text"], ["raw"], ["observed"], ["temperature"],
    ["wind"], ["visibility"] and ["clouds"], is taken for an observation of
    CheckWX and gives the report made of the seven placeholders, whatever
    other keys it holds. *)
Theorem unknown_schema_shows_placeholders (d : dict) :
  (forall k, In k ["raw_text"; "raw"; "observed"; "temperature"; "wind"; "visibility";
                   "clouds"] -> lookup k d = None) ->
  parse_metar_for_human (JDict d) = Ok (join nl2 placeholder_report).
Proof.
  intros H. rewrite parse_metar_for_human_dict. unfold extraction, has_key.
  rewrite (H "raw_text") by (simpl; auto).
  rewrite checkwx_response_dict.
  rewrite (checkwx_clouds_absent d (or_introl (H "clouds" ltac:(simpl; auto 10)))).
  rewrite !(field_absent d "temperature"), !(field_absent d "wind"),
    !(field_absent d "visibility"), !(field_absent d "observed"), !(field_absent d "raw")
    by (apply H; simpl; auto 10).
  reflexivity.
Qed.

(** X8. The observed time in the report that each parser returns. The
    CheckWX parser shows the value of ["observed"] as it is. The
    aviationweather.gov parser shows ["N/A"] without ["observation_time"],
    the reformatted time when [strptime] reads the string, and otherwise the
    value as it is: a string [strptime] refuses, and a value that is no
    string. *)
Theorem observed_line (d : dict) (report : list string) :
  (checkwx_response (JDict d) = Ok report ->
   parse_checkwx_metar (JDict d) = Ok (join nl2 report) /\
   nth 1 report "" = "⏰ Observed: " ++ py_str (field d "observed" (JStr "N/A"))) /\
  (aviationweather_response (JDict d) = Ok report ->
   parse_aviationweather_metar (JDict d) = Ok (join nl2 report) /\
   (lookup "observation_time" d = None -> nth 1 report "" = "⏰ Observed: N/A") /\
   (forall s shown,
      lookup "observation_time" d = Some (JStr s) -> strptime_strftime s = Some shown ->
      nth 1 report "" = "⏰ Observed: " ++ shown) /\
   (forall s,
      lookup "observation_time" d = Some (JStr s) -> strptime_strftime s = None ->
      nth 1 report "" = "⏰ Observed: " ++ s) /\
   (forall v,
      lookup "observation_time" d = Some v -> (forall s, v <> JStr s) ->
      nth 1 report "" = "⏰ Observed: " ++ py_str v)).
Proof.
  split.
  - intros H. split; [exact (checkwx_report d report H)|].
    apply checkwx_response_inv in H.
    destruct H as (temperature & wind & visibility & vis_km & clouds
                   & _ & _ & _ & _ & _ & ->).
    reflexivity.
  - intros H. split; [exact (aviationweather_report d report H)|].
    rewrite aviationweather_response_dict in H.
    destruct (aviationweather_clouds (JDict d)) as [clouds|]; [|discriminate].
    cbn [bind] in H. injection H as <-. cbn [nth response_lines]. unfold obs_time_of.
    split; [|split; [|split]].
    + intros ->. reflexivity.
    + intros s shown -> ->. reflexivity.
    + intros s -> ->. reflexivity.
    + intros v -> Hv. destruct v as [| | | |s| |]; try reflexivity.
      exfalso. apply (Hv s). reflexivity.
Qed.

(** X9. The raw METAR is copied, not read: for two observations that differ
    in their raw text only, a parser returns two reports that share the six
    lines above the raw METAR, or two raw lines. *)
Theorem raw_text_is_only_copied (d d' : dict) :
  (agree_but "raw" d d' ->
   (exists above,
      List.length above = 6%nat /\
      parse_checkwx_metar (JDict d)
      = Ok (join nl2 (above ++ ["📊 Raw METAR: " ++ py_str (field d "raw" (JStr "N/A"))])) /\
      parse_checkwx_metar (JDict d')
      = Ok (join nl2 (above ++ ["📊 Raw METAR: " ++ py_str (field d' "raw" (JStr "N/A"))])))
   \/
   (parse_checkwx_metar (JDict d)
    = Ok ("Gatwick METAR: " ++ py_str (field d "raw" (JStr "Data unavailable"))) /\
    parse_checkwx_metar (JDict d')
    = Ok ("Gatwick METAR: " ++ py_str (field d' "raw" (JStr "Data unavailable"))))) /\
  (agree_but "raw_text" d d' ->
   (exists above,
      List.length above = 6%nat /\
      parse_aviationweather_metar (JDict d)
      = Ok (join nl2
              (above ++ ["📊 Raw METAR: " ++ py_str (field d "raw_text" (JStr "N/A"))])) /\
      parse_aviationweather_metar (JDict d')
      = Ok (join nl2
              (above ++ ["📊 Raw METAR: " ++ py_str (field d' "raw_text" (JStr "N/A"))])))
   \/
   (parse_aviationweather_metar (JDict d)
    = Ok ("Gatwick METAR: " ++ py_str (field d "raw_text" (JStr "Data unavailable"))) /\
    parse_aviationweather_metar (JDict d')
    = Ok ("Gatwick METAR: " ++ py_str (field d' "raw_text" (JStr "Data unavailable"))))).
Proof.
  split; intros H.
  - assert (Hf : forall k default, k <> "raw" -> field d' k default = field d k default).
    { intros k default Hk. unfold field. rewrite (H k Hk). reflexivity. }
    rewrite !parse_checkwx_metar_dict, !checkwx_response_dict.
    rewrite (checkwx_clouds_lookup d d') by (apply H; discriminate).
    rewrite !(Hf "temperature"), !(Hf "wind"), !(Hf "visibility"), !(Hf "observed")
      by discriminate.
    destruct (as_dict (field d "temperature" (JDict []))); cbn [bind]; [|right; auto].
    destruct (as_dict (field d "wind" (JDict []))); cbn [bind]; [|right; auto].
    destruct (as_dict (field d "visibility" (JDict []))) as [visibility|]; cbn [bind];
      [|right; auto].
    destruct (checkwx_visibility_km (field visibility "meters" (JStr "N/A"))); cbn [bind];
      [|right; auto].
    destruct (checkwx_clouds (JDict d)); cbn [bind]; [|right; auto].
    left. eexists [_; _; _; _; _; _]. split; [reflexivity|]. split; reflexivity.
  - assert (Hf : forall k default, k <> "raw_text" -> field d' k default = field d k default).
    { intros k default Hk. unfold field. rewrite (H k Hk). reflexivity. }
    rewrite !parse_aviationweather_metar_dict, !aviationweather_response_dict.
    rewrite (aviationweather_clouds_lookup d d') by (apply H; discriminate).
    rewrite !(Hf "temp_c"), !(Hf "wind_dir_degrees"), !(Hf "wind_speed_kt"),
      !(Hf "wind_gust_kt"), !(Hf "visibility_statute_mi") by discriminate.
    assert (Ht : obs_time_of d' = obs_time_of d).
    { unfold obs_time_of. rewrite (H "observation_time") by discriminate. reflexivity. }
    rewrite Ht.
    destruct (aviationweather_clouds (JDict d)); cbn [bind]; [|right; auto].
    left. eexists [_; _; _; _; _; _]. split; [reflexivity|]. split; reflexivity.
Qed.

(** X10. In the report that a parser returns, a field that is missing shows
    its placeholder in its own line, whatever the other fields hold; so does,
    for CheckWX, an object that lacks the field read from it. *)
Theorem missing_fields_show_placeholders (d : dict) (report : list string) :
  (checkwx_response (JDict d) = Ok report ->
   parse_checkwx_metar (JDict d) = Ok (join nl2 report) /\
   (lookup "temperature" d = None -> nth 2 report "" = "🌡️ Temperature: N/A°C") /\
   (lookup "wind" d = None -> nth 3 report "" = "💨 Wind: N/A° at N/A knots") /\
   (lookup "visibility" d = None -> nth 4 report "" = "👁️ Visibility: N/A") /\
   (lookup "raw" d = None -> nth 6 report "" = "📊 Raw METAR: N/A") /\
   (forall temperature,
      lookup "temperature" d = Some (JDict temperature) ->
      lookup "celsius" temperature = None ->
      nth 2 report "" = "🌡️ Temperature: N/A°C") /\
   (forall wind,
      lookup "wind" d = Some (JDict wind) -> lookup "degrees" wind = None ->
      lookup "speed_kts" wind = None -> lookup "gust_kts" wind = None ->
      nth 3 report "" = "💨 Wind: N/A° at N/A knots") /\
   (forall visibility,
      lookup "visibility" d = Some (JDict visibility) ->
      lookup "meters" visibility = None ->
      nth 4 report "" = "👁️ Visibility: N/A")) /\
  (aviationweather_response (JDict d) = Ok report ->
   parse_aviationweather_metar (JDict d) = Ok (join nl2 report) /\
   (lookup "temp_c" d = None -> nth 2 report "" = "🌡️ Temperature: N/A°C") /\
   (lookup "wind_dir_degrees" d = None -> lookup "wind_speed_kt" d = None ->
    lookup "wind_gust_kt" d = None -> nth 3 report "" = "💨 Wind: N/A° at N/A knots") /\
   (lookup "visibility_statute_mi" d = None -> nth 4 report "" = "👁️ Visibility: N/A")).
Proof.
  split.
  - intros H. split; [exact (checkwx_report d report H)|].
    destruct (checkwx_placeholders d report H) as (_ & Ht & Hw & Hv & _ & Hr).
    split; [intros Hn; apply (Ht []); [apply field_absent; exact Hn|reflexivity]|].
    split.
    { intros Hn.
      destruct (Hw [] (field_absent d "wind" _ Hn))
        as (direction & speed & gust & -> & -> & -> & ->); reflexivity. }
    split; [intros Hn; apply (Hv []); [apply field_absent; exact Hn|reflexivity]|].
    split; [exact Hr|].
    apply checkwx_response_inv in H.
    destruct H as (temperature & wind & visibility & vis_km & clouds
                   & Htemperature & Hwind & Hvisibility & Hkm & _ & ->).
    cbn [nth response_lines]. split; [|split].
    + intros t Hl Hn. rewrite (field_lookup d "temperature" _ _ Hl) in Htemperature.
      injection Htemperature as <-. rewrite (field_absent t "celsius" _ Hn). reflexivity.
    + intros x Hl H1 H2 H3. rewrite (field_lookup d "wind" _ _ Hl) in Hwind.
      injection Hwind as <-.
      rewrite (field_absent x "degrees" _ H1), (field_absent x "speed_kts" _ H2),
        (field_absent x "gust_kts" _ H3).
      reflexivity.
    + intros x Hl Hn. rewrite (field_lookup d "visibility" _ _ Hl) in Hvisibility.
      injection Hvisibility as <-. rewrite (field_absent x "meters" _ Hn) in Hkm.
      simpl in Hkm. injection Hkm as <-. reflexivity.
  - intros H. split; [exact (aviationweather_report d report H)|].
    destruct (aviationweather_placeholders d report H)
      as (_ & Ht & (direction & speed & gust & Hline & Hd & Hs & Hg) & Hv & _).
    split; [exact Ht|]. split; [|exact Hv].
    intros H1 H2 H3. rewrite Hline, (Hd H1), (Hs H2), (Hg H3). reflexivity.
Qed.

(** X11. An observation that is no object. [parse_metar_for_human] answers a
    string or a list with the apology of line 101, unless ["raw_text"] or
    ["raw"] occurs in it; in that case, and for [None], a bool and a number,
    it raises [TypeError]: the [except] clause itself fails. *)
Theorem observation_that_is_no_object (m : json) :
  is_dict m = false ->
  parse_metar_for_human m
  = if is_sequence m && negb (mentions "raw_text" m) && negb (mentions "raw" m)
    then Ok APOLOGY else Raise TypeError.
Proof.
  intros Hd. unfold parse_metar_for_human, dispatch, last_resort, mentions.
  destruct m as [| | | |s|l|d]; try reflexivity; [| |discriminate].
  - simpl py_contains. cbn [bind is_sequence andb].
    destruct (contains "raw_text" s); [reflexivity|].
    cbn [try_except parse_checkwx_metar checkwx_response py_get bind negb andb].
    destruct (contains "raw" s); reflexivity.
  - simpl py_contains. cbn [bind is_sequence andb].
    destruct (existsb (fun v => eq_str v "raw_text") l); [reflexivity|].
    cbn [try_except parse_checkwx_metar checkwx_response py_get bind negb andb].
    destruct (existsb (fun v => eq_str v "raw") l); reflexivity.
Qed.

End Lines.

(** ** The webhook *)

Lemma starts_with_app (p s b : string) :
  starts_with p s = true -> starts_with p (s ++ b) = true.
Proof.
  revert s. induction p as [|a p IH]; intros s H; [reflexivity|].
  destruct s as [|c s]; [discriminate|]. simpl in *.
  apply andb_true_iff in H. destruct H as [H1 H2]. rewrite H1, (IH s H2). reflexivity.
Qed.

Lemma contains_app_r (p s b : string) : contains p s = true -> contains p (s ++ b) = true.
Proof.
  induction s as [|c s IH]; intros H.
  - simpl in H. rewrite orb_false_r in H. destruct p; [|discriminate].
    destruct b; reflexivity.
  - cbn [contains] in H. apply orb_true_iff in H. destruct H as [H | H].
    + change (String c s ++ b) with (String c (s ++ b)). cbn [contains].
      change (String c (s ++ b)) with (String c s ++ b).
      rewrite (starts_with_app p (String c s) b H). reflexivity.
    + change (String c s ++ b) with (String c (s ++ b)). cbn [contains].
      rewrite (IH H). apply orb_true_r.
Qed.

Lemma contains_app_l (p a s : string) : contains p s = true -> contains p (a ++ s) = true.
Proof.
  intros H. induction a as [|c a IH]; [exact H|].
  change (String c a ++ s) with (String c (a ++ s)). cbn [contains].
  rewrite IH. apply orb_true_r.
Qed.

Lemma contains_self (p : string) : contains p p = true.
Proof.
  assert (H : starts_with p p = true).
  { induction p as [|c p IH]; [reflexivity|]. simpl. rewrite Ascii.eqb_refl. exact IH. }
  destruct p; simpl in *; [reflexivity|]. rewrite H. reflexivity.
Qed.

(** X12. The trigger words are looked for anywhere in the message: a message
    that triggers still does with any text before and after it, and each of
    the three words triggers wherever it stands, inside a longer word too. *)
Theorem trigger_words_anywhere (before after : string) :
  (forall incoming_msg,
     triggers incoming_msg = true -> triggers (before ++ incoming_msg ++ after) = true) /\
  triggers (before ++ "metar" ++ after) = true /\
  triggers (before ++ "weather" ++ after) = true /\
  triggers (before ++ "gatwick" ++ after) = true.
Proof.
  assert (Hany : forall incoming_msg,
            triggers incoming_msg = true ->
            triggers (before ++ incoming_msg ++ after) = true).
  { intros m H. unfold triggers in *.
    apply orb_true_iff in H. destruct H as [H | H];
      [apply orb_true_iff in H; destruct H as [H | H]|];
      apply (contains_app_r _ _ after) in H; apply (contains_app_l _ before) in H;
      rewrite H; rewrite ?orb_true_r; reflexivity. }
  split; [exact Hany|]. repeat split; apply Hany; reflexivity.
Qed.

Section WebhookReplies.
Context {rt : PyRuntime}.
Variable w : world.

Lemma reply_with_metar_run (sender : string) (tr requests : list event) (v : json) :
  get_gatwick_metar w tr = (Ok v, (tr ++ requests)%list) ->
  reply_with_metar w sender tr
  = (Ok tt,
     (tr ++ requests
      ++ [WhatsApp sender
            (if py_truthy v
             then match parse_metar_for_human v with
                  | Ok human_readable => Text human_readable
                  | Raise e => ErrorText e
                  end
             else Text NO_DATA_REPLY)])%list).
Proof.
  intros Hrun. unfold reply_with_metar, io_try, io_bind. rewrite Hrun.
  destruct (py_truthy v).
  - unfold lift. destruct (parse_metar_for_human v); simpl;
      unfold send_whatsapp_message, ret; rewrite <- app_assoc; reflexivity.
  - simpl. unfold send_whatsapp_message, ret. rewrite <- app_assoc. reflexivity.
Qed.

Lemma webhook_run (incoming_msg sender : string) (tr : list event) :
  webhook w incoming_msg sender tr
  = if triggers incoming_msg
    then (Ok (TWIML, 200), snd (reply_with_metar w sender tr))
    else (Ok (TWIML, 200), (tr ++ [WhatsApp sender (Text HELP_REPLY)])%list).
Proof.
  unfold webhook, triggers. unfold io_try at 1. unfold io_bind at 1.
  destruct (contains "metar" incoming_msg || contains "weather" incoming_msg
            || contains "gatwick" incoming_msg).
  - destruct (get_gatwick_metar_trace w tr) as (v & requests & Hrun & _).
    rewrite (reply_with_metar_run sender tr requests v Hrun). reflexivity.
  - reflexivity.
Qed.

(** X13. Whatever the message, the sender and the world, [webhook] does not
    raise, answers with the TwiML response and status 200, and hands exactly
    one message to the WhatsApp sink, addressed to the sender, after at most
    two HTTP requests. A message without a trigger word causes no request, and
    its reply is the help text. *)
Theorem webhook_replies_once (incoming_msg sender : string) (tr : list event) :
  exists requests reply,
    webhook w incoming_msg sender tr
    = (Ok (TWIML, 200), (tr ++ requests ++ [WhatsApp sender reply])%list) /\
    forallb is_request requests = true /\
    (List.length requests <= 2)%nat /\
    (triggers incoming_msg = false -> requests = [] /\ reply = Text HELP_REPLY).
Proof.
  rewrite webhook_run. destruct (triggers incoming_msg).
  - destruct (get_gatwick_metar_trace w tr) as (v & requests & Hrun & Hshape).
    rewrite (reply_with_metar_run sender tr requests v Hrun). simpl snd.
    eexists requests, _. split; [reflexivity|].
    destruct Hshape as [[_ ->] | (key & _ & [-> | ->])];
      (split; [reflexivity|]); (split; [simpl; lia|]); discriminate.
  - exists [], (Text HELP_REPLY). split; [reflexivity|]. split; [reflexivity|].
    split; [simpl; lia|]. auto.
Qed.

(** X14. The reply to a message with a trigger word, by what
    [get_gatwick_metar] returned. A value that counts as false ([None], but
    also an empty object, an empty list, an empty string and a zero) gives
    the no-data text. An object that is not empty gives its report: the seven
    lines, or the raw line. The error text is sent for no object at all. *)
Theorem webhook_reply_content (incoming_msg sender : string) (tr requests : list event)
  (v : json) :
  triggers incoming_msg = true ->
  get_gatwick_metar w tr = (Ok v, (tr ++ requests)%list) ->
  exists reply,
    webhook w incoming_msg sender tr
    = (Ok (TWIML, 200), (tr ++ requests ++ [WhatsApp sender reply])%list) /\
    (py_truthy v = false -> reply = Text NO_DATA_REPLY) /\
    (forall d, v = JDict d -> d <> [] ->
       reply = Text match extraction d with
                    | Ok report => join nl2 report
                    | Raise _ => raw_only d
                    end) /\
    (forall e, reply = ErrorText e -> is_dict v = false /\ py_truthy v = true).
Proof.
  intros Ht Hrun. rewrite webhook_run, Ht, (reply_with_metar_run sender tr requests v Hrun).
  simpl snd. eexists. split; [reflexivity|]. split; [|split].
  - intros ->. reflexivity.
  - intros d -> Hd. destruct d as [|kv d]; [congruence|].
    cbn [py_truthy]. rewrite parse_metar_for_human_dict. reflexivity.
  - intros e. destruct (py_truthy v) eqn:Hv; [|discriminate].
    destruct v as [| | | | | |d]; try (intros _; split; reflexivity).
    rewrite parse_metar_for_human_dict. discriminate.
Qed.

End WebhookReplies.

(** ** src/twilio_service.py *)

Lemma starts_with_prefix (p s : string) : starts_with p (p ++ s) = true.
Proof.
  induction p as [|c p IH]; [reflexivity|]. simpl. rewrite Ascii.eqb_refl. exact IH.
Qed.

Lemma with_prefix_starts (number : string) :
  starts_with "whatsapp:" (twilio_service.with_prefix number) = true.
Proof.
  unfold twilio_service.with_prefix.
  destruct (starts_with "whatsapp:" number) eqn:H; cbn [negb]; [exact H|].
  apply starts_with_prefix.
Qed.

(** X15. The address prefix: a number that starts with ["whatsapp:"] is left
    as it is, any other gets the prefix in front; the result always starts
    with the prefix, and doing it twice changes nothing more. *)
Theorem whatsapp_prefix_once (number : string) :
  starts_with "whatsapp:" (twilio_service.with_prefix number) = true /\
  (starts_with "whatsapp:" number = true -> twilio_service.with_prefix number = number) /\
  (starts_with "whatsapp:" number = false ->
   twilio_service.with_prefix number = "whatsapp:" ++ number) /\
  twilio_service.with_prefix (twilio_service.with_prefix number)
  = twilio_service.with_prefix number.
Proof.
  split; [apply with_prefix_starts|]. split; [|split].
  - unfold twilio_service.with_prefix. intros ->. reflexivity.
  - unfold twilio_service.with_prefix. intros ->. reflexivity.
  - unfold twilio_service.with_prefix at 1. rewrite with_prefix_starts. reflexivity.
Qed.

Section Twilio.
Variable s : twilio_service.service.

(** Without one of the three settings: [False], and no call. *)
Lemma send_without_settings (to_number : string) (message_body : message)
  (calls : list twilio_service.create_call) :
  twilio_configured s = false ->
  twilio_service.send_whatsapp_message s to_number message_body calls = (Ok false, calls).
Proof.
  unfold twilio_configured, twilio_service.send_whatsapp_message, twilio_service.tw_try.
  cbn [forallb]. rewrite andb_true_r, andb_assoc. intros ->. reflexivity.
Qed.

(** With the three settings: one call, and its outcome as a bool. *)
Lemma send_with_settings (to_number : string) (message_body : message)
  (calls : list twilio_service.create_call) :
  twilio_configured s = true ->
  exists c,
    twilio_service.send_whatsapp_message s to_number message_body calls
    = (Ok (is_ok (twilio_service.messages_create s calls c)), (calls ++ [c])%list) /\
    twilio_service.body c = message_body /\
    twilio_service.to c = twilio_service.with_prefix to_number /\
    twilio_service.from_ c
    = twilio_service.with_prefix
        (twilio_service.value (twilio_service.TWILIO_WHATSAPP_NUMBER (twilio_service.env s))) /\
    twilio_service.TWILIO_ACCOUNT_SID (twilio_service.env s)
    = Some (twilio_service.account_sid c) /\
    twilio_service.TWILIO_AUTH_TOKEN (twilio_service.env s)
    = Some (twilio_service.auth_token c) /\
    starts_with "whatsapp:" (twilio_service.to c) = true /\
    starts_with "whatsapp:" (twilio_service.from_ c) = true.
Proof.
  unfold twilio_configured, twilio_service.send_whatsapp_message, twilio_service.tw_try,
    twilio_service.tw_bind, twilio_service.create, twilio_service.tw_ret.
  cbn [forallb]. rewrite andb_true_r, andb_assoc. intros H. rewrite H. cbn [negb].
  exists {| twilio_service.account_sid :=
              twilio_service.value (twilio_service.TWILIO_ACCOUNT_SID (twilio_service.env s));
            twilio_service.auth_token :=
              twilio_service.value (twilio_service.TWILIO_AUTH_TOKEN (twilio_service.env s));
            twilio_service.body := message_body;
            twilio_service.from_ :=
              twilio_service.with_prefix
                (twilio_service.value
                   (twilio_service.TWILIO_WHATSAPP_NUMBER (twilio_service.env s)));
            twilio_service.to := twilio_service.with_prefix to_number |}.
  split.
  - destruct (twilio_service.messages_create s calls _); reflexivity.
  - cbn. apply andb_true_iff in H. destruct H as [H _].
    apply andb_true_iff in H. destruct H as [H1 H2].
    repeat split; try apply with_prefix_starts.
    + destruct (twilio_service.TWILIO_ACCOUNT_SID (twilio_service.env s)) as [[|c sid]|];
        try discriminate; reflexivity.
    + destruct (twilio_service.TWILIO_AUTH_TOKEN (twilio_service.env s)) as [[|c token]|];
        try discriminate; reflexivity.
Qed.

(** X16. [send_whatsapp_message] never raises and never touches the calls
    already made. When one of the three settings is unset or empty it returns
    [False] and makes no call to Twilio. With the three settings it makes
    exactly one call, and returns [True] when the call returns and [False]
    when the call raises; the call carries the message body unchanged, the
    configured account and token, and both numbers in their prefixed form. *)
Theorem twilio_send_outcome (to_number : string) (message_body : message)
  (calls : list twilio_service.create_call) :
  exists sent new,
    twilio_service.send_whatsapp_message s to_number message_body calls
    = (Ok sent, (calls ++ new)%list) /\
    (twilio_configured s = false -> sent = false /\ new = []) /\
    (twilio_configured s = true ->
     exists c,
       new = [c] /\ sent = is_ok (twilio_service.messages_create s calls c) /\
       twilio_service.body c = message_body /\
       twilio_service.to c = twilio_service.with_prefix to_number /\
       twilio_service.from_ c
       = twilio_service.with_prefix
           (twilio_service.value
              (twilio_service.TWILIO_WHATSAPP_NUMBER (twilio_service.env s))) /\
       twilio_service.TWILIO_ACCOUNT_SID (twilio_service.env s)
       = Some (twilio_service.account_sid c) /\
       twilio_service.TWILIO_AUTH_TOKEN (twilio_service.env s)
       = Some (twilio_service.auth_token c)).
Proof.
  destruct (twilio_configured s) eqn:Hc.
  - destruct (send_with_settings to_number message_body calls Hc)
      as (c & Hrun & Hbody & Hto & Hfrom & Hsid & Htoken & _).
    exists (is_ok (twilio_service.messages_create s calls c)), [c].
    split; [exact Hrun|]. split; [discriminate|]. intros _. exists c. auto 10.
  - exists false, []. rewrite app_nil_r.
    split; [exact (send_without_settings to_number message_body calls Hc)|].
    split; [auto|discriminate].
Qed.

End Twilio.

(** X17. The reply and the status of [webhook] do not depend on what
    [send_whatsapp_message] returns (line 42 drops it): two worlds with the
    same key and the same network give the same run, whatever their WhatsApp
    sinks answer. *)
Theorem webhook_ignores_send_result {rt : PyRuntime} (w w' : world)
  (incoming_msg sender : string) (tr : list event) :
  CHECKWX_API_KEY w' = CHECKWX_API_KEY w -> network w' = network w ->
  webhook w' incoming_msg sender tr = webhook w incoming_msg sender tr.
Proof.
  intros Hk Hn.
  assert (Hget : get_gatwick_metar w' tr = get_gatwick_metar w tr).
  { destruct w as [key net sink], w' as [key' net' sink']. simpl in Hk, Hn. subst.
    reflexivity. }
  rewrite !webhook_run. destruct (triggers incoming_msg); [|reflexivity].
  destruct (get_gatwick_metar_trace w tr) as (v & requests & Hrun & _).
  rewrite (reply_with_metar_run w sender tr requests v Hrun).
  rewrite <- Hget in Hrun.
  rewrite (reply_with_metar_run w' sender tr requests v Hrun). reflexivity.
Qed.

(** ** Witnesses of the further properties *)

(** X1, a witness: a list of two observations, and an error object. *)
Lemma fallback_client_outcomes_witness :
  get_gatwick_metar_fallback (aviationweather_says (JList [fallback_observation; JNull])) []
  = (Ok fallback_observation, [HttpGet FALLBACK_URL []]) /\
  get_gatwick_metar_fallback (aviationweather_says error_body) []
  = (Ok JNull, [HttpGet FALLBACK_URL []]).
Proof.
  split.
  - destruct (fallback_client_outcomes
                (aviationweather_says (JList [fallback_observation; JNull])) [])
      as (v & Hrun & _ & Hr).
    destruct (Hr (ok_response (JList [fallback_observation; JNull])) eq_refl) as [_ H200].
    destruct (H200 eq_refl) as (_ & Hlist & _).
    rewrite Hrun, (Hlist fallback_observation [JNull] eq_refl). reflexivity.
  - destruct (fallback_client_outcomes (aviationweather_says error_body) [])
      as (v & Hrun & _ & Hr).
    destruct (Hr (ok_response error_body) eq_refl) as [_ H200].
    destruct (H200 eq_refl) as (_ & _ & Hnone).
    rewrite Hrun, (Hnone error_body eq_refl (or_intror (or_introl eq_refl))). reflexivity.
Defined.

(** X2, the witness. *)
Lemma primary_returns_first_result_witness :
  get_gatwick_metar happy_world []
  = (Ok (JDict (checkwx_observation (JStr "9000") (JStr ""))), [primary_request "secret"]).
Proof.
  apply (primary_returns_first_result happy_world [] "secret"
           (ok_response
              (JDict [("results", JInt 1);
                      ("data", JList [JDict (checkwx_observation (JStr "9000") (JStr ""))])]))
           [("results", JInt 1);
            ("data", JList [JDict (checkwx_observation (JStr "9000") (JStr ""))])]
           (JDict (checkwx_observation (JStr "9000") (JStr ""))) []);
    try reflexivity.
  split; [reflexivity|discriminate].
Defined.

(** X3, the witness: a result count of one with an empty list of data. *)
Lemma primary_malformed_body_falls_back_witness :
  get_gatwick_metar (checkwx_says count_without_data) []
  = get_gatwick_metar_fallback (checkwx_says count_without_data) [primary_request "secret"].
Proof.
  apply (primary_malformed_body_falls_back (checkwx_says count_without_data) [] "secret"
           (ok_response count_without_data) count_without_data); try reflexivity.
  - split; [reflexivity|discriminate].
  - right. right. exists [("results", JInt 1); ("data", JList [])].
    split; [reflexivity|]. split; [reflexivity|]. right. exists (JList []). auto.
Defined.

(** X5, a witness: a cloud layer that is a string costs the report its six
    lines. *)
Lemma aviationweather_extraction_outcome_witness :
  parse_aviationweather_metar (rt := cpython) (JDict string_layer)
  = Ok ("Gatwick METAR: " ++ sample_raw) /\
  exists report,
    parse_aviationweather_metar (rt := cpython) (JDict [("raw_text", JStr sample_raw)])
    = Ok report /\ seven_lines report.
Proof.
  split.
  - apply (proj2 (proj2 (aviationweather_extraction_outcome (rt := cpython) string_layer))).
    reflexivity.
  - apply (proj1 (proj2 (aviationweather_extraction_outcome (rt := cpython)
                           [("raw_text", JStr sample_raw)]))).
    reflexivity.
Defined.

(** X6, a witness: a [null] temperature costs the report its six lines; the
    meters written with full-width digits, which [float] converts, do not. *)
Lemma checkwx_extraction_outcome_witness :
  parse_checkwx_metar (rt := cpython) (JDict null_temperature)
  = Ok ("Gatwick METAR: " ++ sample_raw) /\
  (exists report,
     parse_checkwx_metar (rt := cpython)
       (JDict (checkwx_observation (JStr "9000") (JStr ""))) = Ok report /\
     seven_lines report) /\
  (exists report,
     parse_checkwx_metar (rt := cpython)
       (JDict (checkwx_observation (JStr "９０００") (JStr ""))) = Ok report /\
     seven_lines report).
Proof.
  split; [|split].
  - apply (proj2 (proj2 (checkwx_extraction_outcome (rt := cpython) null_temperature))).
    reflexivity.
  - apply (proj1 (proj2 (checkwx_extraction_outcome (rt := cpython)
                           (checkwx_observation (JStr "9000") (JStr ""))))).
    reflexivity.
  - apply (proj1 (proj2 (checkwx_extraction_outcome (rt := cpython)
                           (checkwx_observation (JStr "９０００") (JStr ""))))).
    vm_compute. reflexivity.
Defined.

(** X7, the witness. *)
Lemma unknown_schema_shows_placeholders_witness :
  parse_metar_for_human (rt := cpython) (JDict third_schema)
  = Ok (join nl2 placeholder_report).
Proof.
  apply (unknown_schema_shows_placeholders (rt := cpython) third_schema).
  intros k Hk. simpl in Hk.
  repeat (destruct Hk as [<- | Hk]; [reflexivity|]). contradiction.
Defined.

(** X8, a witness: a time [strptime] reads, and one it refuses. *)
Lemma observed_line_witness :
  (parse_aviationweather_metar (rt := cpython)
     (JDict (aviationweather_observation (JStr "6") (JStr "") few_2500))
   = Ok (join nl2 (lines_of "01-May-2024 05:20 UTC" "12.0" "270° at 15 knots" "9.7 km"
                     "FEW at 2500 ft" sample_raw)) /\
   nth 1 (lines_of "01-May-2024 05:20 UTC" "12.0" "270° at 15 knots" "9.7 km"
            "FEW at 2500 ft" sample_raw) ""
   = "⏰ Observed: " ++ "01-May-2024 05:20 UTC") /\
  (parse_aviationweather_metar (rt := cpython) (JDict undated_observation)
   = Ok (join nl2 (lines_of "1 May, 05:20" "N/A" "N/A° at N/A knots" "N/A" "No cloud data"
                     sample_raw)) /\
   nth 1 (lines_of "1 May, 05:20" "N/A" "N/A° at N/A knots" "N/A" "No cloud data"
            sample_raw) ""
   = "⏰ Observed: " ++ "1 May, 05:20").
Proof.
  split.
  - destruct (proj2 (observed_line (rt := cpython)
                       (aviationweather_observation (JStr "6") (JStr "") few_2500)
                       (lines_of "01-May-2024 05:20 UTC" "12.0" "270° at 15 knots" "9.7 km"
                          "FEW at 2500 ft" sample_raw)))
      as (Hp & _ & Hread & _); [vm_compute; reflexivity|].
    split; [exact Hp|].
    apply (Hread "2024-05-01T05:20:00Z" "01-May-2024 05:20 UTC"); reflexivity.
  - destruct (proj2 (observed_line (rt := cpython) undated_observation
                       (lines_of "1 May, 05:20" "N/A" "N/A° at N/A knots" "N/A"
                          "No cloud data" sample_raw)))
      as (Hp & _ & _ & Hrefused & _); [vm_compute; reflexivity|].
    split; [exact Hp|]. apply (Hrefused "1 May, 05:20"); reflexivity.
Defined.

(** X9, a witness: two observations of CheckWX, half an hour apart in their
    raw text only. *)
Lemma raw_text_is_only_copied_witness :
  agree_but "raw" (checkwx_observation (JStr "9000") (JStr "")) later_observation /\
  exists above,
    List.length above = 6%nat /\
    parse_checkwx_metar (rt := cpython) (JDict (checkwx_observation (JStr "9000") (JStr "")))
    = Ok (join nl2 (above ++ ["📊 Raw METAR: " ++ sample_raw])) /\
    parse_checkwx_metar (rt := cpython) (JDict later_observation)
    = Ok (join nl2 (above ++ ["📊 Raw METAR: " ++ later_raw])).
Proof.
  assert (H : agree_but "raw" (checkwx_observation (JStr "9000") (JStr ""))
                later_observation).
  { intros k Hk. unfold checkwx_observation, later_observation. cbn [lookup].
    destruct (String.eqb k "raw") eqn:E; [apply String.eqb_eq in E; congruence|].
    reflexivity. }
  split; [exact H|].
  destruct (proj1 (raw_text_is_only_copied (rt := cpython) _ _) H)
    as [(above & Hl & Hd & Hd') | [Hd _]].
  - exists above. split; [exact Hl|]. split; [exact Hd|exact Hd'].
  - vm_compute in Hd. discriminate Hd.
Defined.

(** X10, a witness: an observation of CheckWX whose temperature, wind and
    visibility objects lack the fields that are read from them. *)
Lemma missing_fields_show_placeholders_witness :
  parse_checkwx_metar (rt := cpython) (JDict hollow_observation)
  = Ok (join nl2 (lines_of "N/A" "N/A" "N/A° at N/A knots" "N/A" "BKN at 2500 ft"
                    sample_raw)) /\
  nth 2 (lines_of "N/A" "N/A" "N/A° at N/A knots" "N/A" "BKN at 2500 ft" sample_raw) ""
  = "🌡️ Temperature: N/A°C" /\
  nth 3 (lines_of "N/A" "N/A" "N/A° at N/A knots" "N/A" "BKN at 2500 ft" sample_raw) ""
  = "💨 Wind: N/A° at N/A knots" /\
  nth 4 (lines_of "N/A" "N/A" "N/A° at N/A knots" "N/A" "BKN at 2500 ft" sample_raw) ""
  = "👁️ Visibility: N/A".
Proof.
  destruct (proj1 (missing_fields_show_placeholders (rt := cpython) hollow_observation
                     (lines_of "N/A" "N/A" "N/A° at N/A knots" "N/A" "BKN at 2500 ft"
                        sample_raw)))
    as (Hp & _ & _ & _ & _ & Ht & Hw & Hv); [vm_compute; reflexivity|].
  split; [exact Hp|]. split; [|split].
  - apply (Ht [("dewpoint", JInt 8)]); reflexivity.
  - apply (Hw []); reflexivity.
  - apply (Hv [("miles", JStr "6")]); reflexivity.
Defined.

(** X11, the witness. *)
Lemma observation_that_is_no_object_witness :
  parse_metar_for_human (rt := cpython) (JStr "EGKK 010520Z") = Ok APOLOGY /\
  parse_metar_for_human (rt := cpython) (JList [JStr "raw"]) = Raise TypeError.
Proof.
  split.
  - apply (observation_that_is_no_object (rt := cpython) (JStr "EGKK 010520Z")). reflexivity.
  - apply (observation_that_is_no_object (rt := cpython) (JList [JStr "raw"])). reflexivity.
Defined.

(** X14, the witness: aviationweather.gov answers with a list that holds one
    empty object, and the sender is told that there is no data. *)
Lemma webhook_reply_content_witness :
  webhook (rt := cpython) (aviationweather_says (JList [JDict []])) "weather?"
    "whatsapp:+441234567890" []
  = (Ok (TWIML, 200),
     [ HttpGet FALLBACK_URL []; WhatsApp "whatsapp:+441234567890" (Text NO_DATA_REPLY) ]).
Proof.
  destruct (webhook_reply_content (rt := cpython) (aviationweather_says (JList [JDict []]))
              "weather?" "whatsapp:+441234567890" [] [HttpGet FALLBACK_URL []] (JDict [])
              eq_refl eq_refl) as (reply & Hrun & Hfalse & _).
  rewrite Hrun, (Hfalse eq_refl). reflexivity.
Defined.

(** X16, a witness: with an empty token nothing is sent; with the three
    settings, a sender and a number without the prefix get it. *)
Lemma twilio_send_outcome_witness :
  twilio_service.send_whatsapp_message
    (twilio_settings (Some "AC0123") (Some "") (Some "+14155238886"))
    "whatsapp:+441234567890" (Text NO_DATA_REPLY) []
  = (Ok false, []) /\
  twilio_service.send_whatsapp_message
    (twilio_settings (Some "AC0123") (Some "token") (Some "+14155238886"))
    "+441234567890" (Text NO_DATA_REPLY) []
  = (Ok true,
     [ {| twilio_service.account_sid := "AC0123";
          twilio_service.auth_token := "token";
          twilio_service.body := Text NO_DATA_REPLY;
          twilio_service.from_ := "whatsapp:+14155238886";
          twilio_service.to := "whatsapp:+441234567890" |} ]).
Proof.
  split.
  - destruct (twilio_send_outcome
                (twilio_settings (Some "AC0123") (Some "") (Some "+14155238886"))
                "whatsapp:+441234567890" (Text NO_DATA_REPLY) [])
      as (sent & new & Hrun & Hoff & _).
    destruct (Hoff eq_refl) as [-> ->]. exact Hrun.
  - destruct (twilio_send_outcome
                (twilio_settings (Some "AC0123") (Some "token") (Some "+14155238886"))
                "+441234567890" (Text NO_DATA_REPLY) [])
      as (sent & new & Hrun & _ & Hon).
    destruct (Hon eq_refl)
      as ([sid token body from_ to] & -> & -> & Hbody & Hto & Hfrom & Hsid & Htoken).
    simpl in *. injection Hsid as <-. injection Htoken as <-. subst body to from_.
    exact Hrun.
Defined.

(** X17, the witness: a sink that always answers [False]. *)
Lemma webhook_ignores_send_result_witness :
  webhook (rt := cpython)
    {| CHECKWX_API_KEY := CHECKWX_API_KEY refused_world;
       network := network refused_world;
       twilio := fun _ _ _ => false |}
    "gatwick metar" "whatsapp:+441234567890" []
  = webhook (rt := cpython) refused_world "gatwick metar" "whatsapp:+441234567890" [].
Proof.
  apply (webhook_ignores_send_result (rt := cpython)); reflexivity.
Defined.
